(** * TikTok-Api scraper toolkit: a shallow embedding

    The development follows the three Python sources

      - [Scraper/extract_ms_token.py]    (the cookie locator),
      - [Scraper/tiktok_scraper.py]      (the scrape dispatcher),
      - [Scraper/tiktok_scraper_mock.py] (the mock generator),

    and states the properties of the specification over them.

    Python code is embedded in a small monad [M] that records what the
    program prints, writes and requests, and that carries Python's two ways
    of leaving a block early: a raised exception, and [sys.exit].  The
    collaborators the programs talk to (the file system, the SQLite engine,
    [argparse], the remote client library) are modelled just far enough to
    run the code on concrete inputs. *)

From Stdlib Require Import List String Ascii ZArith NArith Bool Arith Lia.
From Stdlib Require Import Sorting.Permutation.
From Stdlib Require Import DecimalString.
Import ListNotations.

Set Implicit Arguments.
Set Warnings "-register-all,-abstract-large-number".

(* ===================================================================== *)
(** * Python values *)
(* ===================================================================== *)

Module Py.

(** A Python [str] is a sequence of Unicode code points; a [bytes] object is
    a sequence of octets.  Both are lists of numbers here. *)
Definition pystr := list N.
Definition pybytes := list N.

(** [py "text"] is the [str] literal with the given (ASCII) characters. *)
Definition py (x : string) : pystr :=
  List.map N_of_ascii (list_ascii_of_string x).

Fixpoint str_eqb (a b : pystr) : bool :=
  match a, b with
  | [], [] => true
  | x :: a', y :: b' => N.eqb x y && str_eqb a' b'
  | _, _ => false
  end.

(** [x.startswith(prefix)] *)
Fixpoint startswith (x prefix : pystr) : bool :=
  match prefix, x with
  | [], _ => true
  | p :: prefix', c :: x' => N.eqb c p && startswith x' prefix'
  | _ :: _, [] => false
  end.

(** [needle in x] for strings. *)
Fixpoint contains (x needle : pystr) : bool :=
  startswith x needle ||
  match x with
  | [] => false
  | _ :: x' => contains x' needle
  end.

(** The code points for which [str.isspace] holds; [str.strip()] removes
    them from both ends. *)
Definition is_space (c : N) : bool :=
  (((9 <=? c) && (c <=? 13)) || ((28 <=? c) && (c <=? 32))
  || (c =? 133) || (c =? 160) || (c =? 5760)
  || ((8192 <=? c) && (c <=? 8202))
  || (c =? 8232) || (c =? 8233) || (c =? 8239) || (c =? 8287)
  || (c =? 12288))%N.

(** The octets [bytes.strip()] removes: space, tab, newline, return,
    vertical tab, form feed. *)
Definition is_bspace (c : N) : bool :=
  (((9 <=? c) && (c <=? 13)) || (c =? 32))%N.

Fixpoint lstrip (sp : N -> bool) (x : list N) : list N :=
  match x with
  | [] => []
  | c :: x' => if sp c then lstrip sp x' else x
  end.

Definition rstrip (sp : N -> bool) (x : list N) : list N :=
  rev (lstrip sp (rev x)).

Definition strip_with (sp : N -> bool) (x : list N) : list N :=
  rstrip sp (lstrip sp x).

Definition strip (x : pystr) : pystr := strip_with is_space x.
Definition bstrip (x : pybytes) : pybytes := strip_with is_bspace x.

(** [str.lower()], on the ASCII letters.  The programs only compare the
    result with the ASCII words [firefox], [chrome] and [edge]; no code point
    outside ASCII lowers to a letter of these words. *)
Definition lower_char (c : N) : N :=
  (if (65 <=? c) && (c <=? 90) then c + 32 else c)%N.

Definition lower (x : pystr) : pystr := List.map lower_char x.

(** [x.split(sep)] for a one-character separator. *)
Fixpoint split_on (sep : N) (x : pystr) : list pystr :=
  match x with
  | [] => [[]]
  | c :: x' =>
      if N.eqb c sep then [] :: split_on sep x'
      else match split_on sep x' with
           | [] => [[c]]
           | w :: ws => (c :: w) :: ws
           end
  end.

(** [sep.join(parts)] *)
Fixpoint join (sep : pystr) (parts : list pystr) : pystr :=
  match parts with
  | [] => []
  | [p] => p
  | p :: rest => p ++ sep ++ join sep rest
  end.

(** ** Decoding UTF-8

    [decode_utf8 b] is [b.decode('utf-8')]: [Some] of the code points, or
    [None] where Python raises [UnicodeDecodeError] (a stray continuation
    octet, a truncated or overlong sequence, a surrogate, a value above
    U+10FFFF). *)
Definition cont (b : N) : bool := ((128 <=? b) && (b <=? 191))%N.
Definition low6 (b : N) : N := N.land b 63.

Fixpoint decode_utf8 (b : pybytes) : option pystr :=
  match b with
  | [] => Some []
  | b0 :: r0 =>
      if b0 <? 128 then option_map (cons b0) (decode_utf8 r0)
      else if (194 <=? b0) && (b0 <=? 223) then
        match r0 with
        | b1 :: r1 =>
            if cont b1
            then option_map (cons (N.lor (N.shiftl (N.land b0 31) 6) (low6 b1)))
                            (decode_utf8 r1)
            else None
        | _ => None
        end
      else if (224 <=? b0) && (b0 <=? 239) then
        match r0 with
        | b1 :: b2 :: r2 =>
            if cont b1 && cont b2
               && (negb (b0 =? 224) || (160 <=? b1))
               && (negb (b0 =? 237) || (b1 <=? 159))
            then option_map
                   (cons (N.lor (N.shiftl (N.land b0 15) 12)
                            (N.lor (N.shiftl (low6 b1) 6) (low6 b2))))
                   (decode_utf8 r2)
            else None
        | _ => None
        end
      else if (240 <=? b0) && (b0 <=? 244) then
        match r0 with
        | b1 :: b2 :: b3 :: r3 =>
            if cont b1 && cont b2 && cont b3
               && (negb (b0 =? 240) || (144 <=? b1))
               && (negb (b0 =? 244) || (b1 <=? 143))
            then option_map
                   (cons (N.lor (N.shiftl (N.land b0 7) 18)
                            (N.lor (N.shiftl (low6 b1) 12)
                               (N.lor (N.shiftl (low6 b2) 6) (low6 b3)))))
                   (decode_utf8 r3)
            else None
        | _ => None
        end
      else None
  end%N.

(** ** Exceptions

    The exception classes the programs meet.  [KeyboardInterrupt] is a
    [BaseException] that is not an [Exception]; [OperationalError] is
    [sqlite3.OperationalError]; [DatabaseError] stands for the other
    [sqlite3] errors (a file that is not a database); [UnicodeEncodeError]
    is what [print] raises on text the console's encoding does not have;
    [OtherError] stands for any further subclass of [Exception] the
    environment may raise. *)
Inductive exn : Type :=
| KeyboardInterrupt
| OperationalError (msg : string)
| DatabaseError (msg : string)
| UnicodeDecodeError
| AttributeError
| TypeError
| OSError (msg : string)
| OtherError (msg : string)
| UnicodeEncodeError.

(** [except Exception] *)
Definition is_Exception (e : exn) : bool :=
  match e with KeyboardInterrupt => false | _ => true end.

(** [except OperationalError] *)
Definition is_OperationalError (e : exn) : bool :=
  match e with OperationalError _ => true | _ => false end.

(** [except UnicodeDecodeError] *)
Definition is_UnicodeDecodeError (e : exn) : bool :=
  match e with UnicodeDecodeError => true | _ => false end.

(** [except KeyboardInterrupt] *)
Definition is_KeyboardInterrupt (e : exn) : bool :=
  match e with KeyboardInterrupt => true | _ => false end.

(** ** JSON-like data: what [as_dict], [info()] and [json.dump] exchange *)
Inductive json : Type :=
| JNull
| JBool (b : bool)
| JNum (z : Z)
| JStr (s : pystr)
| JArr (items : list json)
| JObj (fields : list (pystr * json)).

(** ** What a run leaves behind *)

(** The pieces of a formatted message (an f-string): program text, a [str],
    a number, an exception, a JSON value, a [bytes] object. *)
Inductive piece : Type :=
| Lit (s : string)
| Txt (s : pystr)
| Int (z : Z)
| Exc (e : exn)
| Val (j : json)
| Raw (b : pybytes).

(** The calls into the remote client library. *)
Inductive request : Type :=
| CreateSessions (ms_token : pystr)
| UserInfo (username : pystr)
| UserVideos (username : pystr) (count : Z)
| TrendingVideos (count : Z)
| HashtagVideos (hashtag : pystr) (count : Z)
| VideoInfo (by_url : bool) (video : pystr)
| VideoComments (video : pystr) (count : option Z).

Inductive event : Type :=
| Print (msg : list piece)                   (* print(...) *)
| Stderr (msg : list piece)                  (* usage errors, tracebacks *)
| Remote (r : request)                       (* a call into TikTokApi *)
| ReadFile (file : pystr)                    (* open(file).read() *)
| OpenForWrite (file : pystr)                (* open(file, 'w') *)
| WriteText (file : pystr) (text : piece)    (* f.write(...) *)
| JsonDump (file : pystr) (data : json)      (* json.dump(data, f) *)
| CsvRow (file : pystr) (row : list json)    (* writer.writerow(row) *)
| Connect (uri : pystr).                     (* sqlite3.connect(uri, uri=True) *)

(** ** The monad

    A computation yields the events it produced and how it ended: with a
    value, with an exception still propagating, or with [sys.exit(code)]
    ([SystemExit], which no handler of these programs catches). *)
Inductive outcome (A : Type) : Type :=
| Ok (a : A)
| Raise (e : exn)
| Exit (code : Z).

Arguments Raise {A} e.
Arguments Exit {A} code.

Definition M (A : Type) : Type := (list event * outcome A)%type.

Definition ret {A} (a : A) : M A := ([], Ok a).

Definition bind {A B} (m : M A) (f : A -> M B) : M B :=
  match m with
  | (t, Ok a) => let (t', o) := f a in (t ++ t', o)
  | (t, Raise e) => (t, Raise e)
  | (t, Exit c) => (t, Exit c)
  end.

Definition raise {A} (e : exn) : M A := ([], Raise e).
Definition sys_exit {A} (code : Z) : M A := ([], Exit code).
Definition emit (ev : event) : M unit := ([ev], Ok tt).

(** [print(...)] of a message the console takes.  Where a program prints
    the names of files it finds on disk, as the locator does, the console's
    encoding is part of its world: see [Locator.print_on]. *)
Definition print (msg : list piece) : M unit := emit (Print msg).

(** [try: m  except <class>: h e] — the handler runs when [m] raises an
    exception of the class; anything else passes through. *)
Definition try_except {A} (m : M A) (class : exn -> bool) (h : exn -> M A)
  : M A :=
  match m with
  | (t, Raise e) => if class e then let (t', o) := h e in (t ++ t', o) else m
  | _ => m
  end.

Definition trace {A} (m : M A) : list event := fst m.
Definition result {A} (m : M A) : outcome A := snd m.

(** The status the process ends with when [m] is the whole program: 0 when
    it runs off its end, the argument of [sys.exit], and 1 when an
    exception reaches the top level. *)
Definition exit_status {A} (m : M A) : Z :=
  match result m with
  | Ok _ => 0
  | Exit c => c
  | Raise _ => 1
  end.

(** [for x in l: body x], where the body may [return] from the enclosing
    function: [Some v] is a [return v], [None] falls through to the next
    element. *)
Fixpoint for_return {X R} (l : list X) (body : X -> M (option R))
  : M (option R) :=
  match l with
  | [] => ret None
  | x :: l' =>
      bind (body x) (fun r =>
        match r with
        | Some v => ret (Some v)
        | None => for_return l' body
        end)
  end.

End Py.

Export Py.

Declare Scope py_scope.
Delimit Scope py_scope with py_m.
Notation "x <- m ;; k" := (bind m (fun x => k))
  (at level 100, m at next level, right associativity) : py_scope.
Notation "m ;;; k" := (bind m (fun _ => k))
  (at level 100, right associativity) : py_scope.
Open Scope py_scope.

(* ===================================================================== *)
(** * [argparse], as far as the three parsers use it *)
(* ===================================================================== *)

Module Argparse.

(** [parser.error(message)]: a usage message on standard error and exit
    status 2. *)
Definition parser_error {A} (message : list piece) : M A :=
  emit (Stderr (Lit "usage: " :: Lit "error: " :: message)) ;;;
  sys_exit 2.

(** An option declared with [choices]: a value outside them is an error. *)
Definition check_choice (opt : string) (choices : list pystr)
  (v : option pystr) : M unit :=
  match v with
  | Some x =>
      if existsb (str_eqb x) choices then ret tt
      else parser_error [Lit "argument "; Lit opt; Lit ": invalid choice: ";
                         Txt x]
  | None => ret tt
  end.

End Argparse.

Export Argparse.

(* ===================================================================== *)
(** * The SQLite engine, as far as the locator's queries go *)
(* ===================================================================== *)

Module Sqlite.

(** A value stored in a cell: SQLite is dynamically typed. *)
Inductive sqlval : Type :=
| VNull
| VInt (z : Z)
| VText (s : pystr)
| VBlob (b : pybytes).

(** The tables and columns the queries of [extract_ms_token.py] name. *)
Inductive table_name : Type := moz_cookies | cookies.
Inductive column : Type := Name | Host | BaseDomain | HostKey | Value.

(** The [WHERE] clauses: [col = 'lit'], [col LIKE 'pat'], [AND], [OR]. *)
Inductive cond : Type :=
| Eq (c : column) (lit : pystr)
| Like (c : column) (pat : pystr)
| And (a b : cond)
| Or (a b : cond).

(** [SELECT COUNT] of all rows or [SELECT col]. *)
Inductive projection : Type := CountAll | Col (c : column).

Record query : Type := Select
  { q_select : projection; q_from : table_name; q_where : cond }.

(** A cookie row.  [r_host] is column [host] of [moz_cookies] and column
    [host_key] of [cookies]. *)
Record row : Type := Row
  { r_name : pystr; r_host : pystr; r_baseDomain : pystr; r_value : sqlval }.

Record table : Type := Table
  { t_columns : list column; t_rows : list row }.

Record database : Type := Db
  { db_moz_cookies : option table; db_cookies : option table }.

(** What [connect] and [execute] do with a file:
    - [Unopenable e]: [connect] raises [e] (a directory, a file in a
      directory that is missing, permissions, or the user's interrupt
      arriving at this point);
    - [Failing e]: the file opens and every statement raises [e] (a file that
      is not a database, a locked database);
    - [Database db]: an SQLite database with the given tables. *)
Inductive dbfile : Type :=
| Unopenable (e : exn)
| Failing (e : exn)
| Database (db : database).

Definition column_eqb (a b : column) : bool :=
  match a, b with
  | Name, Name | Host, Host | BaseDomain, BaseDomain
  | HostKey, HostKey | Value, Value => true
  | _, _ => false
  end.

Definition has_column (t : table) (c : column) : bool :=
  existsb (column_eqb c) (t_columns t).

Definition cell (r : row) (c : column) : sqlval :=
  match c with
  | Name => VText (r_name r)
  | Host | HostKey => VText (r_host r)
  | BaseDomain => VText (r_baseDomain r)
  | Value => r_value r
  end.

(** [s LIKE pat]: [%] matches any run of characters, [_] any single one, and
    ASCII letters match without regard to case. *)
Fixpoint like (pat : pystr) : pystr -> bool :=
  match pat with
  | [] => fun s => match s with [] => true | _ => false end
  | p :: pat' =>
      if N.eqb p 37 then
        fix star (s : pystr) : bool :=
          like pat' s || match s with [] => false | _ :: s' => star s' end
      else if N.eqb p 95 then
        fun s => match s with [] => false | _ :: s' => like pat' s' end
      else
        fun s => match s with
                 | [] => false
                 | c :: s' => N.eqb (lower_char c) (lower_char p) && like pat' s'
                 end
  end.

Fixpoint cond_columns (c : cond) : list column :=
  match c with
  | Eq col _ | Like col _ => [col]
  | And a b | Or a b => cond_columns a ++ cond_columns b
  end.

Fixpoint holds (c : cond) (r : row) : bool :=
  match c with
  | Eq col lit =>
      match cell r col with VText s => str_eqb s lit | _ => false end
  | Like col pat =>
      match cell r col with VText s => like pat s | _ => false end
  | And a b => holds a r && holds b r
  | Or a b => holds a r || holds b r
  end.

Definition table_of (db : database) (t : table_name) : option table :=
  match t with
  | moz_cookies => db_moz_cookies db
  | cookies => db_cookies db
  end.

Definition projection_columns (p : projection) : list column :=
  match p with CountAll => [] | Col c => [c] end.

(** The rows a query selects, in table order. *)
Definition matching (t : table) (q : query) : list row :=
  filter (holds (q_where q)) (t_rows t).

(** A statement compiles against a table that has every column it names. *)
Definition compiles (t : table) (q : query) : bool :=
  forallb (has_column t)
    (projection_columns (q_select q) ++ cond_columns (q_where q)).

(** [conn.execute(q).fetchone()] on a database.  The statement is compiled
    first: an unknown table or column is an [OperationalError].  The result
    is the first row of the answer (here a single cell), or [None]. *)
Definition fetchone (db : database) (q : query) : M (option sqlval) :=
  match table_of db (q_from q) with
  | None => raise (OperationalError "no such table")
  | Some t =>
      if compiles t q
      then
        match q_select q with
        | CountAll => ret (Some (VInt (Z.of_nat (List.length (matching t q)))))
        | Col c =>
            match matching t q with
            | [] => ret None
            | r :: _ => ret (Some (cell r c))
            end
        end
      else raise (OperationalError "no such column")
  end.

(** An open connection remembers which file it reads. *)
Inductive connection : Type :=
| ConnFailing (e : exn)
| ConnDb (db : database).

Definition connect_file (f : dbfile) : M connection :=
  match f with
  | Unopenable e => raise e
  | Failing e => ret (ConnFailing e)
  | Database db => ret (ConnDb db)
  end.

Definition execute_fetchone (c : connection) (q : query)
  : M (option sqlval) :=
  match c with
  | ConnFailing e => raise e
  | ConnDb db => fetchone db q
  end.

(** Python's truth value of a cell. *)
Definition truthy (v : sqlval) : bool :=
  match v with
  | VNull => false
  | VInt z => negb (Z.eqb z 0)
  | VText s => negb (str_eqb s [])
  | VBlob b => negb (str_eqb b [])
  end.

(** [result and result[0] > 0] for the one-cell row of a [COUNT] query;
    comparing a non-number with [0] is a [TypeError]. *)
Definition count_positive (result : option sqlval) : M bool :=
  match result with
  | None => ret false
  | Some (VInt n) => ret (0 <? n)%Z
  | Some _ => raise TypeError
  end.

End Sqlite.

Export Sqlite.

(* ===================================================================== *)
(** * The file system under the user's home directory *)
(* ===================================================================== *)

Module Fs.

(** A path is the list of its components below the home directory:
    [~/.config/google-chrome] is [[".config"; "google-chrome"]]. *)
Definition path := list pystr.

(** Directory entries are kept in the order [os.scandir] reports them.  A
    [BrokenLink] is a symbolic link whose target is missing: [lexists] sees
    it, [exists] does not. *)
Inductive node : Type :=
| File (f : dbfile)
| Dir (entries : list (pystr * node))
| BrokenLink.

Fixpoint assoc {V} (k : pystr) (l : list (pystr * V)) : option V :=
  match l with
  | [] => None
  | (k', v) :: l' => if str_eqb k k' then Some v else assoc k l'
  end.

Fixpoint lookup (n : node) (p : path) : option node :=
  match p with
  | [] => Some n
  | c :: p' =>
      match n with
      | Dir entries =>
          match assoc c entries with
          | Some child => lookup child p'
          | None => None
          end
      | _ => None
      end
  end.

(** [os.path.exists] *)
Definition path_exists (root : node) (p : path) : bool :=
  match lookup root p with
  | Some BrokenLink | None => false
  | Some _ => true
  end.

(** [os.path.expanduser] of a pattern written [~/a/b/c]. *)
Definition expanduser (p : pystr) : path :=
  match split_on 47 p with
  | first :: rest => if str_eqb first (py "~") then rest else first :: rest
  | [] => []
  end.

(** The absolute path as text, for messages. *)
Definition path_str (p : path) : pystr := py "~/" ++ join (py "/") p.

(** ** [fnmatch]: shell-style matching of one path component *)
Inductive tok : Type :=
| TStar
| TAny
| TLit (c : N)
| TClass (negated : bool) (ranges : list (N * N)).

(** The body of a bracket expression up to its closing bracket: single
    characters and [lo-hi] ranges. *)
Fixpoint class_body (p : pystr) (acc : list (N * N))
  : option (list (N * N) * pystr) :=
  match p with
  | [] => None
  | c :: rest =>
      if N.eqb c 93 then Some (rev acc, rest)
      else
        match rest with
        | d :: hi :: rest' =>
            if N.eqb d 45 && negb (N.eqb hi 93)
            then class_body rest' ((c, hi) :: acc)
            else class_body rest ((c, c) :: acc)
        | _ => class_body rest ((c, c) :: acc)
        end
  end.

Fixpoint tokens (fuel : nat) (p : pystr) : list tok :=
  match fuel with
  | O => []
  | S fuel' =>
      match p with
      | [] => []
      | c :: rest =>
          if N.eqb c 42 then TStar :: tokens fuel' rest
          else if N.eqb c 63 then TAny :: tokens fuel' rest
          else if N.eqb c 91 then
            let '(neg, body) :=
              match rest with
              | b :: r => if N.eqb b 33 then (true, r) else (false, rest)
              | [] => (false, rest)
              end in
            match class_body body [] with
            | Some (ranges, rest') => TClass neg ranges :: tokens fuel' rest'
            | None => TLit c :: tokens fuel' rest
            end
          else TLit c :: tokens fuel' rest
      end
  end.

Definition in_class (ranges : list (N * N)) (c : N) : bool :=
  existsb (fun r => N.leb (fst r) c && N.leb c (snd r)) ranges.

Fixpoint match_tokens (ts : list tok) : pystr -> bool :=
  match ts with
  | [] => fun s => match s with [] => true | _ => false end
  | t :: ts' =>
      match t with
      | TStar =>
          fix star (s : pystr) : bool :=
            match_tokens ts' s ||
            match s with [] => false | _ :: s' => star s' end
      | TAny =>
          fun s => match s with [] => false | _ :: s' => match_tokens ts' s' end
      | TLit c =>
          fun s => match s with
                   | [] => false
                   | d :: s' => N.eqb d c && match_tokens ts' s'
                   end
      | TClass neg ranges =>
          fun s => match s with
                   | [] => false
                   | d :: s' =>
                       xorb neg (in_class ranges d) && match_tokens ts' s'
                   end
      end
  end.

Definition fnmatch (name pat : pystr) : bool :=
  match_tokens (tokens (List.length pat) pat) name.

(** [glob.has_magic] *)
Definition has_magic (pat : pystr) : bool :=
  existsb (fun c => N.eqb c 42 || N.eqb c 63 || N.eqb c 91) pat.

Definition is_hidden (name : pystr) : bool := startswith name (py ".").

(** [glob.glob] below a node, one pattern component at a time.  A component
    with wildcards is matched against the directory's entries in listing
    order (hidden names only when the component itself starts with a dot); a
    literal component is looked up.  Only a directory can be descended into;
    the last component just has to be there ([lexists]). *)
Fixpoint glob_from (n : node) (prefix : path) (pat : list pystr)
  : list path :=
  match pat with
  | [] => [prefix]
  | c :: rest =>
      match n with
      | Dir entries =>
          if has_magic c then
            flat_map
              (fun e : pystr * node =>
                 if fnmatch (fst e) c
                    && (negb (is_hidden (fst e)) || is_hidden c)
                 then glob_from (snd e) (prefix ++ [fst e]) rest
                 else [])
              entries
          else
            match assoc c entries with
            | Some child => glob_from child (prefix ++ [c]) rest
            | None => []
            end
      | _ => []
      end
  end.

Definition glob (root : node) (pat : path) : list path :=
  glob_from root [] pat.

End Fs.

Export Fs.

(* ===================================================================== *)
(** * The file SQLite opens for a URI *)
(* ===================================================================== *)

Module Uri.

(** SQLite reads the text [file:<name>?<parameters>#<fragment>] by its own
    rules: the name ends at the first [?] or [#], and [%HH] in it stands
    for the byte with that code ([%00] ends the name).  A directory named
    [Profile #1] thus makes SQLite open [Profile ], not the cookie file
    below the directory.  A name without [?], [#] and [%] is taken as it
    is. *)
Definition hex_value (c : N) : option N :=
  (if (48 <=? c) && (c <=? 57) then Some (c - 48)
   else if (97 <=? c) && (c <=? 102) then Some (c - 87)
   else if (65 <=? c) && (c <=? 70) then Some (c - 55)
   else None)%N.

Fixpoint file_name (s : pystr) : pystr :=
  match s with
  | [] => []
  | c :: rest =>
      if N.eqb c 35 || N.eqb c 63 then []
      else if N.eqb c 37 then
        match rest with
        | h :: l :: rest' =>
            match hex_value h, hex_value l with
            | Some a, Some b =>
                if N.eqb (16 * a + b) 0 then []
                else (16 * a + b)%N :: file_name rest'
            | _, _ => c :: file_name rest
            end
        | _ => c :: file_name rest
        end
      else c :: file_name rest
  end.

(** What opening the file at a path of the tree gives.  Where nothing is at
    the path but its directory is there, SQLite creates the file: an empty
    database.  A directory cannot be opened; neither can a dangling link,
    whose target is taken to lie in a directory that is missing too. *)
Definition open_path (root : node) (p : path) : dbfile :=
  match lookup root p with
  | Some (File f) => f
  | Some (Dir _) | Some BrokenLink =>
      Unopenable (OperationalError "unable to open database file")
  | None =>
      match lookup root (removelast p) with
      | Some (Dir _) => Database (Db None None)
      | _ => Unopenable (OperationalError "unable to open database file")
      end
  end.

(** An ordinary path: it has a component, and no component holds [#], [?],
    [%] or [/]. *)
Definition plain_char (c : N) : bool :=
  negb (N.eqb c 35 || N.eqb c 63 || N.eqb c 37 || N.eqb c 47).

Definition plain (p : path) : bool :=
  negb (match p with [] => true | _ => false end)
  && forallb (forallb plain_char) p.

(** SQLite on the tree [root]: the scheme [file:] is dropped, the name is
    read, and the file it designates is opened.  (Names are ASCII here, and
    what follows a [?] inside a name is taken to hold none of the parameters
    SQLite interprets itself.) *)
Definition open_uri (root : node) (uri : pystr) : dbfile :=
  open_path root (expanduser (file_name (skipn 5 uri))).

End Uri.

Export Uri.

(* ===================================================================== *)
(** * [extract_ms_token.py]: the cookie locator *)
(* ===================================================================== *)

Module Locator.

(** What a run of the locator depends on:
    - [system]: the platform name ([platform.system()]);
    - [home]: the tree under the home directory, as [glob] and [exists] see
      it during the run.  The tree is taken to stay as it is: a file that
      SQLite creates on the way shows as the [Connect] event of the call,
      and is not entered into the tree;
    - [sqlite]: what SQLite does with the text it is given as a URI.  The
      locator writes the path into the URI as it is, so the file SQLite
      opens is the one its URI rules make of that text, which need not be
      the file at the path (see [Uri]);
    - [writable]: which output files can be opened for writing;
    - [console]: which characters beyond ASCII the encoding of the console
      has. *)
Record world : Type := World
  { system : pystr;
    home : node;
    sqlite : pystr -> dbfile;
    writable : pystr -> bool;
    console : N -> bool }.

Definition GREEN : string := "[OK]".
Definition RED : string := "[X]".
Definition YELLOW : string := "[!]".
Definition CYAN : string := "[*]".

(** [print(...)].  Text the console's encoding does not have raises
    [UnicodeEncodeError], and nothing of the line is written.  ASCII is
    taken to be in every console's encoding: the program text of a message,
    numbers, the text of an exception and the [repr] of a [bytes] object
    are ASCII.  The [str] pieces are paths, file names and tokens. *)
Definition encodable (w : world) (s : pystr) : bool :=
  forallb (fun c => (c <? 128)%N || console w c) s.

Definition printable (w : world) (msg : list piece) : bool :=
  forallb (fun p => match p with Txt s => encodable w s | _ => true end) msg.

Definition print_on (w : world) (msg : list piece) : M unit :=
  if printable w msg then print msg else raise UnicodeEncodeError.

Arguments encodable : simpl never.

(** [f"file:{cookiefile}?immutable=1"] *)
Definition cookie_uri (cookiefile : path) : pystr :=
  py "file:" ++ path_str cookiefile ++ py "?immutable=1".

(** [connect(f"file:{cookiefile}?immutable=1", uri=True)].  The call is an
    event of the run: SQLite creates the file the URI designates when it is
    missing and its directory is there. *)
Definition connect (w : world) (cookiefile : path) : M connection :=
  emit (Connect (cookie_uri cookiefile)) ;;;
  connect_file (sqlite w (cookie_uri cookiefile)).

(** [conn.close()] *)
Definition close (c : connection) : M unit := ret tt.

Definition name_is_token : cond :=
  Or (Eq Name (py "msToken")) (Eq Name (py "ms_token")).

Definition baseDomain_is_tiktok : cond :=
  Or (Eq BaseDomain (py "tiktok.com")) (Eq BaseDomain (py ".tiktok.com")).

(** The [try] block of [has_tiktok_cookies]: [Some b] is a [return b] from
    inside the block, [None] means the block ran to its end. *)
Definition has_tiktok_cookies_block (w : world) (cookiefile : path)
  (is_firefox : bool) : M (option bool) :=
  if is_firefox then
    conn <- connect w cookiefile ;;
    r <- try_except
           (result <- execute_fetchone conn
                        (Select CountAll moz_cookies
                           (And name_is_token baseDomain_is_tiktok)) ;;
            found <- count_positive result ;;
            if found then ret (Some true)
            else
              result <- execute_fetchone conn
                          (Select CountAll moz_cookies baseDomain_is_tiktok) ;;
              found <- count_positive result ;;
              if found then ret (Some true) else ret None)
           is_OperationalError
           (fun _ =>
              result <- execute_fetchone conn
                          (Select CountAll moz_cookies
                             (And name_is_token
                                (Like Host (py "%tiktok.com")))) ;;
              found <- count_positive result ;;
              if found then ret (Some true)
              else
                result <- execute_fetchone conn
                            (Select CountAll moz_cookies
                               (Like Host (py "%tiktok.com"))) ;;
                found <- count_positive result ;;
                if found then ret (Some true) else ret None) ;;
    match r with
    | Some b => ret (Some b)
    | None => close conn ;;; ret None
    end
  else
    conn <- connect w cookiefile ;;
    result <- execute_fetchone conn
                (Select CountAll cookies
                   (And name_is_token (Like HostKey (py "%tiktok.com")))) ;;
    found <- count_positive result ;;
    if found then ret (Some true)
    else
      result <- execute_fetchone conn
                  (Select CountAll cookies (Like HostKey (py "%tiktok.com"))) ;;
      found <- count_positive result ;;
      if found then ret (Some true)
      else close conn ;;; ret None.

(** [has_tiktok_cookies(cookiefile, is_firefox)]: the block under
    [except Exception: pass], then [return False]. *)
Definition has_tiktok_cookies (w : world) (cookiefile : path)
  (is_firefox : bool) : M bool :=
  r <- try_except (has_tiktok_cookies_block w cookiefile is_firefox)
         is_Exception (fun _ => ret None) ;;
  match r with
  | Some b => ret b
  | None => ret false
  end.

(** ** Ranking: the [prioritized] / [others] loops *)

(** The loop of [get_firefox_cookie_files]. *)
Fixpoint prioritize_firefox_loop (w : world) (cookiefiles : list path)
  (prioritized others : list path) : M (list path * list path) :=
  match cookiefiles with
  | [] => ret (prioritized, others)
  | cookiefile :: rest =>
      has <- has_tiktok_cookies w cookiefile true ;;
      if has
      then prioritize_firefox_loop w rest (prioritized ++ [cookiefile]) others
      else prioritize_firefox_loop w rest prioritized (others ++ [cookiefile])
  end.

Definition prioritize_firefox (w : world) (all_cookiefiles : list path)
  : M (list path) :=
  po <- prioritize_firefox_loop w all_cookiefiles [] [] ;;
  ret (fst po ++ snd po).

(** The loop of [get_chrome_cookie_files] and [get_edge_cookie_files]:
    [if exists(f) and has_tiktok_cookies(f, False)] ... [elif exists(f)]. *)
Fixpoint prioritize_chrome_edge_loop (w : world) (cookie_files : list path)
  (prioritized others : list path) : M (list path * list path) :=
  match cookie_files with
  | [] => ret (prioritized, others)
  | cookiefile :: rest =>
      has <- (if path_exists (home w) cookiefile
              then has_tiktok_cookies w cookiefile false
              else ret false) ;;
      if has
      then prioritize_chrome_edge_loop w rest
             (prioritized ++ [cookiefile]) others
      else if path_exists (home w) cookiefile
      then prioritize_chrome_edge_loop w rest
             prioritized (others ++ [cookiefile])
      else prioritize_chrome_edge_loop w rest prioritized others
  end.

Definition prioritize_chrome_edge (w : world) (cookie_files : list path)
  : M (list path) :=
  po <- prioritize_chrome_edge_loop w cookie_files [] [] ;;
  ret (fst po ++ snd po).

(** ** Enumerating the candidates *)

Definition firefox_cookie_patterns (platform : pystr) : list pystr :=
  if str_eqb platform (py "Windows") then
    [ py "~/AppData/Roaming/Mozilla/Firefox/Profiles/*/cookies.sqlite";
      py "~/AppData/Roaming/Mozilla/Firefox Developer Edition/Profiles/*/cookies.sqlite" ]
  else if str_eqb platform (py "Darwin") then
    [ py "~/Library/Application Support/Firefox/Profiles/*/cookies.sqlite";
      py "~/Library/Application Support/Firefox Developer Edition/Profiles/*/cookies.sqlite" ]
  else
    [ py "~/.mozilla/firefox/*/cookies.sqlite";
      py "~/.mozilla/firefox-developer-edition/*/cookies.sqlite" ].

Definition firefox_candidates (w : world) : list path :=
  flat_map (fun pattern => glob (home w) (expanduser pattern))
    (firefox_cookie_patterns (system w)).

Definition get_firefox_cookie_files (w : world) : M (list path) :=
  let all_cookiefiles := firefox_candidates w in
  match all_cookiefiles with
  | [] => ret []
  | _ => prioritize_firefox w all_cookiefiles
  end.

Definition chrome_base_paths (platform : pystr) : list pystr :=
  if str_eqb platform (py "Windows") then
    [ py "~/AppData/Local/Google/Chrome/User Data" ]
  else if str_eqb platform (py "Darwin") then
    [ py "~/Library/Application Support/Google/Chrome" ]
  else
    [ py "~/.config/google-chrome" ].

Definition edge_base_paths (platform : pystr) : list pystr :=
  if str_eqb platform (py "Windows") then
    [ py "~/AppData/Local/Microsoft/Edge/User Data" ]
  else if str_eqb platform (py "Darwin") then
    [ py "~/Library/Application Support/Microsoft Edge" ]
  else
    [ py "~/.config/microsoft-edge" ].

(** The [for base_path in base_paths] loop both functions share: the
    [Default] profile, then the matches of [Profile *], then the matches of
    [Profile [0-9]*]. *)
Definition profile_candidates (w : world) (base_paths : list pystr)
  : list path :=
  flat_map
    (fun base_path =>
       let expanded_base := expanduser base_path in
       if negb (path_exists (home w) expanded_base) then []
       else
         let default_cookies :=
           expanduser (base_path ++ py "/Default/Cookies") in
         (if path_exists (home w) default_cookies
          then [default_cookies] else [])
         ++ glob (home w) (expanduser (base_path ++ py "/Profile */Cookies"))
         ++ glob (home w)
              (expanduser (base_path ++ py "/Profile [0-9]*/Cookies")))
    base_paths.

Definition chrome_candidates (w : world) : list path :=
  profile_candidates w (chrome_base_paths (system w)).

Definition edge_candidates (w : world) : list path :=
  profile_candidates w (edge_base_paths (system w)).

Definition get_chrome_cookie_files (w : world) : M (list path) :=
  prioritize_chrome_edge w (chrome_candidates w).

Definition get_edge_cookie_files (w : world) : M (list path) :=
  prioritize_chrome_edge w (edge_candidates w).

(** ** Extraction from one cookie file *)

(** What the extraction functions return: a [str], or (from a blob cell in a
    Firefox database) a [bytes] object. *)
Inductive token : Type :=
| TokStr (s : pystr)
| TokBytes (b : pybytes).

Definition token_truthy (t : token) : bool :=
  match t with
  | TokStr s => negb (str_eqb s [])
  | TokBytes b => negb (str_eqb b [])
  end.

Definition firefox_queries (cookie_name : pystr) : list query :=
  [ Select (Col Value) moz_cookies
      (And (Eq Name cookie_name) baseDomain_is_tiktok);
    Select (Col Value) moz_cookies
      (And (Eq Name cookie_name)
         (Or (Or (Or (Eq Host (py "tiktok.com")) (Eq Host (py ".tiktok.com")))
                (Eq Host (py "www.tiktok.com")))
            (Like Host (py "%.tiktok.com"))));
    Select (Col Value) moz_cookies
      (And (Eq Name cookie_name) (Like Host (py "%tiktok%"))) ].

Definition cookie_names : list pystr := [py "msToken"; py "ms_token"].

(** One turn of the inner [for query in queries] loop of
    [extract_ms_token_from_firefox]. *)
Definition firefox_try_query (conn : connection) (q : query)
  : M (option token) :=
  try_except
    (result <- execute_fetchone conn q ;;
     match result with
     | Some token_value =>
         if truthy token_value then
           match token_value with
           | VText s =>
               if (0 <? List.length (strip s))%nat
               then close conn ;;; ret (Some (TokStr (strip s)))
               else ret None
           | VBlob b =>
               if (0 <? List.length (bstrip b))%nat
               then close conn ;;; ret (Some (TokBytes (bstrip b)))
               else ret None
           | _ => raise AttributeError       (* no [strip] on a number *)
           end
         else ret None
     | None => ret None
     end)
    is_OperationalError
    (fun _ => ret None).

(** The closing check of [extract_ms_token_from_firefox], run only for its
    message. *)
Definition firefox_report_other_cookies (w : world) (cookiefile : path)
  : M unit :=
  try_except
    (conn <- connect w cookiefile ;;
     row <- try_except
              (execute_fetchone conn
                 (Select CountAll moz_cookies (Like Host (py "%tiktok.com"))))
              is_OperationalError
              (fun _ =>
                 execute_fetchone conn
                   (Select CountAll moz_cookies (Like Host (py "%tiktok%")))) ;;
     match row with
     | Some tiktok_cookie_count =>
         close conn ;;;
         match tiktok_cookie_count with
         | VInt n =>
             if (0 <? n)%Z then
               print_on w [Lit YELLOW; Lit " Found "; Int n;
                      Lit " TikTok cookies but no msToken/ms_token cookie"] ;;;
               print_on w [Lit YELLOW;
                      Lit " Tip: Visit https://www.tiktok.com in Firefox and browse for a moment to generate the msToken cookie"]
             else ret tt
         | _ => raise TypeError
         end
     | None => raise TypeError
     end)
    is_Exception
    (fun _ => ret tt).

Definition extract_ms_token_from_firefox (w : world) (cookiefile : path)
  : M (option token) :=
  r <- try_except
         (conn <- connect w cookiefile ;;
          found <- for_return cookie_names (fun cookie_name =>
                     for_return (firefox_queries cookie_name)
                       (firefox_try_query conn)) ;;
          match found with
          | Some t => ret (Some t)
          | None =>
              close conn ;;;
              firefox_report_other_cookies w cookiefile ;;;
              ret None
          end)
         is_Exception
         (fun e =>
            print_on w [Lit YELLOW; Lit " Warning: Could not extract from Firefox ";
                   Txt (path_str cookiefile); Lit ": "; Exc e] ;;;
            ret None) ;;
  ret r.

Definition chrome_edge_queries (cookie_name : pystr) : list query :=
  [ Select (Col Value) cookies
      (And (Eq Name cookie_name) (Like HostKey (py "%tiktok.com")));
    Select (Col Value) cookies
      (And (Eq Name cookie_name) (Like HostKey (py "%.tiktok.com")));
    Select (Col Value) cookies
      (And (Eq Name cookie_name) (Eq HostKey (py "www.tiktok.com")));
    Select (Col Value) cookies
      (And (Eq Name cookie_name) (Like HostKey (py "%tiktok%"))) ].

(** The two lines printed when a value is taken to be encrypted. *)
Definition encrypted_warning (w : world) (cookiefile : path) : M unit :=
  print_on w [Lit YELLOW; Lit " Warning: Cookie value appears encrypted in ";
         Txt (path_str cookiefile)] ;;;
  print_on w [Lit YELLOW;
         Lit " Tip: Close Chrome/Edge and try again, or use Firefox for automatic extraction"].

(** [decoded and decoded.strip() and not decoded.startswith('v1')] *)
Definition looks_plain (x : pystr) : bool :=
  negb (str_eqb x []) && negb (str_eqb (strip x) [])
  && negb (startswith x (py "v1")).

(** What [extract_ms_token_from_chrome_edge] does with a truthy cell:
    [Some t] returns [t] from the function, [None] goes on to the next
    query. *)
Definition chrome_edge_handle_value (w : world) (cookiefile : path)
  (conn : connection) (cookie_value : sqlval) : M (option token) :=
  match cookie_value with
  | VBlob b =>
      r <- try_except
             (match decode_utf8 b with
              | Some decoded =>
                  if looks_plain decoded
                  then close conn ;;; ret (Some (TokStr (strip decoded)))
                  else ret None
              | None => raise UnicodeDecodeError
              end)
             is_UnicodeDecodeError
             (fun _ => ret None) ;;
      match r with
      | Some t => ret (Some t)
      | None =>
          encrypted_warning w cookiefile ;;;
          ret None
      end
  | VText s =>
      if looks_plain s
      then close conn ;;; ret (Some (TokStr (strip s)))
      else ret None
  | _ => ret None
  end.

(** One turn of the inner [for query in queries] loop of
    [extract_ms_token_from_chrome_edge]; both [except] clauses [continue]. *)
Definition chrome_edge_try_query (w : world) (cookiefile : path)
  (conn : connection) (q : query) : M (option token) :=
  try_except
    (result <- execute_fetchone conn q ;;
     match result with
     | Some cookie_value =>
         if truthy cookie_value
         then chrome_edge_handle_value w cookiefile conn cookie_value
         else ret None
     | None => ret None
     end)
    is_Exception
    (fun e => if is_OperationalError e then ret None else ret None).

Definition extract_ms_token_from_chrome_edge (w : world) (cookiefile : path)
  : M (option token) :=
  r <- try_except
         (conn <- connect w cookiefile ;;
          found <- for_return cookie_names (fun cookie_name =>
                     for_return (chrome_edge_queries cookie_name)
                       (chrome_edge_try_query w cookiefile conn)) ;;
          match found with
          | Some t => ret (Some t)
          | None => close conn ;;; ret None
          end)
         is_Exception
         (fun e =>
            match e with
            | OperationalError msg =>
                if contains (lower (py msg)) (py "database is locked") then
                  print_on w [Lit YELLOW; Lit " Warning: ";
                         Txt (path_str cookiefile);
                         Lit " is locked (browser may be running)"] ;;;
                  print_on w [Lit YELLOW;
                         Lit " Tip: Close Chrome/Edge and try again, or use Firefox"] ;;;
                  ret None
                else
                  print_on w [Lit YELLOW; Lit " Warning: Could not read ";
                         Txt (path_str cookiefile); Lit ": "; Exc e] ;;;
                  ret None
            | _ =>
                print_on w [Lit YELLOW; Lit " Warning: Could not extract from ";
                       Txt (path_str cookiefile); Lit ": "; Exc e] ;;;
                ret None
            end) ;;
  ret r.

(** ** [extract_ms_token] *)

Definition upper_char (c : N) : N :=
  (if (97 <=? c) && (c <=? 122) then c - 32 else c)%N.

(** [str.capitalize()], on ASCII letters (used in messages only). *)
Definition capitalize (x : pystr) : pystr :=
  match x with
  | [] => []
  | c :: r => upper_char c :: lower r
  end.

Definition browsers_to_try (preferred_browser : option pystr) : list pystr :=
  match preferred_browser with
  | Some b =>
      if str_eqb b [] then [py "firefox"; py "chrome"; py "edge"]
      else
        let preferred_browser := lower b in
        if str_eqb preferred_browser (py "firefox") then [py "firefox"]
        else if str_eqb preferred_browser (py "chrome") then [py "chrome"]
        else if str_eqb preferred_browser (py "edge") then [py "edge"]
        else []
  | None => [py "firefox"; py "chrome"; py "edge"]
  end.

(** The part the three branches of the browser loop have in common: report
    the number of profiles, then try each file in turn. *)
Definition search_files (w : world) (label : string)
  (cookie_files : list path) (extract : path -> M (option token))
  : M (option token) :=
  match cookie_files with
  | [] =>
      print_on w [Lit YELLOW; Lit " No "; Lit label; Lit " cookie files found"] ;;;
      ret None
  | _ =>
      print_on w [Lit CYAN; Lit " Found ";
             Int (Z.of_nat (List.length cookie_files));
             Lit " "; Lit label; Lit " profile(s)"] ;;;
      for_return cookie_files (fun cookiefile =>
        print_on w [Lit CYAN; Lit " Checking "; Txt (path_str cookiefile);
               Lit "..."] ;;;
        ms_token <- extract cookiefile ;;
        match ms_token with
        | Some t =>
            if token_truthy t then
              print_on w [Lit GREEN; Lit " Found ms_token in "; Lit label;
                     Lit ": "; Txt (path_str cookiefile)] ;;;
              ret (Some t)
            else ret None
        | None => ret None
        end)
  end.

Definition try_browser (w : world) (browser : pystr) : M (option token) :=
  print_on w [Lit CYAN; Lit " Trying "; Txt (capitalize browser); Lit "..."] ;;;
  if str_eqb browser (py "firefox") then
    cookie_files <- get_firefox_cookie_files w ;;
    search_files w "Firefox" cookie_files (extract_ms_token_from_firefox w)
  else if str_eqb browser (py "chrome") then
    cookie_files <- get_chrome_cookie_files w ;;
    search_files w "Chrome" cookie_files (extract_ms_token_from_chrome_edge w)
  else if str_eqb browser (py "edge") then
    cookie_files <- get_edge_cookie_files w ;;
    search_files w "Edge" cookie_files (extract_ms_token_from_chrome_edge w)
  else ret None.

Definition extract_ms_token (w : world) (preferred_browser : option pystr)
  : M (option token) :=
  for_return (browsers_to_try preferred_browser) (try_browser w).

(** ** Saving the token, and the command-line entry point *)

Definition save_ms_token (w : world) (tok : token) (output_file : pystr)
  : M bool :=
  try_except
    ((if writable w output_file
      then emit (OpenForWrite output_file)
      else raise (OSError "cannot open output file")) ;;;
     match tok with
     | TokStr s => emit (WriteText output_file (Txt (strip s)))
     | TokBytes _ => raise TypeError   (* a text file takes no [bytes] *)
     end ;;;
     print_on w [Lit GREEN; Lit " ms_token saved to: "; Txt output_file] ;;;
     ret true)
    is_Exception
    (fun e =>
       print_on w [Lit RED; Lit " Error saving ms_token to "; Txt output_file;
              Lit ": "; Exc e] ;;;
       ret false).

(** The command line as the user gave it: which of [--browser],
    [--output] and [--stdout] are present, with which values. *)
Record argv : Type := Argv
  { opt_browser : option pystr; opt_output : option pystr;
    opt_stdout : bool }.

(** The parsed command line. *)
Record args : Type := Args
  { browser : option pystr; output : pystr; stdout : bool }.

Definition browser_choices : list pystr :=
  [py "firefox"; py "chrome"; py "edge"].

(** [argparse] on the parser of the [__main__] block: [--browser] has
    [choices], [--output] defaults to [ms_token.txt]. *)
Definition parse_args (a : argv) : M args :=
  check_choice "-b/--browser" browser_choices (opt_browser a) ;;;
  ret {| browser := opt_browser a;
         output := match opt_output a with
                   | Some f => f
                   | None => py "ms_token.txt"
                   end;
         stdout := opt_stdout a |}.

(** [print(ms_token)] *)
Definition print_token (w : world) (t : token) : M unit :=
  match t with
  | TokStr s => print_on w [Txt s]
  | TokBytes b => print_on w [Raw b]
  end.

(** [if ms_token:] holds for a value that is neither [None] nor empty. *)
Definition found_token (ms_token : option token) : option token :=
  match ms_token with
  | Some t => if token_truthy t then Some t else None
  | None => None
  end.

(** The [try] statement of the [__main__] block. *)
Definition search_and_deliver (w : world) (a : args) : M unit :=
  try_except
    (print_on w [Lit CYAN; Lit " Extracting ms_token from browser cookies..."] ;;;
     ms_token <- extract_ms_token w (browser a) ;;
     match found_token ms_token with
     | Some t =>
         (if stdout a then print_token w t
          else save_ms_token w t (output a) ;;; ret tt) ;;;
         sys_exit 0
     | None =>
         print_on w [Lit RED; Lit " Error: Could not find ms_token in any browser"] ;;;
         print_on w [Lit YELLOW;
                Lit " Make sure you are logged into TikTok in your browser"] ;;;
         print_on w [Lit YELLOW;
                Lit " If using Chrome/Edge, try closing the browser first"] ;;;
         print_on w [Lit YELLOW;
                Lit " Or use Firefox for easier automatic extraction"] ;;;
         sys_exit 1
     end)
    (fun _ => true)
    (fun e =>
       if is_KeyboardInterrupt e then
         print_on w [Lit (String (ascii_of_nat 10) EmptyString); Lit YELLOW;
                Lit " Interrupted by user"] ;;;
         sys_exit 1
       else
         print_on w [Lit RED; Lit " Error: "; Exc e] ;;; sys_exit 1).

(** The [__main__] block: the parser, then the [try] statement. *)
Definition main (w : world) (a : argv) : M unit :=
  args <- parse_args a ;;
  search_and_deliver w args.

End Locator.

(* ===================================================================== *)
(** * [tiktok_scraper.py]: the scrape dispatcher *)
(* ===================================================================== *)

Module Scraper.

Definition GREEN : string := "[OK]".
Definition RED : string := "[X]".
Definition YELLOW : string := "[!]".
Definition CYAN : string := "[*]".

(** The remote paginated sequence an [async for] consumes: the items it
    yields, and the exception that ends it, if one does. *)
Definition stream : Type := (list json * option exn)%type.

(** What a run of the dispatcher depends on: whether the client library can
    be imported, the files it may read and write, the clock, and the remote
    service behind the client library.

    [read_file name] is what [os.path.exists(name)] followed by
    [open(name, 'r')] and [read()] come to: [None] when nothing exists under
    the name; [Some (inl e)] when something does and opening or reading it
    raises [e] (a directory, a file the user may not read, bytes that are no
    text in the locale's encoding); [Some (inr text)] when the file is read. *)
Record remote : Type := RemoteWorld
  { installed : bool;
    read_file : pystr -> option (exn + pystr);
    can_write : pystr -> bool;
    now_iso : pystr;
    now_stamp : pystr;
    create_sessions : pystr -> option exn;
    user_info : pystr -> exn + json;
    user_videos : pystr -> Z -> stream;
    trending_videos : Z -> stream;
    hashtag_videos : pystr -> Z -> stream;
    video_info : bool -> pystr -> exn + json;
    video_comments : bool -> pystr -> option Z -> stream }.

(** ** Python's dictionary and slice operations on JSON data *)

(** [d.get(key, default)]; anything but a dictionary has no [get]. *)
Definition get (d : json) (key : string) (default : json) : M json :=
  match d with
  | JObj fields =>
      ret (match assoc (py key) fields with Some v => v | None => default end)
  | _ => raise AttributeError
  end.

(** [v[:n]]; only sequences can be sliced. *)
Definition slice_to (n : nat) (v : json) : M json :=
  match v with
  | JStr s => ret (JStr (firstn n s))
  | JArr items => ret (JArr (firstn n items))
  | _ => raise TypeError
  end.

Definition jstr (x : string) : json := JStr (py x).

(** [for x in l: body x] *)
Fixpoint for_each {X} (l : list X) (body : X -> M unit) : M unit :=
  match l with
  | [] => ret tt
  | x :: l' => body x ;;; for_each l' body
  end.

(** [await] of a call that yields a value or raises. *)
Definition await (rq : request) (answer : exn + json) : M json :=
  emit (Remote rq) ;;;
  match answer with
  | inl e => raise e
  | inr v => ret v
  end.

(** [limit if limit else default] *)
Definition count_or (limit : option Z) (default : Z) : Z :=
  match limit with
  | Some n => if Z.eqb n 0 then default else n
  | None => default
  end.

(** [limit and video_count >= limit] *)
Definition limit_reached (limit : option Z) (video_count : Z) : bool :=
  match limit with
  | Some n => negb (Z.eqb n 0) && (n <=? video_count)%Z
  | None => false
  end.

(** ** Session set-up, shared by the four scrape functions *)
Definition open_session (r : remote) (ms_token : pystr) : M unit :=
  print [Lit CYAN; Lit " Initializing TikTok API..."] ;;;
  print [Lit CYAN; Lit " Creating session with ms_token..."] ;;;
  emit (Remote (CreateSessions ms_token)) ;;;
  match create_sessions r ms_token with
  | Some e => raise e
  | None => ret tt
  end.

(** ** The video-collecting loop of [scrape_user], [scrape_trending] and
    [scrape_hashtag]: append, count, report every tenth item, and [break]
    once a limit is reached.  When the items run out, the exception that
    ended the stream (if any) surfaces. *)
Fixpoint collect_videos (limit : option Z) (items : list json)
  (ending : option exn) (videos : list json) (video_count : Z)
  : M (list json) :=
  match items with
  | [] =>
      match ending with
      | Some e => raise e
      | None => ret videos
      end
  | video_dict :: rest =>
      let videos := videos ++ [video_dict] in
      let video_count := (video_count + 1)%Z in
      (if Z.eqb (video_count mod 10) 0
       then print [Lit CYAN; Lit " Extracted "; Int video_count;
                   Lit " videos so far..."]
       else ret tt) ;;;
      if limit_reached limit video_count then
        match limit with
        | Some n =>
            print [Lit CYAN; Lit " Reached limit of "; Int n;
                   Lit " videos. Stopping extraction."]
        | None => ret tt
        end ;;;
        ret videos
      else collect_videos limit rest ending videos video_count
  end.

(** [async for video in <source>.videos(count=limit if limit else default)] *)
Definition fetch_videos (limit : option Z) (rq : request) (s : stream)
  : M (list json) :=
  emit (Remote rq) ;;;
  collect_videos limit (fst s) (snd s) [] 0.

(** The comment-collecting loop of [scrape_video]. *)
Fixpoint collect_comments (items : list json) (ending : option exn)
  (comments : list json) (comment_count : Z) : M (list json) :=
  match items with
  | [] =>
      match ending with
      | Some e => raise e
      | None => ret comments
      end
  | comment :: rest =>
      let comments := comments ++ [comment] in
      let comment_count := (comment_count + 1)%Z in
      (if Z.eqb (comment_count mod 10) 0
       then print [Lit CYAN; Lit " Extracted "; Int comment_count;
                   Lit " comments so far..."]
       else ret tt) ;;;
      collect_comments rest ending comments comment_count
  end.

(** ** Writing the output *)

Definition open_w (r : remote) (output_file : pystr) : M unit :=
  if can_write r output_file
  then emit (OpenForWrite output_file)
  else raise (OSError "cannot open output file").

Definition writerow (output_file : pystr) (row : list json) : M unit :=
  emit (CsvRow output_file row).

Definition json_dump (r : remote) (output_file : pystr) (output_data : json)
  : M unit :=
  open_w r output_file ;;;
  emit (JsonDump output_file output_data).

(** [if not output_file: output_file = f"..."] *)
Definition default_name (output_file : option pystr) (generated : pystr)
  : pystr :=
  match output_file with
  | Some f => if str_eqb f [] then generated else f
  | None => generated
  end.

Definition jlen (l : list json) : json := JNum (Z.of_nat (List.length l)).

(** The header rows. *)
Definition type_field_value : list json :=
  [jstr "Type"; jstr "Field"; jstr "Value"].

Definition user_video_header : list json :=
  [jstr "Video ID"; jstr "Description"; jstr "Likes"; jstr "Shares";
   jstr "Comments"; jstr "Views"; jstr "Created"].

Definition video_header : list json :=
  [jstr "Video ID"; jstr "Author"; jstr "Description"; jstr "Likes";
   jstr "Shares"; jstr "Comments"; jstr "Views"; jstr "Created"].

Definition comment_header : list json :=
  [jstr "Comment ID"; jstr "Author"; jstr "Text"; jstr "Likes";
   jstr "Created"].

(** [d.get(outer, {}).get(inner, '')] *)
Definition get2 (d : json) (outer inner : string) : M json :=
  o <- get d outer (JObj []) ;;
  get o inner (jstr "").

(** The data row of one video in user mode. *)
Definition user_video_row (video : json) : M (list json) :=
  c_id <- get video "id" (jstr "") ;;
  d <- get video "desc" (jstr "") ;;
  c_desc <- slice_to 100 d ;;
  c_likes <- get2 video "stats" "diggCount" ;;
  c_shares <- get2 video "stats" "shareCount" ;;
  c_comments <- get2 video "stats" "commentCount" ;;
  c_views <- get2 video "stats" "playCount" ;;
  c_created <- get video "createTime" (jstr "") ;;
  ret [c_id; c_desc; c_likes; c_shares; c_comments; c_views; c_created].

(** The data row of one video in trending and hashtag mode. *)
Definition video_row (video : json) : M (list json) :=
  c_id <- get video "id" (jstr "") ;;
  c_author <- get2 video "author" "uniqueId" ;;
  d <- get video "desc" (jstr "") ;;
  c_desc <- slice_to 100 d ;;
  c_likes <- get2 video "stats" "diggCount" ;;
  c_shares <- get2 video "stats" "shareCount" ;;
  c_comments <- get2 video "stats" "commentCount" ;;
  c_views <- get2 video "stats" "playCount" ;;
  c_created <- get video "createTime" (jstr "") ;;
  ret [c_id; c_author; c_desc; c_likes; c_shares; c_comments; c_views;
       c_created].

(** The data row of one comment in video mode. *)
Definition comment_row (comment : json) : M (list json) :=
  c_id <- get comment "id" (jstr "") ;;
  c_author <- get2 comment "user" "uniqueId" ;;
  t <- get comment "text" (jstr "") ;;
  c_text <- slice_to 100 t ;;
  c_likes <- get comment "diggCount" (jstr "") ;;
  c_created <- get comment "createTime" (jstr "") ;;
  ret [c_id; c_author; c_text; c_likes; c_created].

(** The CSV branch of [scrape_user]. *)
Definition write_user_csv (r : remote) (output_file : pystr)
  (user_data : json) (videos : list json) : M unit :=
  open_w r output_file ;;;
  writerow output_file type_field_value ;;;
  v <- get user_data "uniqueId" (jstr "") ;;
  writerow output_file [jstr "User"; jstr "username"; v] ;;;
  v <- get user_data "nickname" (jstr "") ;;
  writerow output_file [jstr "User"; jstr "nickname"; v] ;;;
  v <- get user_data "followerCount" (jstr "") ;;
  writerow output_file [jstr "User"; jstr "followers"; v] ;;;
  v <- get user_data "followingCount" (jstr "") ;;
  writerow output_file [jstr "User"; jstr "following"; v] ;;;
  v <- get user_data "videoCount" (jstr "") ;;
  writerow output_file [jstr "User"; jstr "videos"; v] ;;;
  writerow output_file [] ;;;
  writerow output_file user_video_header ;;;
  for_each videos (fun video =>
    row <- user_video_row video ;;
    writerow output_file row).

(** The CSV branch of [scrape_trending] and [scrape_hashtag]. *)
Definition write_videos_csv (r : remote) (output_file : pystr)
  (videos : list json) : M unit :=
  open_w r output_file ;;;
  writerow output_file video_header ;;;
  for_each videos (fun video =>
    row <- video_row video ;;
    writerow output_file row).

(** The CSV branch of [scrape_video]. *)
Definition write_video_csv (r : remote) (output_file : pystr)
  (video_info : json) (include_comments : bool) (comments : list json)
  : M unit :=
  open_w r output_file ;;;
  writerow output_file type_field_value ;;;
  v <- get video_info "id" (jstr "") ;;
  writerow output_file [jstr "Video"; jstr "id"; v] ;;;
  v <- get video_info "desc" (jstr "") ;;
  writerow output_file [jstr "Video"; jstr "description"; v] ;;;
  v <- get2 video_info "author" "uniqueId" ;;
  writerow output_file [jstr "Video"; jstr "author"; v] ;;;
  v <- get2 video_info "stats" "diggCount" ;;
  writerow output_file [jstr "Video"; jstr "likes"; v] ;;;
  v <- get2 video_info "stats" "shareCount" ;;
  writerow output_file [jstr "Video"; jstr "shares"; v] ;;;
  v <- get2 video_info "stats" "commentCount" ;;
  writerow output_file [jstr "Video"; jstr "comments"; v] ;;;
  v <- get2 video_info "stats" "playCount" ;;
  writerow output_file [jstr "Video"; jstr "views"; v] ;;;
  match include_comments, comments with
  | true, _ :: _ =>
      writerow output_file [] ;;;
      writerow output_file comment_header ;;;
      for_each comments (fun comment =>
        row <- comment_row comment ;;
        writerow output_file row)
  | _, _ => ret tt
  end.

(** The [except Exception] clause that closes each scrape function. *)
Definition fail (what : string) (e : exn) : M unit :=
  print [Lit RED; Lit " Error scraping "; Lit what; Lit ": "; Exc e] ;;;
  emit (Stderr [Lit "Traceback (most recent call last): "; Exc e]) ;;;
  sys_exit 1.

(** ** The four scrape functions *)

Definition report_saved (output_file : pystr) (videos : list json)
  : M unit :=
  print [Lit GREEN; Lit " Data saved to: "; Txt output_file] ;;;
  print [Lit GREEN; Lit " Total videos extracted: ";
         Int (Z.of_nat (List.length videos))].

Definition scrape_user (r : remote) (username ms_token : pystr)
  (output_format : pystr) (output_file : option pystr) (limit : option Z)
  : M unit :=
  try_except
    (open_session r ms_token ;;;
     print [Lit CYAN; Lit " Loading user profile: @"; Txt username;
            Lit "..."] ;;;
     user_data <- await (UserInfo username) (user_info r username) ;;
     nickname <- get user_data "nickname" (jstr "N/A") ;;
     uniqueId <- get user_data "uniqueId" (JStr username) ;;
     print [Lit GREEN; Lit " Profile loaded: "; Val nickname; Lit " (@";
            Val uniqueId; Lit ")"] ;;;
     v <- get user_data "followerCount" (jstr "N/A") ;;
     print [Lit CYAN; Lit " Followers: "; Val v] ;;;
     v <- get user_data "followingCount" (jstr "N/A") ;;
     print [Lit CYAN; Lit " Following: "; Val v] ;;;
     v <- get user_data "videoCount" (jstr "N/A") ;;
     print [Lit CYAN; Lit " Videos: "; Val v] ;;;
     print [Lit CYAN; Lit " Extracting videos..."] ;;;
     videos <- fetch_videos limit
                 (UserVideos username (count_or limit 1000))
                 (user_videos r username (count_or limit 1000)) ;;
     let output_data :=
       JObj [ (py "user", user_data);
              (py "videos", JArr videos);
              (py "extracted_at", JStr (now_iso r));
              (py "total_videos", jlen videos) ] in
     let output_file :=
       default_name output_file
         (py "tiktok_user_" ++ username ++ py "_" ++ now_stamp r
            ++ py "." ++ output_format) in
     (if str_eqb output_format (py "json")
      then json_dump r output_file output_data
      else write_user_csv r output_file user_data videos) ;;;
     report_saved output_file videos)
    is_Exception
    (fail "user").

Definition scrape_trending (r : remote) (ms_token : pystr)
  (output_format : pystr) (output_file : option pystr) (limit : option Z)
  : M unit :=
  try_except
    (open_session r ms_token ;;;
     print [Lit CYAN; Lit " Extracting trending videos..."] ;;;
     videos <- fetch_videos limit
                 (TrendingVideos (count_or limit 100))
                 (trending_videos r (count_or limit 100)) ;;
     let output_data :=
       JObj [ (py "videos", JArr videos);
              (py "extracted_at", JStr (now_iso r));
              (py "total_videos", jlen videos) ] in
     let output_file :=
       default_name output_file
         (py "tiktok_trending_" ++ now_stamp r ++ py "." ++ output_format) in
     (if str_eqb output_format (py "json")
      then json_dump r output_file output_data
      else write_videos_csv r output_file videos) ;;;
     report_saved output_file videos)
    is_Exception
    (fail "trending").

Definition scrape_hashtag (r : remote) (hashtag ms_token : pystr)
  (output_format : pystr) (output_file : option pystr) (limit : option Z)
  : M unit :=
  try_except
    (open_session r ms_token ;;;
     print [Lit CYAN; Lit " Loading hashtag: #"; Txt hashtag; Lit "..."] ;;;
     print [Lit CYAN; Lit " Extracting videos..."] ;;;
     videos <- fetch_videos limit
                 (HashtagVideos hashtag (count_or limit 100))
                 (hashtag_videos r hashtag (count_or limit 100)) ;;
     let output_data :=
       JObj [ (py "hashtag", JStr hashtag);
              (py "videos", JArr videos);
              (py "extracted_at", JStr (now_iso r));
              (py "total_videos", jlen videos) ] in
     let output_file :=
       default_name output_file
         (py "tiktok_hashtag_" ++ hashtag ++ py "_" ++ now_stamp r
            ++ py "." ++ output_format) in
     (if str_eqb output_format (py "json")
      then json_dump r output_file output_data
      else write_videos_csv r output_file videos) ;;;
     report_saved output_file videos)
    is_Exception
    (fail "hashtag").

Definition scrape_video (r : remote) (video_id ms_token : pystr)
  (output_format : pystr) (output_file : option pystr)
  (include_comments : bool) (comment_limit : option Z) : M unit :=
  try_except
    (open_session r ms_token ;;;
     print [Lit CYAN; Lit " Loading video: "; Txt video_id; Lit "..."] ;;;
     let by_url := contains video_id (py "tiktok.com") in
     video_info <- await (VideoInfo by_url video_id)
                     (video_info r by_url video_id) ;;
     d <- get video_info "desc" (jstr "N/A") ;;
     d50 <- slice_to 50 d ;;
     print [Lit GREEN; Lit " Video loaded: "; Val d50; Lit "..."] ;;;
     comments <-
       (if include_comments then
          print [Lit CYAN; Lit " Extracting comments..."] ;;;
          emit (Remote (VideoComments video_id comment_limit)) ;;;
          let s := video_comments r by_url video_id comment_limit in
          comments <- collect_comments (fst s) (snd s) [] 0 ;;
          print [Lit GREEN; Lit " Total comments extracted: ";
                 Int (Z.of_nat (List.length comments))] ;;;
          ret comments
        else ret []) ;;
     let output_data :=
       JObj ([ (py "video", video_info);
               (py "extracted_at", JStr (now_iso r)) ]
             ++ (if include_comments
                 then [ (py "comments", JArr comments);
                        (py "total_comments", jlen comments) ]
                 else [])) in
     let output_file :=
       default_name output_file
         (py "tiktok_video_" ++ video_id ++ py "_" ++ now_stamp r
            ++ py "." ++ output_format) in
     (if str_eqb output_format (py "json")
      then json_dump r output_file output_data
      else write_video_csv r output_file video_info include_comments
             comments) ;;;
     print [Lit GREEN; Lit " Data saved to: "; Txt output_file])
    is_Exception
    (fail "video").

(** ** The command line

    [argv] is the command line as the user gave it: which options are
    present, with which values.  [parse_args] is [argparse] on the parser
    [main] builds: [--mode], [--target] and [--session] are declared
    [required=True]; [--mode] and [--format] have [choices]; [--format]
    defaults to [json] and [--comment-limit] to 30.  A command line the
    parser rejects ends in [parser.error]: a usage message on standard
    error and exit status 2. *)
Record argv : Type := Argv
  { opt_mode : option pystr;
    opt_target : option pystr;
    opt_session : option pystr;
    opt_format : option pystr;
    opt_output : option pystr;
    opt_limit : option Z;
    opt_comments : bool;
    opt_comment_limit : option Z }.

Record namespace : Type := Namespace
  { a_mode : pystr;
    a_target : pystr;
    a_session : pystr;
    a_format : pystr;
    a_output : option pystr;
    a_limit : option Z;
    a_comments : bool;
    a_comment_limit : Z }.

Definition mode_choices : list pystr :=
  [py "user"; py "trending"; py "hashtag"; py "video"].

Definition format_choices : list pystr := [py "json"; py "csv"].

Definition missing (opt : string) {A} (v : option A) : list piece :=
  match v with
  | Some _ => []
  | None => [Lit opt]
  end.

Definition parse_args (a : argv) : M namespace :=
  check_choice "-m/--mode" mode_choices (opt_mode a) ;;;
  check_choice "-f/--format" format_choices (opt_format a) ;;;
  match opt_mode a, opt_target a, opt_session a with
  | Some m, Some t, Some s =>
      ret {| a_mode := m;
             a_target := t;
             a_session := s;
             a_format := match opt_format a with
                         | Some f => f
                         | None => py "json"
                         end;
             a_output := opt_output a;
             a_limit := opt_limit a;
             a_comments := opt_comments a;
             a_comment_limit := match opt_comment_limit a with
                                | Some n => n
                                | None => 30%Z
                                end |}
  | m, t, s =>
      parser_error
        (Lit "the following arguments are required: "
           :: missing "-m/--mode" m ++ missing "-t/--target" t
           ++ missing "-s/--session" s)
  end.

Definition main (r : remote) (a : argv) : M unit :=
  args <- parse_args a ;;
  ms_token <-
    match read_file r (a_session args) with
    | Some (inr text) => emit (ReadFile (a_session args)) ;;; ret (strip text)
    | Some (inl e) => raise e
    | None => ret (a_session args)
    end ;;
  if str_eqb (a_mode args) (py "user") then
    scrape_user r (a_target args) ms_token (a_format args) (a_output args)
      (a_limit args)
  else if str_eqb (a_mode args) (py "trending") then
    scrape_trending r ms_token (a_format args) (a_output args) (a_limit args)
  else if str_eqb (a_mode args) (py "hashtag") then
    scrape_hashtag r (a_target args) ms_token (a_format args) (a_output args)
      (a_limit args)
  else if str_eqb (a_mode args) (py "video") then
    scrape_video r (a_target args) ms_token (a_format args) (a_output args)
      (a_comments args)
      (if a_comments args then Some (a_comment_limit args) else None)
  else ret tt.

(** The script from its first line: the guarded import, then [main()]. *)
Definition script (r : remote) (a : argv) : M unit :=
  if installed r then main r a
  else
    print [Lit "[X] Error: Missing required package: TikTokApi"] ;;;
    print [Lit "[+] Please install requirements: uv pip install -e ."] ;;;
    sys_exit 1.

End Scraper.

(* ===================================================================== *)
(** * [tiktok_scraper_mock.py]: the entry point of the mock generator *)
(* ===================================================================== *)

Module Mock.

Definition GREEN : string := "[OK]".
Definition RED : string := "[X]".
Definition YELLOW : string := "[!]".
Definition CYAN : string := "[*]".

Record argv : Type := Argv
  { opt_mode : option pystr;
    opt_target : option pystr;
    opt_format : option pystr;
    opt_output : option pystr;
    opt_limit : option Z;
    opt_comments : bool;
    opt_comment_limit : option Z;
    opt_session : option pystr;
    opt_followers : bool;
    opt_follower_limit : option Z;
    opt_quiet : bool }.

Record namespace : Type := Namespace
  { a_mode : pystr;
    a_target : option pystr;
    a_format : pystr;
    a_output : option pystr;
    a_limit : option Z;
    a_comments : bool;
    a_comment_limit : Z;
    a_followers : bool;
    a_follower_limit : option Z;
    a_quiet : bool }.

(** [argparse] on the parser of the mock's [main]: only [--mode] is
    required; [--target] is declared [required=False]. *)
Definition parse_args (a : argv) : M namespace :=
  check_choice "-m/--mode" Scraper.mode_choices (opt_mode a) ;;;
  check_choice "-f/--format" Scraper.format_choices (opt_format a) ;;;
  match opt_mode a with
  | Some m =>
      ret {| a_mode := m;
             a_target := opt_target a;
             a_format := match opt_format a with
                         | Some f => f
                         | None => py "json"
                         end;
             a_output := opt_output a;
             a_limit := opt_limit a;
             a_comments := opt_comments a;
             a_comment_limit := match opt_comment_limit a with
                                | Some n => n
                                | None => 30%Z
                                end;
             a_followers := opt_followers a;
             a_follower_limit := opt_follower_limit a;
             a_quiet := opt_quiet a |}
  | None =>
      parser_error
        [Lit "the following arguments are required: "; Lit "-m/--mode"]
  end.

(** [not args.target]: the option is absent, or its value is empty. *)
Definition no_target (t : option pystr) : bool :=
  match t with
  | Some x => str_eqb x []
  | None => true
  end.

Definition target_of (t : option pystr) : pystr :=
  match t with Some x => x | None => [] end.

(** [video_id.split('/')[-1]] *)
Definition last_segment (x : pystr) : pystr := last (split_on 47 x) [].

Section Main.

(** The generators [main] hands over to, and the random source
    ([random.randint]) it draws a stand-in video id from. *)
Variable mock_scrape_user :
  pystr -> pystr -> option pystr -> option Z -> bool -> option Z -> bool
  -> M unit.
Variable mock_scrape_trending : pystr -> option pystr -> option Z -> M unit.
Variable mock_scrape_hashtag :
  pystr -> pystr -> option pystr -> option Z -> M unit.
Variable mock_scrape_video :
  pystr -> pystr -> option pystr -> bool -> option Z -> M unit.
Variable random_video_id : pystr.

Definition target_required (mode_name : string) : M unit :=
  print [Lit RED; Lit " Error: --target is required for "; Lit mode_name;
         Lit " mode"] ;;;
  sys_exit 1.

Definition main (a : argv) : M unit :=
  args <- parse_args a ;;
  let quiet := a_quiet args in
  (if negb quiet then
     print [Lit YELLOW;
            Lit " [MOCK/TEST MODE] - Generating fake data for testing"] ;;;
     print [Lit YELLOW; Lit " [MOCK] No real TikTok API calls will be made";
            Lit (String (ascii_of_nat 10) EmptyString)]
   else ret tt) ;;;
  if str_eqb (a_mode args) (py "user") then
    if no_target (a_target args) then target_required "user"
    else
      mock_scrape_user (target_of (a_target args)) (a_format args)
        (a_output args) (a_limit args) (a_followers args)
        (a_follower_limit args) quiet
  else if str_eqb (a_mode args) (py "trending") then
    mock_scrape_trending (a_format args) (a_output args) (a_limit args)
  else if str_eqb (a_mode args) (py "hashtag") then
    if no_target (a_target args) then target_required "hashtag"
    else
      mock_scrape_hashtag (target_of (a_target args)) (a_format args)
        (a_output args) (a_limit args)
  else if str_eqb (a_mode args) (py "video") then
    if no_target (a_target args) then target_required "video"
    else
      let target := target_of (a_target args) in
      let video_id :=
        if contains target (py "tiktok.com") then
          let video_id :=
            if contains target (py "/") then last_segment target
            else target in
          if str_eqb video_id [] || str_eqb video_id target
          then random_video_id
          else video_id
        else target in
      mock_scrape_video video_id (a_format args) (a_output args)
        (a_comments args)
        (if a_comments args then Some (a_comment_limit args) else None)
  else ret tt.

End Main.

End Mock.

(* ===================================================================== *)
(** * [tiktok_scraper_mock.py]: the generators *)
(* ===================================================================== *)

Module MockData.

(** What a run of the generators depends on and the file does not define:
    the numbers the [random] module yields (one per call), the readings of
    [datetime.now()] (as epoch seconds, in ISO format and as a file-name
    stamp), which files can be opened for writing, and [str.capitalize]
    (whose case tables are Python's). *)
Record runtime : Type := Runtime
  { draw : nat -> N;
    clock : nat -> Z;
    clock_iso : nat -> pystr;
    clock_stamp : nat -> pystr;
    can_write : pystr -> bool;
    str_capitalize : pystr -> pystr }.

(** How many random numbers have been drawn, and how often the clock has
    been read. *)
Record state : Type := State { drawn : nat; read : nat }.

(** A computation that draws random numbers and reads the clock, beside
    what [M] records. *)
Definition G (A : Type) : Type := state -> M (A * state).

Definition gret {A} (a : A) : G A := fun s => ret (a, s).

Definition gbind {A B} (m : G A) (f : A -> G B) : G B :=
  fun s => bind (m s) (fun p => f (fst p) (snd p)).

Definition lift {A} (m : M A) : G A :=
  fun s => bind m (fun a => ret (a, s)).

Definition gtry {A} (m : G A) (class : exn -> bool) (h : exn -> G A) : G A :=
  fun s => try_except (m s) class (fun e => h e s).

(** [random.randint(a, b)]: some number between [a] and [b], both
    included. *)
Definition in_range (a b : Z) (raw : N) : Z :=
  (a + Z.of_N raw mod (b - a + 1))%Z.

Definition randint (w : runtime) (a b : Z) : G Z :=
  fun s =>
    if (b <? a)%Z then raise (OtherError "ValueError")
    else ret (in_range a b (draw w (drawn s)), State (S (drawn s)) (read s)).

(** [random.choice(seq)] *)
Definition choice {A} (w : runtime) (seq : list A) : G A :=
  fun s =>
    match seq with
    | [] => raise (OtherError "IndexError")
    | x :: _ =>
        ret (nth (N.to_nat (draw w (drawn s)) mod List.length seq) seq x,
             State (S (drawn s)) (read s))
    end.

(** [datetime.now()]: the number of the reading. *)
Definition now : G nat :=
  fun s => ret (read s, State (drawn s) (S (read s))).

(** [str(n)] and [f"{n}"] for an integer. *)
Definition str_of_int (z : Z) : pystr :=
  py (NilZero.string_of_int (Z.to_int z)).

(** [f"{n:,}"]: the digits in groups of three, from the right. *)
Fixpoint commas (rev_digits : list N) (k : nat) : list N :=
  match rev_digits with
  | [] => []
  | d :: rest =>
      if Nat.eqb k 3 then 44%N :: d :: commas rest 1
      else d :: commas rest (S k)
  end.

Definition format_thousands (z : Z) : pystr :=
  (if (z <? 0)%Z then [45%N] else [])
    ++ rev (commas (rev (str_of_int (Z.abs z))) 0).

(** [d[key]] *)
Definition subscript (d : json) (key : string) : M json :=
  match d with
  | JObj fields =>
      match assoc (py key) fields with
      | Some v => ret v
      | None => raise (OtherError "KeyError")
      end
  | _ => raise TypeError
  end.

(** A number, where the code computes with one ([min], [{...:,}]). *)
Definition as_int (j : json) : M Z :=
  match j with
  | JNum z => ret z
  | _ => raise TypeError
  end.

(** [f"{v}"] for the scalar values; the text of a list or a dictionary is
    not reproduced here. *)
Definition text_of (j : json) : M pystr :=
  match j with
  | JStr s => ret s
  | JNum z => ret (str_of_int z)
  | JBool true => ret (py "True")
  | JBool false => ret (py "False")
  | JNull => ret (py "None")
  | _ => raise (OtherError "text of a container")
  end.

(** [d[key] = v]: the entry keeps its place, a new key goes last. *)
Fixpoint set_field (k : pystr) (v : json) (fields : list (pystr * json))
  : list (pystr * json) :=
  match fields with
  | [] => [(k, v)]
  | (k', v') :: rest =>
      if str_eqb k k' then (k', v) :: rest
      else (k', v') :: set_field k v rest
  end.

Definition set_item (d : json) (key : string) (v : json) : M json :=
  match d with
  | JObj fields => ret (JObj (set_field (py key) v fields))
  | _ => raise TypeError
  end.

Definition jtext (x : string) : json := JStr (py x).

(** ** Writing, in [M] *)

Definition open_w (w : runtime) (output_file : pystr) : M unit :=
  if can_write w output_file
  then emit (OpenForWrite output_file)
  else raise (OSError "cannot open output file").

Definition json_dump (w : runtime) (output_file : pystr) (output_data : json)
  : M unit :=
  open_w w output_file ;;;
  emit (JsonDump output_file output_data).

Definition follower_header : list json :=
  [jtext "Follower ID"; jtext "Username"; jtext "Nickname";
   jtext "Followers"; jtext "Following"; jtext "Videos"; jtext "Verified"].

Definition follower_row (follower : json) : M (list json) :=
  c_id <- Scraper.get follower "id" (jtext "") ;;
  c_username <- Scraper.get follower "uniqueId" (jtext "") ;;
  c_nickname <- Scraper.get follower "nickname" (jtext "") ;;
  c_followers <- Scraper.get follower "followerCount" (jtext "") ;;
  c_following <- Scraper.get follower "followingCount" (jtext "") ;;
  c_videos <- Scraper.get follower "videoCount" (jtext "") ;;
  c_verified <- Scraper.get follower "verified" (JBool false) ;;
  ret [c_id; c_username; c_nickname; c_followers; c_following; c_videos;
       c_verified].

(** The CSV branch of [mock_scrape_user]. *)
Definition write_user_csv (w : runtime) (output_file : pystr)
  (user_data : json) (include_followers : bool)
  (followers videos : list json) : M unit :=
  open_w w output_file ;;;
  Scraper.writerow output_file Scraper.type_field_value ;;;
  v <- Scraper.get user_data "uniqueId" (jtext "") ;;
  Scraper.writerow output_file [jtext "User"; jtext "username"; v] ;;;
  v <- Scraper.get user_data "nickname" (jtext "") ;;
  Scraper.writerow output_file [jtext "User"; jtext "nickname"; v] ;;;
  v <- Scraper.get user_data "followerCount" (jtext "") ;;
  Scraper.writerow output_file [jtext "User"; jtext "followers"; v] ;;;
  v <- Scraper.get user_data "followingCount" (jtext "") ;;
  Scraper.writerow output_file [jtext "User"; jtext "following"; v] ;;;
  v <- Scraper.get user_data "videoCount" (jtext "") ;;
  Scraper.writerow output_file [jtext "User"; jtext "videos"; v] ;;;
  Scraper.writerow output_file [] ;;;
  match include_followers, followers with
  | true, _ :: _ =>
      Scraper.writerow output_file follower_header ;;;
      Scraper.for_each followers (fun follower =>
        row <- follower_row follower ;;
        Scraper.writerow output_file row)
  | _, _ =>
      Scraper.writerow output_file Scraper.user_video_header ;;;
      Scraper.for_each videos (fun video =>
        row <- Scraper.user_video_row video ;;
        Scraper.writerow output_file row)
  end.

(** The CSV branch of [mock_scrape_trending] and [mock_scrape_hashtag]. *)
Definition write_videos_csv (w : runtime) (output_file : pystr)
  (videos : list json) : M unit :=
  open_w w output_file ;;;
  Scraper.writerow output_file Scraper.video_header ;;;
  Scraper.for_each videos (fun video =>
    row <- Scraper.video_row video ;;
    Scraper.writerow output_file row).

(** The CSV branch of [mock_scrape_video]. *)
Definition write_video_csv (w : runtime) (output_file : pystr)
  (video_info : json) (include_comments : bool) (comments : list json)
  : M unit :=
  open_w w output_file ;;;
  Scraper.writerow output_file Scraper.type_field_value ;;;
  v <- Scraper.get video_info "id" (jtext "") ;;
  Scraper.writerow output_file [jtext "Video"; jtext "id"; v] ;;;
  v <- Scraper.get video_info "desc" (jtext "") ;;
  Scraper.writerow output_file [jtext "Video"; jtext "description"; v] ;;;
  v <- Scraper.get2 video_info "author" "uniqueId" ;;
  Scraper.writerow output_file [jtext "Video"; jtext "author"; v] ;;;
  v <- Scraper.get2 video_info "stats" "diggCount" ;;
  Scraper.writerow output_file [jtext "Video"; jtext "likes"; v] ;;;
  v <- Scraper.get2 video_info "stats" "shareCount" ;;
  Scraper.writerow output_file [jtext "Video"; jtext "shares"; v] ;;;
  v <- Scraper.get2 video_info "stats" "commentCount" ;;
  Scraper.writerow output_file [jtext "Video"; jtext "comments"; v] ;;;
  v <- Scraper.get2 video_info "stats" "playCount" ;;
  Scraper.writerow output_file [jtext "Video"; jtext "views"; v] ;;;
  match include_comments, comments with
  | true, _ :: _ =>
      Scraper.writerow output_file [] ;;;
      Scraper.writerow output_file Scraper.comment_header ;;;
      Scraper.for_each comments (fun comment =>
        row <- Scraper.comment_row comment ;;
        Scraper.writerow output_file row)
  | _, _ => ret tt
  end.

(** The [except Exception] clause that closes each generator run. *)
Definition fail (e : exn) : M unit :=
  print [Lit Mock.RED; Lit " [MOCK] Error generating mock data: "; Exc e] ;;;
  emit (Stderr [Lit "Traceback (most recent call last): "; Exc e]) ;;;
  sys_exit 1.

Definition mock_note : json :=
  jtext "This is mock/test data generated for testing purposes".

(** [if (i + 1) % 10 == 0: print(...)] *)
Definition every_tenth (i : Z) (msg : list piece) : M unit :=
  if Z.eqb ((i + 1) mod 10) 0 then print msg else ret tt.

(** The lines that close a trending, hashtag or video run. *)
Definition report_saved (output_file : pystr) (videos : option (list json))
  : M unit :=
  print [Lit Mock.GREEN; Lit " [MOCK] Mock data saved to: ";
         Txt output_file] ;;;
  match videos with
  | Some videos =>
      print [Lit Mock.GREEN; Lit " [MOCK] Total videos generated: ";
             Int (Z.of_nat (List.length videos))]
  | None => ret tt
  end ;;;
  print [Lit Mock.YELLOW;
         Lit " [MOCK] Note: This is test/mock data, not real TikTok data"].

Declare Scope gen_scope.
Notation "x <- m ;; k" := (gbind m (fun x => k))
  (at level 100, m at next level, right associativity) : gen_scope.
Notation "m ;;; k" := (gbind m (fun _ => k))
  (at level 100, right associativity) : gen_scope.
Local Open Scope gen_scope.

(** [for i in range(count): acc = body i acc] *)
Fixpoint for_range_from {St} (n : nat) (i : Z) (body : Z -> St -> G St)
  (acc : St) : G St :=
  match n with
  | O => gret acc
  | S n' => acc' <- body i acc ;; for_range_from n' (i + 1) body acc'
  end.

Definition for_range {St} (count : Z) (body : Z -> St -> G St) (acc : St)
  : G St :=
  for_range_from (Z.to_nat count) 0 body acc.

(** ** The four generators of records *)

Definition generate_mock_user_data (w : runtime) (username : pystr) : G json :=
  followerCount <- randint w 1000 50000000 ;;
  followingCount <- randint w 50 5000 ;;
  videoCount <- randint w 10 5000 ;;
  verified <- choice w [true; false] ;;
  privateAccount <- choice w [true; false] ;;
  gret (JObj
    [ (py "uniqueId", JStr username);
      (py "nickname", JStr (str_capitalize w username ++ py " User"));
      (py "followerCount", JNum followerCount);
      (py "followingCount", JNum followingCount);
      (py "videoCount", JNum videoCount);
      (py "verified", JBool verified);
      (py "privateAccount", JBool privateAccount);
      (py "bioDescription", JStr (py "Mock bio for " ++ username));
      (py "avatarLarger",
       JStr (py "https://example.com/avatars/" ++ username ++ py ".jpg"));
      (py "avatarMedium",
       JStr (py "https://example.com/avatars/" ++ username
               ++ py "_medium.jpg"));
      (py "avatarThumb",
       JStr (py "https://example.com/avatars/" ++ username
               ++ py "_thumb.jpg")) ]).

Definition generate_mock_video (w : runtime) (index : Z) (username : pystr)
  : G json :=
  video_id <- randint w 7000000000000000000 7999999999999999999 ;;
  t <- now ;;
  ago <- randint w 0 (86400 * 365) ;;
  diggCount <- randint w 100 10000000 ;;
  shareCount <- randint w 10 1000000 ;;
  commentCount <- randint w 5 500000 ;;
  playCount <- randint w 1000 100000000 ;;
  duration <- randint w 5 60 ;;
  gret (JObj
    [ (py "id", JStr (str_of_int video_id));
      (py "desc",
       JStr (py "Mock video description " ++ str_of_int (index + 1)
               ++ py " - This is a test video for " ++ username));
      (py "createTime", JNum (clock w t - ago));
      (py "author",
       JObj [ (py "uniqueId", JStr username);
              (py "nickname",
               JStr (str_capitalize w username ++ py " User")) ]);
      (py "stats",
       JObj [ (py "diggCount", JNum diggCount);
              (py "shareCount", JNum shareCount);
              (py "commentCount", JNum commentCount);
              (py "playCount", JNum playCount) ]);
      (py "video",
       JObj [ (py "downloadAddr",
               JStr (py "https://example.com/videos/"
                       ++ str_of_int video_id ++ py ".mp4"));
              (py "cover",
               JStr (py "https://example.com/covers/"
                       ++ str_of_int video_id ++ py ".jpg"));
              (py "duration", JNum duration) ]);
      (py "music",
       JObj [ (py "title", JStr (py "Mock Music " ++ str_of_int (index + 1)));
              (py "authorName", jtext "Mock Artist") ]);
      (py "textExtra", JArr []) ]).

Definition generate_mock_comment (w : runtime) (index : Z) : G json :=
  comment_id <- randint w 7000000000000000000 7999999999999999999 ;;
  t <- now ;;
  ago <- randint w 0 (86400 * 30) ;;
  diggCount <- randint w 0 10000 ;;
  user_number <- randint w 1 1000 ;;
  gret (JObj
    [ (py "id", JStr (str_of_int comment_id));
      (py "text",
       JStr (py "Mock comment " ++ str_of_int (index + 1)
               ++ py " - This is a test comment"));
      (py "createTime", JNum (clock w t - ago));
      (py "diggCount", JNum diggCount);
      (py "user",
       JObj [ (py "uniqueId", JStr (py "user" ++ str_of_int user_number));
              (py "nickname",
               JStr (py "Commenter " ++ str_of_int (index + 1))) ]) ]).

Definition generate_mock_follower (w : runtime) (index : Z) : G json :=
  follower_id <- randint w 1000000000000000000 9999999999999999999 ;;
  n1 <- randint w 1 999 ;;
  n2 <- randint w 1 99 ;;
  n3 <- randint w 1 99 ;;
  n4 <- randint w 1 99 ;;
  n5 <- randint w 1 99 ;;
  username <- choice w [ py "user" ++ str_of_int n1;
                         py "creator" ++ str_of_int n2;
                         py "tiktoker" ++ str_of_int n3;
                         py "fan" ++ str_of_int n4;
                         py "viewer" ++ str_of_int n5 ] ;;
  followerCount <- randint w 10 500000 ;;
  followingCount <- randint w 5 2000 ;;
  videoCount <- randint w 0 1000 ;;
  verified <- choice w [true; false] ;;
  privateAccount <- choice w [true; false] ;;
  gret (JObj
    [ (py "id", JStr (str_of_int follower_id));
      (py "uniqueId", JStr username);
      (py "nickname", JStr (str_capitalize w username ++ py " User"));
      (py "followerCount", JNum followerCount);
      (py "followingCount", JNum followingCount);
      (py "videoCount", JNum videoCount);
      (py "verified", JBool verified);
      (py "privateAccount", JBool privateAccount);
      (py "bioDescription", JStr (py "Mock bio for " ++ username));
      (py "avatarLarger",
       JStr (py "https://example.com/avatars/" ++ username ++ py ".jpg")) ]).

(** ** The four runs

    [time.sleep(0.1)], which each run calls before it saves, changes
    nothing that is recorded here and is left out. *)

(** [if not output_file: output_file = f"..._{datetime.now().strftime(...)}
    .{output_format}"] *)
Definition output_name (w : runtime) (output_file : option pystr)
  (stem : pystr) (output_format : pystr) : G pystr :=
  let generated :=
    t <- now ;;
    gret (stem ++ py "_" ++ clock_stamp w t ++ py "." ++ output_format) in
  match output_file with
  | Some f => if str_eqb f [] then generated else gret f
  | None => generated
  end.

Definition mock_scrape_user (w : runtime) (username output_format : pystr)
  (output_file : option pystr) (limit : option Z) (include_followers : bool)
  (follower_limit : option Z) (quiet : bool) : G unit :=
  gtry
    (lift (print
             (if quiet
              then [Lit Mock.CYAN; Lit " Loading user profile: @";
                    Txt username; Lit "..."]
              else [Lit Mock.CYAN; Lit " [MOCK MODE] ";
                    Lit "Generating mock data for user: @"; Txt username;
                    Lit "..."])) ;;;
     user_data <- generate_mock_user_data w username ;;
     nickname <- lift (subscript user_data "nickname") ;;
     uniqueId <- lift (subscript user_data "uniqueId") ;;
     lift (print [Lit Mock.GREEN; Lit " Profile loaded: "; Val nickname;
                  Lit " (@"; Val uniqueId; Lit ")"]) ;;;
     followerCount <- lift (bind (subscript user_data "followerCount")
                              as_int) ;;
     lift (print [Lit Mock.CYAN; Lit " Followers: ";
                  Txt (format_thousands followerCount)]) ;;;
     followingCount <- lift (bind (subscript user_data "followingCount")
                               as_int) ;;
     lift (print [Lit Mock.CYAN; Lit " Following: ";
                  Txt (format_thousands followingCount)]) ;;;
     videoCount <- lift (bind (subscript user_data "videoCount") as_int) ;;
     lift (print [Lit Mock.CYAN; Lit " Videos: ";
                  Txt (format_thousands videoCount)]) ;;;
     lists <-
       (if include_followers then
          let follower_count :=
            Scraper.count_or follower_limit (Z.min followerCount 100) in
          lift (print [Lit Mock.CYAN; Lit " Extracting followers..."]) ;;;
          followers <-
            for_range follower_count (fun i followers =>
              follower <- generate_mock_follower w i ;;
              lift (every_tenth i
                      [Lit Mock.CYAN; Lit " Extracted "; Int (i + 1);
                       Lit " followers so far..."]) ;;;
              gret (followers ++ [follower])) [] ;;
          gret ([], followers)
        else
          let video_count :=
            Scraper.count_or limit (Z.min videoCount 50) in
          lift (print [Lit Mock.CYAN; Lit " Extracting videos..."]) ;;;
          videos <-
            for_range video_count (fun i videos =>
              video <- generate_mock_video w i username ;;
              lift (every_tenth i
                      [Lit Mock.CYAN; Lit " Extracted "; Int (i + 1);
                       Lit " videos so far..."]) ;;;
              gret (videos ++ [video])) [] ;;
          gret (videos, [])) ;;
     let videos := fst lists in
     let followers := snd lists in
     t <- now ;;
     let output_data :=
       JObj ([ (py "user", user_data);
               (py "extracted_at", JStr (clock_iso w t)) ]
             ++ (if include_followers
                 then [ (py "followers", JArr followers);
                        (py "total_followers", Scraper.jlen followers) ]
                 else [ (py "videos", JArr videos);
                        (py "total_videos", Scraper.jlen videos) ])
             ++ (if quiet then []
                 else [ (py "mock_mode", JBool true);
                        (py "note", mock_note) ])) in
     output_file <-
       output_name w output_file
         (py "tiktok_user_" ++ username
            ++ (if quiet then [] else py "_mock"))
         output_format ;;
     lift (if str_eqb output_format (py "json")
           then json_dump w output_file output_data
           else write_user_csv w output_file user_data include_followers
                  followers videos) ;;;
     lift (print [Lit Mock.GREEN; Lit " Data saved to: "; Txt output_file]) ;;;
     lift (if include_followers
           then print [Lit Mock.GREEN; Lit " Total followers extracted: ";
                       Int (Z.of_nat (List.length followers))]
           else print [Lit Mock.GREEN; Lit " Total videos extracted: ";
                       Int (Z.of_nat (List.length videos))]) ;;;
     lift (if quiet then ret tt
           else print [Lit Mock.YELLOW;
                       Lit " Note: This is test/mock data, not real TikTok data"]))
    is_Exception
    (fun e => lift (fail e)).

Definition mock_scrape_trending (w : runtime) (output_format : pystr)
  (output_file : option pystr) (limit : option Z) : G unit :=
  gtry
    (lift (print [Lit Mock.CYAN;
                  Lit " [MOCK MODE] Generating mock trending videos..."]) ;;;
     let video_count := Scraper.count_or limit 30 in
     lift (print [Lit Mock.CYAN; Lit " [MOCK] Generating "; Int video_count;
                  Lit " mock trending videos..."]) ;;;
     let trending_users :=
       [py "user1"; py "creator2"; py "tiktoker3"; py "viral4";
        py "famous5"] in
     videos <-
       for_range video_count (fun i videos =>
         username <- choice w trending_users ;;
         video <- generate_mock_video w i username ;;
         lift (every_tenth i
                 [Lit Mock.CYAN; Lit " [MOCK] Generated "; Int (i + 1);
                  Lit "/"; Int video_count; Lit " videos..."]) ;;;
         gret (videos ++ [video])) [] ;;
     t <- now ;;
     let output_data :=
       JObj [ (py "videos", JArr videos);
              (py "extracted_at", JStr (clock_iso w t));
              (py "total_videos", Scraper.jlen videos);
              (py "mock_mode", JBool true);
              (py "note", mock_note) ] in
     output_file <-
       output_name w output_file (py "tiktok_trending_mock") output_format ;;
     lift (if str_eqb output_format (py "json")
           then json_dump w output_file output_data
           else write_videos_csv w output_file videos) ;;;
     lift (report_saved output_file (Some videos)))
    is_Exception
    (fun e => lift (fail e)).

Definition mock_scrape_hashtag (w : runtime) (hashtag output_format : pystr)
  (output_file : option pystr) (limit : option Z) : G unit :=
  gtry
    (lift (print [Lit Mock.CYAN;
                  Lit " [MOCK MODE] Generating mock videos for hashtag: #";
                  Txt hashtag; Lit "..."]) ;;;
     let video_count := Scraper.count_or limit 30 in
     lift (print [Lit Mock.CYAN; Lit " [MOCK] Generating "; Int video_count;
                  Lit " mock videos..."]) ;;;
     let hashtag_users :=
       List.map (fun i => py "user" ++ str_of_int i)
         [1; 2; 3; 4; 5; 6; 7; 8; 9]%Z in
     videos <-
       for_range video_count (fun i videos =>
         username <- choice w hashtag_users ;;
         video <- generate_mock_video w i username ;;
         desc <- lift (bind (subscript video "desc") text_of) ;;
         video <- lift (set_item video "desc"
                          (JStr (py "#" ++ hashtag ++ py " " ++ desc))) ;;
         lift (every_tenth i
                 [Lit Mock.CYAN; Lit " [MOCK] Generated "; Int (i + 1);
                  Lit "/"; Int video_count; Lit " videos..."]) ;;;
         gret (videos ++ [video])) [] ;;
     t <- now ;;
     let output_data :=
       JObj [ (py "hashtag", JStr hashtag);
              (py "videos", JArr videos);
              (py "extracted_at", JStr (clock_iso w t));
              (py "total_videos", Scraper.jlen videos);
              (py "mock_mode", JBool true);
              (py "note", mock_note) ] in
     output_file <-
       output_name w output_file
         (py "tiktok_hashtag_" ++ hashtag ++ py "_mock") output_format ;;
     lift (if str_eqb output_format (py "json")
           then json_dump w output_file output_data
           else write_videos_csv w output_file videos) ;;;
     lift (report_saved output_file (Some videos)))
    is_Exception
    (fun e => lift (fail e)).

(** [range(comment_limit)]; [comment_limit] is [None] when [main] was not
    given [--comments], and [range(None)] is a [TypeError]. *)
Definition comment_count (comment_limit : option Z) : M Z :=
  match comment_limit with
  | Some n => ret n
  | None => raise TypeError
  end.

Definition limit_piece (comment_limit : option Z) : piece :=
  match comment_limit with
  | Some n => Int n
  | None => Lit "None"
  end.

Definition mock_scrape_video (w : runtime) (video_id output_format : pystr)
  (output_file : option pystr) (include_comments : bool)
  (comment_limit : option Z) : G unit :=
  gtry
    (lift (print [Lit Mock.CYAN;
                  Lit " [MOCK MODE] Generating mock video data for: ";
                  Txt video_id; Lit "..."]) ;;;
     let desc := py "Mock video description for " ++ video_id in
     t <- now ;;
     ago <- randint w 0 (86400 * 30) ;;
     diggCount <- randint w 1000 5000000 ;;
     shareCount <- randint w 100 500000 ;;
     commentCount <- randint w 50 100000 ;;
     playCount <- randint w 10000 10000000 ;;
     duration <- randint w 10 60 ;;
     let video_info :=
       JObj
         [ (py "id", JStr video_id);
           (py "desc", JStr desc);
           (py "createTime", JNum (clock w t - ago));
           (py "author",
            JObj [ (py "uniqueId", jtext "mockuser");
                   (py "nickname", jtext "Mock User") ]);
           (py "stats",
            JObj [ (py "diggCount", JNum diggCount);
                   (py "shareCount", JNum shareCount);
                   (py "commentCount", JNum commentCount);
                   (py "playCount", JNum playCount) ]);
           (py "video",
            JObj [ (py "downloadAddr",
                    JStr (py "https://example.com/videos/" ++ video_id
                            ++ py ".mp4"));
                   (py "cover",
                    JStr (py "https://example.com/covers/" ++ video_id
                            ++ py ".jpg"));
                   (py "duration", JNum duration) ]) ] in
     lift (print [Lit Mock.GREEN; Lit " [MOCK] Generated video: ";
                  Txt desc]) ;;;
     lift (print [Lit Mock.CYAN; Lit " [MOCK] Views: ";
                  Txt (format_thousands playCount)]) ;;;
     lift (print [Lit Mock.CYAN; Lit " [MOCK] Likes: ";
                  Txt (format_thousands diggCount)]) ;;;
     comments <-
       (if include_comments then
          lift (print [Lit Mock.CYAN; Lit " [MOCK] Generating ";
                       limit_piece comment_limit; Lit " mock comments..."]) ;;;
          n <- lift (comment_count comment_limit) ;;
          comments <-
            for_range n (fun i comments =>
              comment <- generate_mock_comment w i ;;
              lift (every_tenth i
                      [Lit Mock.CYAN; Lit " [MOCK] Generated "; Int (i + 1);
                       Lit "/"; limit_piece comment_limit;
                       Lit " comments..."]) ;;;
              gret (comments ++ [comment])) [] ;;
          lift (print [Lit Mock.GREEN; Lit " [MOCK] Total comments generated: ";
                       Int (Z.of_nat (List.length comments))]) ;;;
          gret comments
        else gret []) ;;
     t <- now ;;
     let output_data :=
       JObj ([ (py "video", video_info);
               (py "extracted_at", JStr (clock_iso w t));
               (py "mock_mode", JBool true);
               (py "note", mock_note) ]
             ++ (if include_comments
                 then [ (py "comments", JArr comments);
                        (py "total_comments", Scraper.jlen comments) ]
                 else [])) in
     output_file <-
       output_name w output_file
         (py "tiktok_video_" ++ video_id ++ py "_mock") output_format ;;
     lift (if str_eqb output_format (py "json")
           then json_dump w output_file output_data
           else write_video_csv w output_file video_info include_comments
                  comments) ;;;
     lift (report_saved output_file None))
    is_Exception
    (fun e => lift (fail e)).

(** ** The whole program

    [main] with its generators in place.  The first random number is the
    one [main] may draw for a stand-in video id; the generators go on from
    the second. *)
Definition after_main : state := State 1 0.

Definition random_video_id (w : runtime) : pystr :=
  str_of_int
    (in_range 7000000000000000000 7999999999999999999 (draw w 0)).

Definition run {A} (m : G A) (s : state) : M unit :=
  bind (m s) (fun _ => ret tt).

Definition main (w : runtime) (a : Mock.argv) : M unit :=
  Mock.main
    (fun username output_format output_file limit include_followers
         follower_limit quiet =>
       run (mock_scrape_user w username output_format output_file limit
              include_followers follower_limit quiet) after_main)
    (fun output_format output_file limit =>
       run (mock_scrape_trending w output_format output_file limit)
         after_main)
    (fun hashtag output_format output_file limit =>
       run (mock_scrape_hashtag w hashtag output_format output_file limit)
         after_main)
    (fun video_id output_format output_file include_comments comment_limit =>
       run (mock_scrape_video w video_id output_format output_file
              include_comments comment_limit) after_main)
    (random_video_id w)
    a.

End MockData.

(* ===================================================================== *)
(** * Vocabulary of the statements *)
(* ===================================================================== *)

Module Spec.

Import Locator.

(** What SQLite opens when the locator connects to the cookie file [p]. *)
Definition opened (w : world) (p : path) : dbfile := sqlite w (cookie_uri p).

(** The user's interrupt is pending at a file: opening or querying it
    raises [KeyboardInterrupt]. *)
Definition interrupted_at (w : world) (p : path) : bool :=
  match opened w p with
  | Unopenable KeyboardInterrupt | Failing KeyboardInterrupt => true
  | _ => false
  end.

(** The calls to SQLite that probing or reading the files [l] makes. *)
Definition connects (l : list path) : list event :=
  map (fun p => Connect (cookie_uri p)) l.

(** No interrupt is pending at any of the files [l]. *)
Definition calm (w : world) (l : list path) : Prop :=
  Forall (fun p => interrupted_at w p = false) l.

(** The answer of the TikTok-cookie probe on a candidate. *)
Definition probe (w : world) (is_firefox : bool) (p : path) : bool :=
  match result (has_tiktok_cookies w p is_firefox) with
  | Ok b => b
  | _ => false
  end.

(** [output] is the stable partition of [input] by [has]: a permutation in
    which the elements that have the property come first, each group in its
    original order. *)
Definition is_stable_partition {A} (has : A -> bool) (input output : list A)
  : Prop :=
  Permutation input output /\
  exists yes no,
    output = yes ++ no /\
    Forall (fun x => has x = true) yes /\
    Forall (fun x => has x = false) no /\
    yes = filter has input /\
    no = filter (fun x => negb (has x)) input.

(** The two browser families, and what each one's extraction uses. *)
Inductive family : Type := Firefox | ChromeEdge.

Definition cookie_table (fam : family) : table_name :=
  match fam with Firefox => moz_cookies | ChromeEdge => cookies end.

Definition queries (fam : family) : pystr -> list query :=
  match fam with
  | Firefox => firefox_queries
  | ChromeEdge => chrome_edge_queries
  end.

Definition extract (fam : family) : world -> path -> M (option token) :=
  match fam with
  | Firefox => extract_ms_token_from_firefox
  | ChromeEdge => extract_ms_token_from_chrome_edge
  end.

(** The extraction queries that read a table (those for [msToken]; the
    ones for [ms_token] name the same columns). *)
Definition extraction_queries (t : table_name) : list query :=
  match t with
  | moz_cookies => firefox_queries (py "msToken")
  | cookies => chrome_edge_queries (py "msToken")
  end.

(** A database of the wrong schema: the cookie table is missing, or none of
    the extraction queries compiles against it (it lacks the [name] or
    [value] column, or every column a query filters the host by).  An
    empty file is a database without tables. *)
Definition wrong_schema (db : database) (t : table_name) : bool :=
  match table_of db t with
  | None => true
  | Some tb => forallb (fun q => negb (compiles tb q)) (extraction_queries t)
  end.

(** A file no token can come from: it cannot be opened (as a directory
    cannot), is not a database, or is a database of the wrong schema. *)
Definition malformed (t : table_name) (f : dbfile) : bool :=
  match f with
  | Unopenable e | Failing e => is_Exception e
  | Database db => wrong_schema db t
  end.

(** What SQLite opens for every candidate of every browser family is
    malformed; this includes the case of no candidates at all (profile
    directories missing or empty). *)
Definition no_usable_profile (w : world) : Prop :=
  Forall (fun p => malformed moz_cookies (opened w p) = true)
    (firefox_candidates w)
  /\ Forall (fun p => malformed cookies (opened w p) = true)
       (chrome_candidates w)
  /\ Forall (fun p => malformed cookies (opened w p) = true)
       (edge_candidates w).

(** The console can print the path of every candidate. *)
Definition candidates_printable (w : world) : Prop :=
  Forall (fun p => encodable w (path_str p) = true)
    (firefox_candidates w ++ chrome_candidates w ++ edge_candidates w).

(** C7 read literally, at one cookie file: when the file is a database with
    a row named [msToken] that some query of the fixed list selects and
    whose value is text that is not blank, the extraction returns that
    row's value, trimmed. *)
Definition returns_value_of_token_row (fam : family) (w : world)
  (f : path) : Prop :=
  forall db tb r v,
    lookup (home w) f = Some (File (Database db)) ->
    table_of db (cookie_table fam) = Some tb ->
    In r (t_rows tb) ->
    r_name r = py "msToken" ->
    (exists q, In q (queries fam (py "msToken"))
               /\ compiles tb q = true /\ holds (q_where q) r = true) ->
    r_value r = VText v ->
    strip v <> [] ->
    result (extract fam w f) = Ok (Some (TokStr (strip v))).

(** A computation that does not end in [sys.exit]. *)
Definition no_exit {A} (m : M A) : Prop := forall c, result m <> Exit c.

(** A computation that returns no empty token. *)
Definition returns_truthy (m : M (option token)) : Prop :=
  forall t, result m = Ok (Some t) -> token_truthy t = true.

(** Every event of a run satisfies [P]. *)
Definition every (P : event -> Prop) {A} (m : M A) : Prop :=
  Forall P (trace m).

(** A property of requests, as a property of events: an event that is not
    a request satisfies it. *)
Definition on_requests (Q : request -> Prop) (ev : event) : Prop :=
  match ev with
  | Remote rq => Q rq
  | _ => True
  end.





(** The requests among the events of a run. *)
Fixpoint requests (t : list event) : list request :=
  match t with
  | [] => []
  | Remote rq :: t' => rq :: requests t'
  | _ :: t' => requests t'
  end.

(** An event that touches neither the remote service nor a file. *)
Definition console_only (ev : event) : bool :=
  match ev with
  | Print _ | Stderr _ => true
  | _ => false
  end.

(** The documents a run hands to [json.dump], and the rows it writes. *)
Fixpoint dumps (t : list event) : list json :=
  match t with
  | [] => []
  | JsonDump _ d :: t' => d :: dumps t'
  | _ :: t' => dumps t'
  end.

Fixpoint csv_rows (t : list event) : list (list json) :=
  match t with
  | [] => []
  | CsvRow _ row :: t' => row :: csv_rows t'
  | _ :: t' => csv_rows t'
  end.

(** The loop that writes one CSV row per item. *)
Definition write_rows (row_of : json -> M (list json)) (file : pystr)
  (items : list json) : M unit :=
  Scraper.for_each items (fun item =>
    row <- row_of item ;; Scraper.writerow file row).

(** A field of a JSON object. *)
Definition field (d : json) (key : string) : option json :=
  match d with
  | JObj fields => assoc (py key) fields
  | _ => None
  end.

(** The length of a text cell (0 for a cell that is not text). *)
Definition text_length (cell : json) : nat :=
  match cell with
  | JStr s => List.length s
  | _ => 0
  end.

End Spec.

(* ===================================================================== *)
(** * Concrete file systems and remote services *)
(* ===================================================================== *)

Module Examples.

Import Locator Spec.

Definition chrome_db (rows : list row) : node :=
  File (Database (Db None (Some (Table [Name; HostKey; Value] rows)))).

(** A Firefox database of the current schema (no [baseDomain] column). *)
Definition firefox_db (rows : list row) : node :=
  File (Database (Db (Some (Table [Name; Host; Value] rows)) None)).

(** A home directory on Linux with the given Firefox, Chrome and Edge
    profile directories. *)
Definition linux_home (firefox chrome edge : list (pystr * node)) : node :=
  Dir [ (py ".mozilla", Dir [ (py "firefox", Dir firefox) ]);
        (py ".config", Dir [ (py "google-chrome", Dir chrome);
                             (py "microsoft-edge", Dir edge) ]) ].

(** Linux, with SQLite reading the tree, every output file writable and a
    console that takes every character. *)
Definition linux (home : node) : world :=
  World (py "Linux") home (open_uri home) (fun _ => true) (fun _ => true).

Definition profile (name : string) (cookie_file : string) (f : node)
  : pystr * node :=
  (py name, Dir [ (py cookie_file, f) ]).

Definition chrome_path (profile_name : string) : path :=
  [py ".config"; py "google-chrome"; py profile_name; py "Cookies"].

Definition edge_path (profile_name : string) : path :=
  [py ".config"; py "microsoft-edge"; py profile_name; py "Cookies"].

Definition firefox_path (profile_name : string) : path :=
  [py ".mozilla"; py "firefox"; py profile_name; py "cookies.sqlite"].

Definition tiktok_row (value : sqlval) : row :=
  Row (py "msToken") (py ".tiktok.com") [] value.

(** Chrome with a default and two numbered profiles, Edge with one. *)
Definition w_profiles : world :=
  linux (linux_home []
    [ profile "Default" "Cookies" (chrome_db []);
      profile "Profile 1" "Cookies"
        (chrome_db [tiktok_row (VText (py "tok123"))]);
      profile "Profile 2" "Cookies" (chrome_db []) ]
    [ profile "Profile 1" "Cookies" (chrome_db []) ]).

(** A Chrome profile whose [Cookies] entry is a dangling symbolic link. *)
Definition w_dangling : world :=
  linux (linux_home [] [ profile "Profile A" "Cookies" BrokenLink ] []).

(** Firefox: a file that is not a database; Chrome: an empty file; Edge:
    no profile. *)
Definition w_malformed : world :=
  linux (linux_home
    [ profile "abc.default" "cookies.sqlite"
        (File (Failing (DatabaseError "file is not a database"))) ]
    [ profile "Default" "Cookies" (File (Database (Db None None))) ]
    []).

(** The same tree with a Firefox profile whose name has a character
    outside ASCII, on a console that takes ASCII only. *)
Definition w_unprintable : world :=
  let home :=
    linux_home
      [ (py "caf" ++ [233%N] ++ py ".default",
         Dir [ (py "cookies.sqlite",
                File (Failing (DatabaseError "file is not a database"))) ]) ]
      [] [] in
  World (py "Linux") home (open_uri home) (fun _ => true) (fun _ => false).

(** A Firefox profile holding one [msToken] cookie with padded text. *)
Definition w_firefox_token : world :=
  linux (linux_home
    [ profile "abc.default" "cookies.sqlite"
        (firefox_db [tiktok_row (VText (py "  tok123  "))]) ]
    [] []).

(** A Chrome profile with two [msToken] rows of different values. *)
Definition w_two_rows : world :=
  linux (linux_home []
    [ profile "Default" "Cookies"
        (chrome_db [ tiktok_row (VText (py "AAA"));
                     Row (py "msToken") (py "www.tiktok.com") []
                       (VText (py "BBB")) ]) ]
    []).

(** A Chrome profile directory with [#] in its name, holding the token. *)
Definition w_hash_path : world :=
  linux (linux_home []
    [ profile "Profile #1" "Cookies"
        (chrome_db [tiktok_row (VText (py "tok123"))]) ]
    []).

(** A Chrome profile whose [msToken] value is text starting with [v1]. *)
Definition w_marker_text : world :=
  linux (linux_home []
    [ profile "Default" "Cookies"
        (chrome_db [tiktok_row (VText (py "v10abc"))]) ]
    []).

(** The same value stored as a blob. *)
Definition w_marker_blob : world :=
  linux (linux_home []
    [ profile "Default" "Cookies"
        (chrome_db [tiktok_row (VBlob (py "v10abc"))]) ]
    []).

(** The user interrupts while the first Firefox profile is being read. *)
Definition w_interrupted : world :=
  linux (linux_home
    [ profile "abc.default" "cookies.sqlite"
        (File (Failing KeyboardInterrupt)) ]
    [] []).

(** Command lines of the locator: no option at all, and [--browser b]. *)
Definition no_options : Locator.argv := Locator.Argv None None false.

Definition prefer (b : string) : Locator.argv :=
  Locator.Argv (Some (py b)) None false.


(** ** A remote service *)

Import Scraper.

Definition item (n : Z) : json :=
  JObj [ (py "id", JNum n); (py "text", jstr "nice");
         (py "desc", jstr "a video") ].

(** A service whose streams offer five items whatever count is asked for,
    and whose video has a description of 101 characters. *)
Definition r_five : remote :=
  {| installed := true;
     read_file := fun _ => None;
     can_write := fun _ => true;
     now_iso := py "2024-01-01T00:00:00";
     now_stamp := py "20240101_000000";
     create_sessions := fun _ => None;
     user_info := fun u => inr (JObj [ (py "uniqueId", JStr u) ]);
     user_videos := fun _ _ => ([item 1; item 2; item 3; item 4; item 5], None);
     trending_videos := fun _ => ([item 1; item 2; item 3; item 4; item 5], None);
     hashtag_videos := fun _ _ => ([item 1; item 2; item 3; item 4; item 5], None);
     video_info := fun _ v =>
       inr (JObj [ (py "id", JStr v); (py "desc", JStr (repeat 97%N 101)) ]);
     video_comments := fun _ _ _ =>
       ([item 1; item 2; item 3; item 4; item 5], None) |}.

Definition cli (mode : string) (target : option string) (fmt : string)
  (limit : option Z) (comments : bool) (comment_limit : option Z) : argv :=
  Argv (Some (py mode)) (option_map py target) (Some (py "token"))
    (Some (py fmt)) (Some (py "out")) limit comments comment_limit.

(** Generators that do nothing, for running the mock's [main]. *)
Definition idle_user :
  pystr -> pystr -> option pystr -> option Z -> bool -> option Z -> bool
  -> M unit := fun _ _ _ _ _ _ _ => ret tt.
Definition idle_trending : pystr -> option pystr -> option Z -> M unit :=
  fun _ _ _ => ret tt.
Definition idle_hashtag :
  pystr -> pystr -> option pystr -> option Z -> M unit :=
  fun _ _ _ _ => ret tt.
Definition idle_video :
  pystr -> pystr -> option pystr -> bool -> option Z -> M unit :=
  fun _ _ _ _ _ => ret tt.

Definition mock_cli (mode : string) (target : option string) : Mock.argv :=
  Mock.Argv (Some (py mode)) (option_map py target) None None None false
    None None false None false.

End Examples.

(* ===================================================================== *)
(** * Further vocabulary: what the code is observed to do *)
(* ===================================================================== *)

Module Observations.

Import Locator Spec Examples.

(** A token without surrounding whitespace, and not empty. *)
Definition trimmed (t : token) : Prop :=
  match t with
  | TokStr s => s <> [] /\ strip s = s
  | TokBytes b => b <> [] /\ bstrip b = b
  end.

(** Whatever token a computation returns satisfies [P]. *)
Definition returns_only (P : token -> Prop) (m : M (option token)) : Prop :=
  forall t, result m = Ok (Some t) -> P t.

(** A command line the locator's parser rejects: [--browser] with a value
    outside its choices. *)
Definition rejected (a : Locator.argv) : bool :=
  match opt_browser a with
  | Some b => negb (existsb (str_eqb b) browser_choices)
  | None => false
  end.

(** A found token can be handed over without [print] failing: with
    [--stdout] the console takes the token; without it, the console takes
    the name of the output file, which both reports of [save_ms_token]
    print. *)
Definition deliverable (w : world) (a : args) (t : token) : bool :=
  if stdout a then
    match t with
    | TokStr s => encodable w s
    | TokBytes _ => true
    end
  else encodable w (output a).

(** An event of the search: a line printed, or a call to SQLite. *)
Definition search_event (ev : event) : bool :=
  match ev with
  | Print _ | Connect _ => true
  | _ => false
  end.

Definition is_connect (ev : event) : bool :=
  match ev with Connect _ => true | _ => false end.

(** An event that opens or writes a file. *)
Definition writes_file (ev : event) : bool :=
  match ev with
  | OpenForWrite _ | WriteText _ _ | JsonDump _ _ | CsvRow _ _ => true
  | _ => false
  end.

(** The file events [save_ms_token] leaves for a token: the file is opened if
    it can be, and text (not [bytes]) is then written to it. *)
Definition saved (w : world) (t : token) (file : pystr) : list event :=
  if writable w file then
    OpenForWrite file ::
    match t with
    | TokStr s => [WriteText file (Txt s)]
    | TokBytes _ => []
    end
  else [].

(** What a query hands to the extraction loop ([fetchone]): the value in
    the first row it selects, or nothing when it does not compile against
    the table or selects no row. *)
Definition first_value (tb : table) (q : query) : option sqlval :=
  if compiles tb q then
    match matching tb q with
    | r :: _ => Some (cell r Value)
    | [] => None
    end
  else None.

(** What the loop passes over in silence, going on to the next query:
    nothing at all, or a value that is false in Python ([NULL], 0, empty
    text or bytes); in the Firefox loop also blank text and blank bytes; in
    the Chrome/Edge loop also text that is blank or begins with [v1], and
    numbers. *)
Definition passed_over (fam : family) (x : option sqlval) : bool :=
  match x with
  | None => true
  | Some val =>
      negb (truthy val)
      || match fam, val with
         | Firefox, VText s => str_eqb (strip s) []
         | Firefox, VBlob b => str_eqb (bstrip b) []
         | Firefox, _ => false
         | ChromeEdge, VText s => negb (looks_plain s)
         | ChromeEdge, VBlob _ => false
         | ChromeEdge, _ => true
         end
  end.

(** One turn of the query loop of either extraction function. *)
Definition try_query (fam : family) (w : world) (f : path)
  (conn : connection) : query -> M (option token) :=
  match fam with
  | Firefox => firefox_try_query conn
  | ChromeEdge => chrome_edge_try_query w f conn
  end.

(** Some row of the table satisfies the condition. *)
Definition any_row (c : cond) (tb : table) : bool :=
  existsb (holds c) (t_rows tb).

(** A Firefox profile in which [cookies.sqlite] is a directory. *)
Definition w_directory : world :=
  linux (linux_home [ profile "abc.default" "cookies.sqlite" (Dir []) ]
           [] []).

(** A Chrome profile whose token cookie has the snake-case name. *)
Definition w_snake_case : world :=
  linux (linux_home []
    [ profile "Default" "Cookies"
        (chrome_db [ Row (py "sessionid") (py ".tiktok.com") []
                       (VText (py "abc"));
                     Row (py "ms_token") (py ".tiktok.com") []
                       (VText (py " tok9 ")) ]) ]
    []).

(** The line [extract_ms_token_from_firefox] prints from its outer handler. *)
Definition firefox_warning (f : path) (e : exn) : event :=
  Print [Lit YELLOW; Lit " Warning: Could not extract from Firefox ";
         Txt (path_str f); Lit ": "; Exc e].

(** The lines [extract_ms_token_from_chrome_edge] prints from its outer
    handlers. *)
Definition chrome_edge_locked (f : path) : list event :=
  [ Print [Lit YELLOW; Lit " Warning: "; Txt (path_str f);
           Lit " is locked (browser may be running)"];
    Print [Lit YELLOW;
           Lit " Tip: Close Chrome/Edge and try again, or use Firefox"] ].

Definition chrome_edge_unreadable (f : path) (e : exn) : event :=
  Print [Lit YELLOW; Lit " Warning: Could not read "; Txt (path_str f);
         Lit ": "; Exc e].

Definition chrome_edge_failed (f : path) (e : exn) : event :=
  Print [Lit YELLOW; Lit " Warning: Could not extract from ";
         Txt (path_str f); Lit ": "; Exc e].

(** [e] is an [OperationalError] whose text holds "database is locked",
    in any case of letters. *)
Definition says_locked (e : exn) : bool :=
  match e with
  | OperationalError msg => contains (lower (py msg)) (py "database is locked")
  | _ => false
  end.

(** ** The dispatcher *)

(** A run that ends the process with status 1 and leaves no file behind. *)
Definition fails_without_saving (m : M unit) : Prop :=
  result m = Exit 1 /\ filter writes_file (trace m) = [].



(** The token [main] passes on: the stripped content of the file named by
    [--session] when there is such a file, the argument itself otherwise. *)
Definition session_token (r : Scraper.remote) (session : pystr) : pystr :=
  match Scraper.read_file r session with
  | Some (inr text) => strip text
  | _ => session
  end.

(** The file named by [--session] exists and cannot be read. *)
Definition session_unreadable (r : Scraper.remote) (session : pystr)
  : option exn :=
  match Scraper.read_file r session with
  | Some (inl e) => Some e
  | _ => None
  end.

Definition opens_session (rq : request) : bool :=
  match rq with CreateSessions _ => true | _ => false end.

Definition is_dict (j : json) : bool :=
  match j with JObj _ => true | _ => false end.

Definition sliceable (j : json) : bool :=
  match j with JStr _ | JArr _ => true | _ => false end.

(** The value of [d.get(key, default)] on a dictionary [d]. *)
Definition field_or (d : json) (key : string) (default : json) : json :=
  match field d key with Some v => v | None => default end.

(** The shape of an item the CSV writers can turn into a row: a dictionary
    whose free text, if present, is a string or a list, and whose nested
    records, if present, are dictionaries. *)
Definition exportable (text : string) (nested : list string) (item : json)
  : bool :=
  is_dict item
  && sliceable (field_or item text (Scraper.jstr ""))
  && forallb (fun key => is_dict (field_or item key (JObj []))) nested.

Definition exportable_video : json -> bool :=
  exportable "desc" ["author"%string; "stats"%string].

Definition exportable_user_video : json -> bool :=
  exportable "desc" ["stats"%string].

Definition exportable_comment : json -> bool :=
  exportable "text" ["user"%string].

(** [row_of] gives an item that is [ok] a row of [width] cells, silently,
    and raises on any other item. *)
Definition row_or_error (row_of : json -> M (list json)) (width : nat)
  (ok : json -> bool) (item : json) : Prop :=
  if ok item
  then exists row, row_of item = ([], Ok row) /\ List.length row = width
  else exists e, row_of item = ([], Raise e) /\ is_Exception e = true.

(** A service whose video streams break after two items, and that reads
    the token from the file [session.txt]; the name [.] is the current
    directory, which exists and cannot be opened as a file. *)
Definition r_broken : Scraper.remote :=
  {| Scraper.installed := true;
     Scraper.read_file := fun f =>
       if str_eqb f (py "session.txt")
       then Some (inr (py "  tok123 " ++ [10%N]))
       else if str_eqb f (py ".")
       then Some (inl (OSError "Is a directory"))
       else None;
     Scraper.can_write := fun _ => true;
     Scraper.now_iso := py "2024-01-01T00:00:00";
     Scraper.now_stamp := py "20240101_000000";
     Scraper.create_sessions := fun _ => None;
     Scraper.user_info := fun u => inr (JObj [ (py "uniqueId", JStr u) ]);
     Scraper.user_videos := fun _ _ =>
       ([item 1; item 2], Some (OtherError "connection lost"));
     Scraper.trending_videos := fun _ =>
       ([item 1; item 2], Some (OtherError "connection lost"));
     Scraper.hashtag_videos := fun _ _ =>
       ([item 1; item 2], Some (OtherError "connection lost"));
     Scraper.video_info := fun _ v => inr (JObj [ (py "id", JStr v) ]);
     Scraper.video_comments := fun _ _ _ => ([], None) |}.


(** A video whose description is [null]. *)
Definition item_without_text (n : Z) : json :=
  JObj [ (py "id", JNum n); (py "desc", JNull) ].

(** A service whose trending stream has a malformed third item. *)
Definition r_bad_item : Scraper.remote :=
  {| Scraper.installed := true;
     Scraper.read_file := fun _ => None;
     Scraper.can_write := fun _ => true;
     Scraper.now_iso := py "2024-01-01T00:00:00";
     Scraper.now_stamp := py "20240101_000000";
     Scraper.create_sessions := fun _ => None;
     Scraper.user_info := fun u => inr (JObj [ (py "uniqueId", JStr u) ]);
     Scraper.user_videos := fun _ _ => ([], None);
     Scraper.trending_videos := fun _ =>
       ([item 1; item 2; item_without_text 3; item 4], None);
     Scraper.hashtag_videos := fun _ _ => ([], None);
     Scraper.video_info := fun _ v => inr (JObj [ (py "id", JStr v) ]);
     Scraper.video_comments := fun _ _ _ => ([], None) |}.

(** The command line [a] with one option replaced. *)
Definition with_target (a : Scraper.argv) (t : option pystr) : Scraper.argv :=
  Scraper.Argv (Scraper.opt_mode a) t (Scraper.opt_session a)
    (Scraper.opt_format a) (Scraper.opt_output a) (Scraper.opt_limit a)
    (Scraper.opt_comments a) (Scraper.opt_comment_limit a).

Definition with_limit (a : Scraper.argv) (l : option Z) : Scraper.argv :=
  Scraper.Argv (Scraper.opt_mode a) (Scraper.opt_target a)
    (Scraper.opt_session a) (Scraper.opt_format a) (Scraper.opt_output a) l
    (Scraper.opt_comments a) (Scraper.opt_comment_limit a).

Definition with_comment_limit (a : Scraper.argv) (c : option Z)
  : Scraper.argv :=
  Scraper.Argv (Scraper.opt_mode a) (Scraper.opt_target a)
    (Scraper.opt_session a) (Scraper.opt_format a) (Scraper.opt_output a)
    (Scraper.opt_limit a) (Scraper.opt_comments a) c.

(** ** The mock generator *)

(** [m] runs to its end from every state, writing no file, and returns a
    value that satisfies [P]. *)
Definition always {A} (P : A -> Prop) (m : MockData.G A) : Prop :=
  forall s, exists t a s',
    m s = (t, Ok (a, s')) /\ filter writes_file t = [] /\ P a.

(** What is observed of a run of a generator: the file events, and how it
    ended. *)
Definition outcome_of {A} (m : M (A * MockData.state)) : outcome unit :=
  match result m with
  | Ok _ => Ok tt
  | Raise e => Raise e
  | Exit c => Exit c
  end.

Definition observed {A} (m : M (A * MockData.state))
  : list event * outcome unit :=
  (filter writes_file (trace m), outcome_of m).

















End Observations.

(* ===================================================================== *)
(** * Properties of the locator *)
(* ===================================================================== *)

Import Locator Spec Examples Observations.

(** ** Ranking *)

Section StablePartition.

Context {A : Type} (has : A -> bool).

Lemma filter_split_permutation (l : list A) :
  Permutation l (filter has l ++ filter (fun x => negb (has x)) l).
Proof.
  induction l as [|x l IH]; simpl.
  - constructor.
  - destruct (has x); simpl.
    + now constructor.
    + now apply Permutation_cons_app.
Qed.

Lemma filter_split_stable (l : list A) :
  is_stable_partition has l
    (filter has l ++ filter (fun x => negb (has x)) l).
Proof.
  split; [apply filter_split_permutation|].
  exists (filter has l), (filter (fun x => negb (has x)) l).
  repeat split.
  - apply Forall_forall. intros x Hx. apply filter_In in Hx. tauto.
  - apply Forall_forall. intros x Hx. apply filter_In in Hx.
    destruct Hx as [_ Hx]. now apply negb_true_iff in Hx.
Qed.

End StablePartition.

Lemma filter_all_true {A} (f : A -> bool) (l : list A) :
  Forall (fun x => f x = true) l -> filter f l = l.
Proof.
  induction 1 as [|x l Hx _ IH]; simpl; [reflexivity|].
  now rewrite Hx, IH.
Qed.

(** A [COUNT] query either fails to compile or yields a number. *)
Lemma fetchone_count_cases (db : database) (t : table_name) (c : cond) :
  (exists m,
      fetchone db (Select CountAll t c) = ([], Raise (OperationalError m)))
  \/ (exists n,
         fetchone db (Select CountAll t c) = ([], Ok (Some (VInt n)))).
Proof.
  unfold fetchone; simpl.
  destruct (table_of db t) as [tb|]; [|left; eexists; reflexivity].
  destruct (compiles _ _); [right|left]; eexists; reflexivity.
Qed.

Ltac count_query :=
  match goal with
  | |- context [fetchone ?db (Select CountAll ?t ?c)] =>
      let m := fresh "m" in
      let n := fresh "n" in
      let H := fresh "H" in
      destruct (fetchone_count_cases db t c) as [[m H] | [n H]];
      rewrite H; clear H; simpl;
      try destruct (0 <? n)%Z; simpl
  end.

(** The probe connects once, prints nothing and swallows every
    [Exception]; only the user's interrupt passes through it. *)
Lemma has_tiktok_cookies_cases (w : world) (p : path) (is_firefox : bool) :
  (exists b,
      has_tiktok_cookies w p is_firefox = ([Connect (cookie_uri p)], Ok b))
  \/ (interrupted_at w p = true
      /\ has_tiktok_cookies w p is_firefox
         = ([Connect (cookie_uri p)], Raise KeyboardInterrupt)).
Proof.
  unfold has_tiktok_cookies, has_tiktok_cookies_block, interrupted_at, opened,
    connect.
  destruct (sqlite w (cookie_uri p)) as [e|e|db]; simpl.
  - destruct e; destruct is_firefox; simpl;
      try (left; eexists; reflexivity); right; split; reflexivity.
  - destruct e; destruct is_firefox; simpl;
      try (left; eexists; reflexivity); right; split; reflexivity.
  - left. destruct is_firefox; simpl; repeat count_query; eexists; reflexivity.
Qed.

Lemma has_tiktok_cookies_calm (w : world) (p : path) (is_firefox : bool) :
  interrupted_at w p = false ->
  has_tiktok_cookies w p is_firefox
  = ([Connect (cookie_uri p)], Ok (probe w is_firefox p)).
Proof.
  intros Hcalm. unfold probe.
  destruct (has_tiktok_cookies_cases w p is_firefox) as [[b H] | [H _]].
  - rewrite H. reflexivity.
  - congruence.
Qed.

Lemma prioritize_firefox_loop_spec (w : world) (l : list path) :
  calm w l ->
  forall prioritized others,
    prioritize_firefox_loop w l prioritized others =
    (connects l,
     Ok (prioritized ++ filter (probe w true) l,
         others ++ filter (fun p => negb (probe w true p)) l)).
Proof.
  induction 1 as [|p l Hp Hl IH]; intros prioritized others; simpl.
  - now rewrite !app_nil_r.
  - rewrite (has_tiktok_cookies_calm w p true Hp). cbn [bind].
    destruct (probe w true p); cbn [filter negb]; rewrite IH, <- app_assoc;
      reflexivity.
Qed.

Lemma prioritize_chrome_edge_loop_spec (w : world) (l : list path) :
  calm w l ->
  forall prioritized others,
    prioritize_chrome_edge_loop w l prioritized others =
    (connects (filter (path_exists (home w)) l),
     Ok (prioritized
           ++ filter (probe w false) (filter (path_exists (home w)) l),
         others
           ++ filter (fun p => negb (probe w false p))
                (filter (path_exists (home w)) l))).
Proof.
  induction 1 as [|p l Hp Hl IH]; intros prioritized others; simpl.
  - now rewrite !app_nil_r.
  - destruct (path_exists (home w) p) eqn:Hex; simpl.
    + rewrite (has_tiktok_cookies_calm w p false Hp). cbn [bind].
      destruct (probe w false p); cbn [filter negb]; rewrite IH, <- app_assoc;
        reflexivity.
    + rewrite IH. reflexivity.
Qed.

Lemma prioritize_firefox_spec (w : world) (l : list path) :
  calm w l ->
  prioritize_firefox w l =
  (connects l,
   Ok (filter (probe w true) l ++ filter (fun p => negb (probe w true p)) l)).
Proof.
  intros H. unfold prioritize_firefox.
  rewrite (prioritize_firefox_loop_spec H). simpl.
  now rewrite app_nil_r.
Qed.

Lemma prioritize_chrome_edge_spec (w : world) (l : list path) :
  calm w l ->
  prioritize_chrome_edge w l =
  (connects (filter (path_exists (home w)) l),
   Ok (filter (probe w false) (filter (path_exists (home w)) l)
       ++ filter (fun p => negb (probe w false p))
            (filter (path_exists (home w)) l))).
Proof.
  intros H. unfold prioritize_chrome_edge.
  rewrite (prioritize_chrome_edge_loop_spec H). simpl.
  now rewrite app_nil_r.
Qed.

(** C1, as the code has it.  With no interrupt pending at the candidates:
    the Firefox ranking returns the stable partition of its input by the
    probe; the Chrome/Edge ranking returns the stable partition of those
    candidates that still exist when they are ranked (the others are
    dropped), hence of its whole input when all of them exist. *)
Theorem ranking_is_stable_partition (w : world) (l : list path) :
  calm w l ->
  (exists out,
      result (prioritize_firefox w l) = Ok out
      /\ is_stable_partition (probe w true) l out)
  /\ (exists out,
         result (prioritize_chrome_edge w l) = Ok out
         /\ is_stable_partition (probe w false)
              (filter (path_exists (home w)) l) out
         /\ (Forall (fun p => path_exists (home w) p = true) l ->
             is_stable_partition (probe w false) l out)).
Proof.
  intros Hcalm. split.
  - eexists. rewrite (prioritize_firefox_spec Hcalm). split; [reflexivity|].
    apply filter_split_stable.
  - eexists. rewrite (prioritize_chrome_edge_spec Hcalm).
    split; [reflexivity|]. split.
    + apply filter_split_stable.
    + intros Hall. rewrite (filter_all_true _ Hall).
      apply filter_split_stable.
Qed.

Lemma ranking_is_stable_partition_witness :
  calm w_profiles (chrome_candidates w_profiles)
  /\ (exists out,
         result (prioritize_firefox w_profiles (chrome_candidates w_profiles))
         = Ok out
         /\ is_stable_partition (probe w_profiles true)
              (chrome_candidates w_profiles) out)
  /\ (exists out,
         result (prioritize_chrome_edge w_profiles
                   (chrome_candidates w_profiles)) = Ok out
         /\ is_stable_partition (probe w_profiles false)
              (filter (path_exists (home w_profiles))
                 (chrome_candidates w_profiles)) out
         /\ (Forall (fun p => path_exists (home w_profiles) p = true)
               (chrome_candidates w_profiles) ->
             is_stable_partition (probe w_profiles false)
               (chrome_candidates w_profiles) out)).
Proof.
  assert (H : calm w_profiles (chrome_candidates w_profiles)).
  { unfold calm. vm_compute chrome_candidates.
    repeat (constructor; [vm_compute; reflexivity|]). constructor. }
  split; [exact H|].
  exact (@ranking_is_stable_partition w_profiles
           (chrome_candidates w_profiles) H).
Defined.

(** C1, as stated, fails for Chrome and Edge: a candidate that [glob]
    reports but that does not exist (here a dangling link) is in the input
    of the ranking and not in its output. *)
Lemma ranking_drops_dangling_candidate :
  chrome_candidates w_dangling = [chrome_path "Profile A"]
  /\ calm w_dangling (chrome_candidates w_dangling)
  /\ result (prioritize_chrome_edge w_dangling (chrome_candidates w_dangling))
     = Ok []
  /\ ~ (exists out,
          result (prioritize_chrome_edge w_dangling
                    (chrome_candidates w_dangling)) = Ok out
          /\ is_stable_partition (probe w_dangling false)
               (chrome_candidates w_dangling) out).
Proof.
  assert (Hc : chrome_candidates w_dangling = [chrome_path "Profile A"])
    by (vm_compute; reflexivity).
  assert (Hr : result (prioritize_chrome_edge w_dangling
                         (chrome_candidates w_dangling)) = Ok [])
    by (vm_compute; reflexivity).
  split; [exact Hc|]. split.
  - rewrite Hc. constructor; [vm_compute; reflexivity | constructor].
  - split; [exact Hr|].
    intros [out [Hout [Hperm _]]].
    rewrite Hr in Hout. injection Hout as <-.
    rewrite Hc in Hperm. apply Permutation_sym, Permutation_nil in Hperm.
    discriminate.
Qed.

(** ** Ordinary paths *)

Lemma split_on_component (c : pystr) (rest : pystr) :
  Forall (fun ch => plain_char ch = true) c ->
  split_on 47 (c ++ 47%N :: rest) = c :: split_on 47 rest.
Proof.
  induction 1 as [|ch c Hch _ IH]; [reflexivity|].
  unfold plain_char in Hch. rewrite !negb_true_iff, !orb_false_iff in Hch.
  destruct Hch as [_ H47].
  cbn [app split_on]. rewrite H47, IH. reflexivity.
Qed.

Lemma split_on_last (c : pystr) :
  Forall (fun ch => plain_char ch = true) c ->
  split_on 47 c = [c].
Proof.
  induction 1 as [|ch c Hch _ IH]; [reflexivity|].
  unfold plain_char in Hch. rewrite !negb_true_iff, !orb_false_iff in Hch.
  destruct Hch as [_ H47].
  cbn [split_on]. rewrite H47, IH. reflexivity.
Qed.

Lemma split_join (p : path) :
  p <> [] ->
  Forall (fun c => Forall (fun ch => plain_char ch = true) c) p ->
  split_on 47 (join (py "/") p) = p.
Proof.
  intros Hne H. revert Hne.
  induction H as [|c p Hc Hp IH]; intros Hne; [now destruct Hne|].
  destruct p as [|c' p'].
  - simpl. now apply split_on_last.
  - change (join (py "/") (c :: c' :: p'))
      with (c ++ 47%N :: join (py "/") (c' :: p')).
    rewrite (split_on_component _ Hc), IH; [reflexivity | discriminate].
Qed.

Lemma join_plain (p : path) :
  Forall (fun c => Forall (fun ch => plain_char ch = true) c) p ->
  Forall (fun ch => plain_char ch = true \/ ch = 47%N) (join (py "/") p).
Proof.
  induction 1 as [|c p Hc Hp IH]; [constructor|].
  assert (Hc' : Forall (fun ch => plain_char ch = true \/ ch = 47%N) c)
    by (eapply Forall_impl; [|exact Hc]; auto).
  destruct p as [|c' p']; [exact Hc'|].
  change (join (py "/") (c :: c' :: p'))
    with (c ++ 47%N :: join (py "/") (c' :: p')).
  apply Forall_app. split; [exact Hc'|]. constructor; [now right|exact IH].
Qed.

Lemma file_name_path (s query : pystr) :
  Forall (fun ch => plain_char ch = true \/ ch = 47%N) s ->
  file_name (s ++ 63%N :: query) = s.
Proof.
  induction 1 as [|c s Hc _ IH]; [reflexivity|].
  cbn [app file_name].
  assert (H : (N.eqb c 35 || N.eqb c 63) = false /\ N.eqb c 37 = false).
  { destruct Hc as [Hc | ->]; [|split; reflexivity].
    unfold plain_char in Hc. rewrite !negb_true_iff, !orb_false_iff in Hc.
    destruct Hc as [[[H35 H63] H37] _]. rewrite H35, H63, H37. now split. }
  destruct H as [-> ->]. now rewrite IH.
Qed.

(** An ordinary path designates its own file: where no component holds
    [#], [?], [%] or [/], SQLite opens for the URI what is at the path. *)
Lemma plain_path_opens_itself (root : node) (p : path) :
  plain p = true ->
  open_uri root (cookie_uri p) = open_path root p.
Proof.
  unfold plain. intros H. apply andb_true_iff in H. destruct H as [Hne H].
  assert (Hp : Forall (fun c => Forall (fun ch => plain_char ch = true) c) p).
  { apply Forall_forall. intros c Hc.
    rewrite forallb_forall in H. specialize (H c Hc).
    apply Forall_forall. intros ch Hch.
    rewrite forallb_forall in H. exact (H ch Hch). }
  assert (Hnil : p <> []) by (destruct p; [discriminate Hne | discriminate]).
  unfold open_uri, cookie_uri, path_str.
  change (skipn 5 (py "file:" ++ (py "~/" ++ join (py "/") p)
                   ++ py "?immutable=1"))
    with ((126%N :: 47%N :: join (py "/") p) ++ 63%N :: py "immutable=1").
  rewrite file_name_path.
  - unfold expanduser.
    change (split_on 47 (126%N :: 47%N :: join (py "/") p))
      with ([126%N] :: split_on 47 (join (py "/") p)).
    rewrite (split_join Hnil Hp). reflexivity.
  - constructor; [now left|]. constructor; [now right|].
    now apply join_plain.
Qed.

(** ** Enumeration *)

(** C10.  There is a file system (Chrome with [Default], [Profile 1] and
    [Profile 2]; Edge with [Profile 1]) in which the [Cookies] file of a
    numbered profile is matched by both patterns and is enumerated twice,
    and the ranked sequence handed on still holds it twice. *)
Theorem numbered_profile_enumerated_twice :
  exists w : world,
    fnmatch (py "Profile 1") (py "Profile *") = true
    /\ fnmatch (py "Profile 1") (py "Profile [0-9]*") = true
    /\ chrome_candidates w
       = [ chrome_path "Default"; chrome_path "Profile 1";
           chrome_path "Profile 2"; chrome_path "Profile 1";
           chrome_path "Profile 2" ]
    /\ result (get_chrome_cookie_files w)
       = Ok [ chrome_path "Profile 1"; chrome_path "Profile 1";
              chrome_path "Default"; chrome_path "Profile 2";
              chrome_path "Profile 2" ]
    /\ edge_candidates w = [ edge_path "Profile 1"; edge_path "Profile 1" ]
    /\ result (get_edge_cookie_files w)
       = Ok [ edge_path "Profile 1"; edge_path "Profile 1" ]
    /\ ~ NoDup (chrome_candidates w)
    /\ ~ NoDup (edge_candidates w).
Proof.
  exists w_profiles.
  assert (Hc : chrome_candidates w_profiles
               = [ chrome_path "Default"; chrome_path "Profile 1";
                   chrome_path "Profile 2"; chrome_path "Profile 1";
                   chrome_path "Profile 2" ]) by (vm_compute; reflexivity).
  assert (He : edge_candidates w_profiles
               = [ edge_path "Profile 1"; edge_path "Profile 1" ])
    by (vm_compute; reflexivity).
  repeat split; try (vm_compute; reflexivity); try assumption.
  - rewrite Hc. intros Hnd.
    inversion Hnd as [|? ? _ Hnd1]. inversion Hnd1 as [|? ? Hin _].
    apply Hin. right. left. reflexivity.
  - rewrite He. intros Hnd. inversion Hnd as [|? ? Hin _].
    apply Hin. left. reflexivity.
Qed.

(** ** How computations compose *)

Lemma bind_Ok_inv {A B} (m : M A) (f : A -> M B) (b : B) :
  result (bind m f) = Ok b ->
  exists a, result m = Ok a /\ result (f a) = Ok b.
Proof.
  destruct m as [t [a|e|c]]; simpl; try discriminate.
  destruct (f a) as [t' o] eqn:Hf; simpl. intros ->.
  exists a. rewrite Hf. split; reflexivity.
Qed.

Lemma no_exit_ret {A} (a : A) : no_exit (ret a).
Proof. intros c; discriminate. Qed.

Lemma no_exit_raise {A} (e : exn) : no_exit (@raise A e).
Proof. intros c; discriminate. Qed.

Lemma no_exit_emit (ev : event) : no_exit (emit ev).
Proof. intros c; discriminate. Qed.

Lemma no_exit_bind {A B} (m : M A) (f : A -> M B) :
  no_exit m -> (forall a, no_exit (f a)) -> no_exit (bind m f).
Proof.
  intros Hm Hf c. destruct m as [t [a|e|c']]; simpl.
  - specialize (Hf a c). destruct (f a); exact Hf.
  - discriminate.
  - exfalso. apply (Hm c'). reflexivity.
Qed.

Lemma no_exit_try {A} (m : M A) (class : exn -> bool) (h : exn -> M A) :
  no_exit m -> (forall e, no_exit (h e)) -> no_exit (try_except m class h).
Proof.
  intros Hm Hh c. destruct m as [t [a|e|c']]; simpl.
  - discriminate.
  - destruct (class e); [|discriminate].
    specialize (Hh e c). destruct (h e); exact Hh.
  - exfalso. apply (Hm c'). reflexivity.
Qed.

Lemma no_exit_for_return {X R} (l : list X) (body : X -> M (option R)) :
  (forall x, no_exit (body x)) -> no_exit (for_return l body).
Proof.
  intros Hb. induction l as [|x l IH]; simpl.
  - apply no_exit_ret.
  - apply no_exit_bind; [apply Hb|].
    intros [v|]; [apply no_exit_ret | exact IH].
Qed.

(** Taking a computation built from the combinators apart. *)
Ltac no_exit_step :=
  first
    [ apply no_exit_ret
    | apply no_exit_raise
    | apply no_exit_emit
    | apply no_exit_bind; [|intros ?]
    | apply no_exit_try; [|intros ?]
    | apply no_exit_for_return; intros ?
    | match goal with
      | |- no_exit (match ?x with _ => _ end) => destruct x
      | |- no_exit (if ?b then _ else _) => destruct b
      end ].

Ltac no_exit_tac := repeat no_exit_step.

Lemma no_exit_fetchone (db : database) (q : query) : no_exit (fetchone db q).
Proof. unfold fetchone. no_exit_tac. Qed.

Lemma no_exit_execute (c : connection) (q : query) :
  no_exit (execute_fetchone c q).
Proof. destruct c; simpl; [apply no_exit_raise | apply no_exit_fetchone]. Qed.

Lemma no_exit_connect_file (f : dbfile) : no_exit (connect_file f).
Proof. unfold connect_file. no_exit_tac. Qed.

Lemma no_exit_connect (w : world) (p : path) : no_exit (connect w p).
Proof. unfold connect, connect_file. no_exit_tac. Qed.

Lemma no_exit_has_tiktok_cookies (w : world) (p : path) (b : bool) :
  no_exit (has_tiktok_cookies w p b).
Proof.
  intros c. destruct (has_tiktok_cookies_cases w p b) as [[x H] | [_ H]];
    rewrite H; discriminate.
Qed.

Lemma no_exit_prioritize_firefox (w : world) (l : list path) :
  no_exit (prioritize_firefox w l).
Proof.
  unfold prioritize_firefox. apply no_exit_bind; [|intros; apply no_exit_ret].
  generalize (@nil path) at 1. generalize (@nil path).
  induction l as [|p l IH]; intros o pr; simpl.
  - apply no_exit_ret.
  - apply no_exit_bind; [apply no_exit_has_tiktok_cookies|].
    intros [|]; apply IH.
Qed.

Lemma no_exit_prioritize_chrome_edge (w : world) (l : list path) :
  no_exit (prioritize_chrome_edge w l).
Proof.
  unfold prioritize_chrome_edge.
  apply no_exit_bind; [|intros; apply no_exit_ret].
  generalize (@nil path) at 1. generalize (@nil path).
  induction l as [|p l IH]; intros o pr; simpl.
  - apply no_exit_ret.
  - apply no_exit_bind.
    + destruct (path_exists (home w) p);
        [apply no_exit_has_tiktok_cookies | apply no_exit_ret].
    + intros [|]; [apply IH|]. destruct (path_exists (home w) p); apply IH.
Qed.

Lemma no_exit_extract_firefox (w : world) (p : path) :
  no_exit (extract_ms_token_from_firefox w p).
Proof.
  unfold extract_ms_token_from_firefox, firefox_report_other_cookies,
    firefox_try_query, close, print_on, print.
  no_exit_tac;
    first [ apply no_exit_connect_file | apply no_exit_connect
          | apply no_exit_execute ].
Qed.

Lemma no_exit_extract_chrome_edge (w : world) (p : path) :
  no_exit (extract_ms_token_from_chrome_edge w p).
Proof.
  unfold extract_ms_token_from_chrome_edge, chrome_edge_try_query,
    chrome_edge_handle_value, encrypted_warning, close, print_on, print.
  no_exit_tac;
    first [ apply no_exit_connect_file | apply no_exit_connect
          | apply no_exit_execute ].
Qed.

Lemma no_exit_search_files (w : world) (label : string)
  (files : list path) (extract_one : path -> M (option token)) :
  (forall p, no_exit (extract_one p)) ->
  no_exit (search_files w label files extract_one).
Proof.
  intros He. unfold search_files, print_on, print.
  destruct files; no_exit_tac; apply He.
Qed.

Lemma no_exit_try_browser (w : world) (b : pystr) :
  no_exit (try_browser w b).
Proof.
  unfold try_browser, print_on, print, get_firefox_cookie_files,
    get_chrome_cookie_files, get_edge_cookie_files.
  apply no_exit_bind;
    [destruct (printable w _); [apply no_exit_emit | apply no_exit_raise]|].
  intros _.
  repeat match goal with
         | |- no_exit (if ?c then _ else _) => destruct c
         end;
    try apply no_exit_ret;
    (apply no_exit_bind;
     [ first [ apply no_exit_prioritize_chrome_edge
             | destruct (firefox_candidates w);
               [apply no_exit_ret | apply no_exit_prioritize_firefox] ]
     | intros files; apply no_exit_search_files; intros p;
       first [ apply no_exit_extract_firefox
             | apply no_exit_extract_chrome_edge ] ]).
Qed.

Lemma no_exit_extract_ms_token (w : world) (preferred : option pystr) :
  no_exit (extract_ms_token w preferred).
Proof.
  unfold extract_ms_token. apply no_exit_for_return.
  intros b. apply no_exit_try_browser.
Qed.

(** ** Only a non-empty token is ever returned *)

Lemma returns_truthy_for_return {X} (l : list X)
  (body : X -> M (option token)) :
  (forall x, returns_truthy (body x)) -> returns_truthy (for_return l body).
Proof.
  intros Hb. induction l as [|x l IH]; intros t; simpl.
  - discriminate.
  - intros H. apply bind_Ok_inv in H. destruct H as [[v|] [Hx H]].
    + injection H as ->. exact (Hb x t Hx).
    + exact (IH t H).
Qed.

Lemma returns_truthy_search_files (w : world) (label : string)
  (files : list path) (extract_one : path -> M (option token)) :
  returns_truthy (search_files w label files extract_one).
Proof.
  unfold search_files. destruct files as [|p files].
  - intros t H. apply bind_Ok_inv in H. destruct H as [_ [_ H]]. discriminate.
  - intros t H. apply bind_Ok_inv in H. destruct H as [_ [_ H]].
    revert t H. apply returns_truthy_for_return. intros x t H.
    apply bind_Ok_inv in H. destruct H as [_ [_ H]].
    apply bind_Ok_inv in H. destruct H as [[tk|] [_ H]]; [|discriminate].
    destruct (token_truthy tk) eqn:Htk; [|discriminate].
    apply bind_Ok_inv in H. destruct H as [_ [_ H]].
    injection H as <-. exact Htk.
Qed.

Lemma returns_truthy_try_browser (w : world) (b : pystr) :
  returns_truthy (try_browser w b).
Proof.
  unfold try_browser. intros t H.
  apply bind_Ok_inv in H. destruct H as [_ [_ H]].
  repeat match type of H with
         | context [if ?c then _ else _] => destruct c
         end;
    try discriminate;
    apply bind_Ok_inv in H; destruct H as [files [_ H]];
    exact (@returns_truthy_search_files _ _ _ _ t H).
Qed.

Lemma extract_ms_token_truthy (w : world) (preferred : option pystr) :
  returns_truthy (extract_ms_token w preferred).
Proof.
  unfold extract_ms_token. apply returns_truthy_for_return.
  intros b. apply returns_truthy_try_browser.
Qed.

(** ** The exit status of the locator *)

Lemma printable_txt (w : world) (pre : list piece) (s : pystr)
  (post : list piece) :
  printable w pre = true -> printable w post = true ->
  printable w (pre ++ Txt s :: post) = encodable w s.
Proof.
  intros Hpre Hpost. unfold printable in *.
  rewrite forallb_app, Hpre. simpl. rewrite Hpost. now rewrite andb_true_r.
Qed.

(** [save_ms_token] returns when the console takes the file's name, and
    raises [UnicodeEncodeError] from its handler when it does not. *)
Lemma save_ms_token_result (w : world) (t : token) (file : pystr) :
  exists tr,
    save_ms_token w t file
    = (tr, if encodable w file
           then Ok (writable w file
                    && match t with TokStr _ => true | TokBytes _ => false end)
           else Raise UnicodeEncodeError).
Proof.
  unfold save_ms_token, print_on.
  change (printable w [Lit GREEN; Lit " ms_token saved to: "; Txt file])
    with (encodable w file && true).
  assert (Hh : forall e,
            printable w [Lit RED; Lit " Error saving ms_token to "; Txt file;
                         Lit ": "; Exc e] = encodable w file).
  { intros e. unfold printable. simpl. now rewrite andb_true_r. }
  rewrite andb_true_r.
  destruct (writable w file); destruct t as [s|b]; simpl;
    rewrite ?Hh; destruct (encodable w file); simpl; rewrite ?Hh;
    simpl; eexists; reflexivity.
Qed.

Lemma search_and_deliver_after_extract (w : world) (a : args) :
  match result (extract_ms_token w (browser a)) with
  | Ok (Some t) =>
      result (search_and_deliver w a)
      = if deliverable w a t then Exit 0 else Exit 1
  | Ok None | Raise _ => result (search_and_deliver w a) = Exit 1
  | Exit _ => False
  end.
Proof.
  pose proof (@extract_ms_token_truthy w (browser a)) as Htruthy.
  pose proof (@no_exit_extract_ms_token w (browser a)) as Hne.
  unfold search_and_deliver, returns_truthy, no_exit, deliverable in *.
  destruct (extract_ms_token w (browser a)) as [tr [[t|]|e|c]]; simpl in *.
  - rewrite (Htruthy t eq_refl). destruct (stdout a).
    + destruct t as [s|b]; unfold print_token, print_on, printable; simpl;
        [rewrite andb_true_r; destruct (encodable w s)|]; reflexivity.
    + destruct (save_ms_token_result w t (output a)) as [tr' ->].
      destruct (encodable w (output a)); reflexivity.
  - reflexivity.
  - destruct e; reflexivity.
  - exact (Hne c eq_refl).
Qed.

Lemma parse_args_cases (a : Locator.argv) :
  if rejected a
  then exists b,
      opt_browser a = Some b
      /\ Locator.parse_args a
         = ([Stderr [Lit "usage: "; Lit "error: "; Lit "argument ";
                     Lit "-b/--browser"; Lit ": invalid choice: "; Txt b]],
            Exit 2)
  else exists args,
      Locator.parse_args a = ([], Ok args)
      /\ browser args = opt_browser a
      /\ stdout args = opt_stdout a
      /\ output args = match opt_output a with
                       | Some f => f
                       | None => py "ms_token.txt"
                       end.
Proof.
  unfold rejected, Locator.parse_args, check_choice, parser_error.
  destruct (opt_browser a) as [b|].
  - destruct (existsb (str_eqb b) browser_choices); simpl.
    + eexists. split; [reflexivity|]. repeat split.
    + exists b. split; reflexivity.
  - eexists. split; [reflexivity|]. repeat split.
Qed.

(** C9, as the code has it.  A command line whose [--browser] is none of
    [firefox], [chrome], [edge] is rejected by the parser: the run is one
    usage error on standard error and ends with status 2, without any
    search.  For an accepted command line the run ends with status 0
    exactly when [extract_ms_token] returned a token and the console takes
    what is then printed (the token with [--stdout], the name of the output
    file without); a failing save does not change the status 0.  The
    status is 1 when [extract_ms_token] returned [None], when an exception
    reached the top level (the user's interrupt included), and when the
    token was found and could not be handed over.  No accepted run ends
    with another status. *)
Theorem locator_exit_status (w : world) (a : Locator.argv) :
  (rejected a = true ->
   exit_status (Locator.main w a) = 2%Z
   /\ exists usage, trace (Locator.main w a) = [Stderr usage])
  /\ (rejected a = false ->
      exists args,
        Locator.parse_args a = ([], Ok args)
        /\ (exit_status (Locator.main w a) = 0%Z
            <-> exists t,
                 result (extract_ms_token w (browser args)) = Ok (Some t)
                 /\ deliverable w args t = true)
        /\ (result (extract_ms_token w (browser args)) = Ok None ->
            exit_status (Locator.main w a) = 1%Z)
        /\ (forall e,
               result (extract_ms_token w (browser args)) = Raise e ->
               exit_status (Locator.main w a) = 1%Z)
        /\ (forall t,
               result (extract_ms_token w (browser args)) = Ok (Some t) ->
               deliverable w args t = false ->
               exit_status (Locator.main w a) = 1%Z)
        /\ (exit_status (Locator.main w a) = 0%Z
            \/ exit_status (Locator.main w a) = 1%Z)).
Proof.
  pose proof (parse_args_cases a) as Hp. split; intros Hr; rewrite Hr in Hp.
  - destruct Hp as [b [_ Hp]]. unfold Locator.main. rewrite Hp.
    split; [reflexivity | eexists; reflexivity].
  - destruct Hp as [args [Hp _]]. exists args. split; [exact Hp|].
    assert (Hm : exit_status (Locator.main w a)
                 = exit_status (search_and_deliver w args)).
    { unfold Locator.main, exit_status. rewrite Hp. simpl.
      now destruct (search_and_deliver w args). }
    rewrite Hm. clear Hm Hp Hr.
    pose proof (search_and_deliver_after_extract w args) as H.
    unfold exit_status.
    destruct (result (extract_ms_token w (browser args))) as [[t|]|e|c];
      try contradiction; rewrite H.
    + destruct (deliverable w args t) eqn:Hd;
        (split; [split|split; [|split; [|split]]]);
        try discriminate; try (intros; reflexivity); try (now left);
        try (now right).
      * intros _. exists t. now split.
      * intros t' Ht'. injection Ht' as <-. congruence.
      * intros [t' [Ht' Hd']]. injection Ht' as <-. congruence.
    + (split; [split|split; [|split; [|split]]]);
        try discriminate; try (intros; reflexivity); try (now right).
      intros [t [Ht _]]. discriminate.
    + (split; [split|split; [|split; [|split]]]);
        try discriminate; try (intros; reflexivity); try (now right).
      intros [t [Ht _]]. discriminate.
Qed.

Lemma locator_exit_status_witness :
  exit_status (Locator.main w_firefox_token no_options) = 0%Z
  /\ exit_status (Locator.main w_malformed no_options) = 1%Z
  /\ exit_status (Locator.main w_interrupted no_options) = 1%Z
  /\ exit_status (Locator.main w_firefox_token (prefer "safari")) = 2%Z.
Proof.
  split; [|split; [|split]].
  - destruct (proj2 (locator_exit_status w_firefox_token no_options) eq_refl)
      as [args [Hp [H0 _]]].
    injection Hp as <-. apply (proj2 H0).
    eexists. split; vm_compute; reflexivity.
  - destruct (proj2 (locator_exit_status w_malformed no_options) eq_refl)
      as [args [Hp [_ [H1 _]]]].
    injection Hp as <-. apply H1. vm_compute. reflexivity.
  - destruct (proj2 (locator_exit_status w_interrupted no_options) eq_refl)
      as [args [Hp [_ [_ [H1 _]]]]].
    injection Hp as <-. apply (H1 KeyboardInterrupt). vm_compute. reflexivity.
  - apply (proj1 (locator_exit_status w_firefox_token (prefer "safari"))).
    reflexivity.
Defined.

(** C9, as stated, fails for a command line the parser rejects.  With
    [--browser safari] the run is one usage error: no search is made and no
    token is found, yet the process ends with status 2, neither 0 nor 1,
    here in a world in which the search finds a token. *)
Lemma rejected_browser_exits_2 :
  exit_status (Locator.main w_firefox_token no_options) = 0%Z
  /\ Locator.main w_firefox_token (prefer "safari")
     = ([Stderr [Lit "usage: "; Lit "error: "; Lit "argument ";
                 Lit "-b/--browser"; Lit ": invalid choice: ";
                 Txt (py "safari")]],
        Exit 2)
  /\ exit_status (Locator.main w_firefox_token (prefer "safari")) = 2%Z
  /\ ~ (exit_status (Locator.main w_firefox_token (prefer "safari")) = 0%Z
        \/ exit_status (Locator.main w_firefox_token (prefer "safari"))
           = 1%Z).
Proof.
  split; [vm_compute; reflexivity|].
  split; [vm_compute; reflexivity|].
  split; [vm_compute; reflexivity|].
  intros [H | H]; vm_compute in H; discriminate.
Qed.

(** ** Profiles no token can come from *)

(** Whether a query compiles depends on the table only through the columns
    it has. *)
Ltac by_columns tb :=
  unfold compiles, has_column in *; simpl in *;
  destruct (existsb (column_eqb Value) (t_columns tb));
  destruct (existsb (column_eqb Name) (t_columns tb));
  destruct (existsb (column_eqb Host) (t_columns tb));
  destruct (existsb (column_eqb HostKey) (t_columns tb));
  destruct (existsb (column_eqb BaseDomain) (t_columns tb));
  simpl in *; try discriminate.

Lemma malformed_calm (w : world) (t : table_name) (l : list path) :
  Forall (fun p => malformed t (opened w p) = true) l -> calm w l.
Proof.
  unfold calm. apply Forall_impl. intros p. unfold malformed, interrupted_at.
  destruct (opened w p) as [e|e|db]; try reflexivity;
    destruct e; simpl; congruence.
Qed.

(** A message whose only [str] piece the console takes is printed. *)
Lemma print_on_path (w : world) (pre post : list piece) (s : pystr) :
  printable w pre = true -> printable w post = true ->
  encodable w s = true ->
  print_on w (pre ++ Txt s :: post) = print (pre ++ Txt s :: post).
Proof.
  intros Hpre Hpost Hs. unfold print_on.
  now rewrite (printable_txt w pre s post Hpre Hpost), Hs.
Qed.

Lemma extract_firefox_malformed (w : world) (p : path) :
  malformed moz_cookies (opened w p) = true ->
  encodable w (path_str p) = true ->
  exists tr, extract_ms_token_from_firefox w p = (tr, Ok None).
Proof.
  unfold malformed, opened, extract_ms_token_from_firefox,
    firefox_report_other_cookies, connect, print_on, printable.
  intros Hm Henc.
  destruct (sqlite w (cookie_uri p)) as [e|e|db]; simpl.
  - destruct e; simpl in *; try discriminate; rewrite ?Henc; simpl;
      eexists; reflexivity.
  - destruct e; simpl in *; try discriminate; rewrite ?Henc; simpl;
      eexists; reflexivity.
  - revert Hm. unfold wrong_schema, firefox_try_query; simpl;
      unfold fetchone; simpl.
    destruct (db_moz_cookies db) as [tb|]; [|intros _; eexists; reflexivity].
    intros Hws. by_columns tb;
      repeat match goal with
             | |- context [(0 <? ?n)%Z] => destruct (0 <? n)%Z; simpl
             end;
      eexists; reflexivity.
Qed.

Lemma extract_chrome_edge_malformed (w : world) (p : path) :
  malformed cookies (opened w p) = true ->
  encodable w (path_str p) = true ->
  exists tr, extract_ms_token_from_chrome_edge w p = (tr, Ok None).
Proof.
  unfold malformed, opened, extract_ms_token_from_chrome_edge, connect,
    print_on, printable.
  intros Hm Henc.
  destruct (sqlite w (cookie_uri p)) as [e|e|db]; simpl.
  - destruct e as [|msg| | | | | | |]; simpl in *; try discriminate;
      rewrite ?Henc; simpl; try (eexists; reflexivity).
    destruct (contains _ _); simpl; rewrite ?Henc; simpl; eexists; reflexivity.
  - destruct e; simpl in *; try discriminate; eexists; reflexivity.
  - revert Hm. unfold wrong_schema, chrome_edge_try_query; simpl;
      unfold fetchone; simpl.
    destruct (db_cookies db) as [tb|]; [|intros _; eexists; reflexivity].
    intros Hws. by_columns tb; eexists; reflexivity.
Qed.

Lemma for_return_all_none {X R} (l : list X) (body : X -> M (option R)) :
  Forall (fun x => exists tr, body x = (tr, Ok None)) l ->
  exists tr, for_return l body = (tr, Ok None).
Proof.
  induction 1 as [|x l [tr Hx] _ [tr' IH]]; simpl.
  - eexists; reflexivity.
  - rewrite Hx; simpl. rewrite IH. eexists; reflexivity.
Qed.

Lemma search_files_all_none (w : world) (label : string)
  (files : list path) (extract_one : path -> M (option token)) :
  Forall (fun p => encodable w (path_str p) = true
                   /\ exists tr, extract_one p = (tr, Ok None)) files ->
  exists tr, search_files w label files extract_one = (tr, Ok None).
Proof.
  intros H. unfold search_files. destruct files as [|p files].
  - eexists; reflexivity.
  - match goal with
    | |- context [for_return ?l ?b] =>
        destruct (@for_return_all_none _ _ l b) as [tr Hfr]
    end.
    + eapply Forall_impl; [|exact H]. intros x [Henc [tr Hx]].
      unfold print_on, printable. simpl. rewrite Henc. simpl.
      rewrite Hx. simpl. eexists; reflexivity.
    + rewrite Hfr. eexists; reflexivity.
Qed.

Lemma Forall_split_filter {A} (P : A -> Prop) (f g : A -> bool)
  (l : list A) :
  Forall P l -> Forall P (filter f l ++ filter g l).
Proof.
  intros H. apply Forall_app. split; apply Forall_forall; intros x Hx;
    apply filter_In in Hx; destruct Hx as [Hx _];
    exact (proj1 (Forall_forall P l) H x Hx).
Qed.

Lemma Forall_filter {A} (P : A -> Prop) (f : A -> bool) (l : list A) :
  Forall P l -> Forall P (filter f l).
Proof.
  intros H. apply Forall_forall. intros x Hx. apply filter_In in Hx.
  exact (proj1 (Forall_forall P l) H x (proj1 Hx)).
Qed.

Lemma Forall_and {A} (P Q : A -> Prop) (l : list A) :
  Forall P l -> Forall Q l -> Forall (fun x => P x /\ Q x) l.
Proof.
  intros HP HQ. apply Forall_forall. intros x Hx. split.
  - exact (proj1 (Forall_forall P l) HP x Hx).
  - exact (proj1 (Forall_forall Q l) HQ x Hx).
Qed.

(** The browsers [extract_ms_token] tries are among the three it knows. *)
Lemma browsers_to_try_known (preferred : option pystr) :
  Forall (fun b => In b browser_choices) (browsers_to_try preferred).
Proof.
  unfold browsers_to_try, browser_choices.
  destruct preferred as [b|];
    repeat match goal with
           | |- context [if ?c then _ else _] => destruct c
           end;
    repeat (apply Forall_cons; [simpl; tauto|]); apply Forall_nil.
Qed.

Lemma try_browser_no_usable_profile (w : world) (b : pystr) :
  In b browser_choices ->
  no_usable_profile w -> candidates_printable w ->
  exists tr, try_browser w b = (tr, Ok None).
Proof.
  intros Hb [Hf [Hc He]] Hp. unfold candidates_printable in Hp.
  apply Forall_app in Hp. destruct Hp as [Hpf Hp].
  apply Forall_app in Hp. destruct Hp as [Hpc Hpe].
  destruct Hb as [<- | [<- | [<- | []]]]; unfold try_browser;
    cbn [str_eqb py]; simpl.
  - unfold get_firefox_cookie_files.
    assert (Hs : exists tr,
               search_files w "Firefox"
                 (filter (probe w true) (firefox_candidates w)
                  ++ filter (fun p => negb (probe w true p))
                       (firefox_candidates w))
                 (extract_ms_token_from_firefox w) = (tr, Ok None)).
    { apply search_files_all_none. apply Forall_split_filter.
      eapply Forall_impl; [|exact (Forall_and Hpf Hf)]. intros p [H1 H2].
      split; [exact H1|]. now apply extract_firefox_malformed. }
    destruct (firefox_candidates w) as [|p0 l0] eqn:Hcand.
    + eexists; reflexivity.
    + rewrite (prioritize_firefox_spec (malformed_calm _ _ Hf)).
      destruct Hs as [tr Hs]. cbn [bind]. rewrite Hs.
      eexists; reflexivity.
  - unfold get_chrome_cookie_files.
    rewrite (prioritize_chrome_edge_spec (malformed_calm _ _ Hc)).
    destruct (@search_files_all_none w "Chrome"
                (filter (probe w false)
                   (filter (path_exists (home w)) (chrome_candidates w))
                 ++ filter (fun p => negb (probe w false p))
                      (filter (path_exists (home w)) (chrome_candidates w)))
                (extract_ms_token_from_chrome_edge w)) as [tr Hs].
    { apply Forall_split_filter, Forall_filter.
      eapply Forall_impl; [|exact (Forall_and Hpc Hc)]. intros p [H1 H2].
      split; [exact H1|]. now apply extract_chrome_edge_malformed. }
    cbn [bind]. rewrite Hs. eexists; reflexivity.
  - unfold get_edge_cookie_files.
    rewrite (prioritize_chrome_edge_spec (malformed_calm _ _ He)).
    destruct (@search_files_all_none w "Edge"
                (filter (probe w false)
                   (filter (path_exists (home w)) (edge_candidates w))
                 ++ filter (fun p => negb (probe w false p))
                      (filter (path_exists (home w)) (edge_candidates w)))
                (extract_ms_token_from_chrome_edge w)) as [tr Hs].
    { apply Forall_split_filter, Forall_filter.
      eapply Forall_impl; [|exact (Forall_and Hpe He)]. intros p [H1 H2].
      split; [exact H1|]. now apply extract_chrome_edge_malformed. }
    cbn [bind]. rewrite Hs. eexists; reflexivity.
Qed.

(** C6, as the code has it.  In every world the probe swallows whatever
    [Exception] a file raises: short of the user's interrupt it returns a
    truth value after its one call to SQLite, and prints nothing.  And when
    no browser family has a usable profile (directories missing or empty;
    what SQLite opens for a candidate cannot be opened, is not a database,
    or lacks the cookie table or its columns) and the console can print the
    path of every candidate, [extract_ms_token] raises nothing and returns
    [None], whatever browser is preferred. *)
Theorem extract_ms_token_never_raises_on_bad_profiles (w : world) :
  (forall p is_firefox,
      interrupted_at w p = false ->
      exists b,
        has_tiktok_cookies w p is_firefox = ([Connect (cookie_uri p)], Ok b))
  /\ (no_usable_profile w -> candidates_printable w ->
      forall preferred, result (extract_ms_token w preferred) = Ok None).
Proof.
  split.
  - intros p f Hp. rewrite (has_tiktok_cookies_calm w p f Hp).
    eexists; reflexivity.
  - intros Hbad Hprint preferred. unfold extract_ms_token.
    destruct (@for_return_all_none _ token (browsers_to_try preferred)
                (try_browser w)) as [tr H].
    + eapply Forall_impl; [|apply browsers_to_try_known].
      intros b Hb. now apply try_browser_no_usable_profile.
    + rewrite H. reflexivity.
Qed.

Lemma extract_ms_token_never_raises_on_bad_profiles_witness :
  no_usable_profile w_malformed
  /\ candidates_printable w_malformed
  /\ result (extract_ms_token w_malformed None) = Ok None
  /\ result (extract_ms_token w_malformed (Some (py "Chrome"))) = Ok None.
Proof.
  assert (H : no_usable_profile w_malformed).
  { unfold no_usable_profile.
    vm_compute firefox_candidates. vm_compute chrome_candidates.
    vm_compute edge_candidates.
    repeat split; repeat (constructor; [vm_compute; reflexivity|]);
      constructor. }
  assert (Hp : candidates_printable w_malformed).
  { unfold candidates_printable.
    vm_compute firefox_candidates. vm_compute chrome_candidates.
    vm_compute edge_candidates.
    repeat (constructor; [vm_compute; reflexivity|]); constructor. }
  split; [exact H|]. split; [exact Hp|].
  split;
    apply (proj2 (extract_ms_token_never_raises_on_bad_profiles w_malformed)
             H Hp).
Defined.

(** C6, as stated, fails where the console cannot print a candidate's path.
    The Firefox profile [café.default] holds a [cookies.sqlite] that is
    not a database; on a console that takes ASCII only, the line
    [Checking ...], printed outside any [try], raises, and
    [extract_ms_token] passes the exception on. *)
Lemma extract_ms_token_raises_on_unprintable_path :
  no_usable_profile w_unprintable
  /\ firefox_candidates w_unprintable
     = [[py ".mozilla"; py "firefox"; py "caf" ++ [233%N] ++ py ".default";
         py "cookies.sqlite"]]
  /\ result (extract_ms_token w_unprintable None) = Raise UnicodeEncodeError
  /\ ~ (forall preferred,
           result (extract_ms_token w_unprintable preferred) = Ok None).
Proof.
  assert (Hr : result (extract_ms_token w_unprintable None)
               = Raise UnicodeEncodeError) by (vm_compute; reflexivity).
  split; [|split; [vm_compute; reflexivity | split; [exact Hr|]]].
  - unfold no_usable_profile.
    vm_compute firefox_candidates. vm_compute chrome_candidates.
    vm_compute edge_candidates.
    repeat split; repeat (constructor; [vm_compute; reflexivity|]);
      constructor.
  - intros H. rewrite (H None) in Hr. discriminate.
Qed.

(** ** Extraction returns the stored value, trimmed *)

Lemma str_eqb_eq (a b : pystr) : str_eqb a b = true <-> a = b.
Proof.
  revert b. induction a as [|x a IH]; intros [|y b]; simpl;
    try (split; [discriminate | congruence]); [tauto|].
  rewrite andb_true_iff, N.eqb_eq, IH. split.
  - intros [-> ->]. reflexivity.
  - intros H. injection H as -> ->. split; reflexivity.
Qed.

Lemma str_eqb_nil_false (v : pystr) : v <> [] -> str_eqb v [] = false.
Proof. destruct v; [congruence | reflexivity]. Qed.

Lemma nonempty_length (v : list N) :
  v <> [] -> (0 <? List.length v)%nat = true.
Proof. destruct v; [congruence | reflexivity]. Qed.

Lemma strip_nonempty (v : pystr) : strip v <> [] -> v <> [].
Proof. intros H ->. apply H. reflexivity. Qed.

Lemma holds_name (n : pystr) (c : cond) (r : row) :
  holds (And (Eq Name n) c) r = true -> r_name r = n.
Proof.
  simpl. rewrite andb_true_iff. intros [H _]. now apply str_eqb_eq.
Qed.

Lemma queries_shape (fam : family) (n : pystr) (q : query) :
  In q (queries fam n) ->
  exists c, q = Select (Col Value) (cookie_table fam) (And (Eq Name n) c).
Proof.
  destruct fam; simpl; intros H;
    repeat (destruct H as [<- | H]; [eexists; reflexivity|]);
    contradiction.
Qed.

Lemma for_return_silent_none {X R} (l : list X) (body : X -> M (option R)) :
  Forall (fun x => body x = ([], Ok None)) l ->
  for_return l body = ([], Ok None).
Proof.
  induction 1 as [|x l Hx _ IH]; simpl; [reflexivity|].
  rewrite Hx. simpl. rewrite IH. reflexivity.
Qed.

(** The loop returns at the first element that gives a value, when the
    elements before it give none and nothing is printed. *)
Lemma for_return_first_hit {X R} (before after : list X) (x : X)
  (body : X -> M (option R)) (v : R) :
  Forall (fun y => body y = ([], Ok None)) before ->
  body x = ([], Ok (Some v)) ->
  for_return (before ++ x :: after) body = ([], Ok (Some v)).
Proof.
  induction 1 as [|y l Hy _ IH]; intros Hx; simpl.
  - rewrite Hx. reflexivity.
  - rewrite Hy. simpl. rewrite (IH Hx). reflexivity.
Qed.

(** [fetchone] on one of the extraction queries. *)
Lemma fetchone_first_value (db : database) (t : table_name) (tb : table)
  (c : cond) :
  table_of db t = Some tb ->
  fetchone db (Select (Col Value) t c)
  = if compiles tb (Select (Col Value) t c)
    then ([], Ok (first_value tb (Select (Col Value) t c)))
    else ([], Raise (OperationalError "no such column")).
Proof.
  intros Ht. unfold fetchone, first_value. simpl q_from. rewrite Ht.
  destruct (compiles tb _); [|reflexivity]. simpl q_select.
  destruct (matching tb _); reflexivity.
Qed.

Lemma first_value_compiles (tb : table) (q : query) (x : sqlval) :
  first_value tb q = Some x -> compiles tb q = true.
Proof. unfold first_value. destruct (compiles tb q); [reflexivity|discriminate]. Qed.

Lemma first_value_fails (tb : table) (q : query) :
  compiles tb q = false -> first_value tb q = None.
Proof. unfold first_value. now intros ->. Qed.

Section OneQuery.

(** One turn of the query loop on a database that has the cookie table. *)
Variables (w : world) (f : path) (db : database) (tb : table).

Lemma firefox_try_query_passed_over (c : cond) :
  db_moz_cookies db = Some tb ->
  passed_over Firefox (first_value tb (Select (Col Value) moz_cookies c))
  = true ->
  firefox_try_query (ConnDb db) (Select (Col Value) moz_cookies c)
  = ([], Ok None).
Proof.
  intros Ht Hp. unfold firefox_try_query, execute_fetchone.
  rewrite (@fetchone_first_value db moz_cookies tb c Ht).
  destruct (compiles tb _) eqn:Hc; [|reflexivity].
  destruct (first_value tb _) as [[|z|s|b]|]; simpl in *;
    try reflexivity.
  - destruct (z =? 0)%Z; [reflexivity | discriminate].
  - destruct (negb (str_eqb s [])); [|reflexivity]. simpl in Hp.
    apply str_eqb_eq in Hp. rewrite Hp. reflexivity.
  - destruct (negb (str_eqb b [])); [|reflexivity]. simpl in Hp.
    apply str_eqb_eq in Hp. rewrite Hp. reflexivity.
Qed.

Lemma firefox_try_query_hit (c : cond) (v : pystr) :
  db_moz_cookies db = Some tb ->
  first_value tb (Select (Col Value) moz_cookies c) = Some (VText v) ->
  strip v <> [] ->
  firefox_try_query (ConnDb db) (Select (Col Value) moz_cookies c)
  = ([], Ok (Some (TokStr (strip v)))).
Proof.
  intros Ht Hv Hne. unfold firefox_try_query, execute_fetchone.
  rewrite (@fetchone_first_value db moz_cookies tb c Ht).
  rewrite (first_value_compiles _ _ Hv), Hv. simpl.
  rewrite (str_eqb_nil_false (strip_nonempty Hne)). simpl.
  rewrite (nonempty_length Hne). reflexivity.
Qed.

Lemma chrome_edge_try_query_passed_over (c : cond) :
  db_cookies db = Some tb ->
  passed_over ChromeEdge (first_value tb (Select (Col Value) cookies c))
  = true ->
  chrome_edge_try_query w f (ConnDb db) (Select (Col Value) cookies c)
  = ([], Ok None).
Proof.
  intros Ht Hp. unfold chrome_edge_try_query, execute_fetchone.
  rewrite (@fetchone_first_value db cookies tb c Ht).
  destruct (compiles tb _) eqn:Hc; [|reflexivity].
  destruct (first_value tb _) as [[|z|s|b]|]; simpl in *;
    try reflexivity.
  - destruct (negb (z =? 0)%Z); reflexivity.
  - destruct (negb (str_eqb s [])); [|reflexivity]. simpl in Hp.
    apply negb_true_iff in Hp. rewrite Hp. reflexivity.
  - destruct (str_eqb b []); [reflexivity | discriminate].
Qed.

Lemma chrome_edge_try_query_hit (c : cond) (v : pystr) :
  db_cookies db = Some tb ->
  first_value tb (Select (Col Value) cookies c) = Some (VText v) ->
  strip v <> [] ->
  startswith v (py "v1") = false ->
  chrome_edge_try_query w f (ConnDb db) (Select (Col Value) cookies c)
  = ([], Ok (Some (TokStr (strip v)))).
Proof.
  intros Ht Hv Hne Hplain. unfold chrome_edge_try_query, execute_fetchone.
  rewrite (@fetchone_first_value db cookies tb c Ht).
  rewrite (first_value_compiles _ _ Hv), Hv. simpl.
  rewrite (str_eqb_nil_false (strip_nonempty Hne)). simpl.
  unfold looks_plain.
  rewrite (str_eqb_nil_false (strip_nonempty Hne)),
    (str_eqb_nil_false Hne), Hplain. reflexivity.
Qed.

End OneQuery.

Lemma try_query_passed_over (fam : family) (w : world) (f : path)
  (db : database) (tb : table) (n : pystr) (l : list query) :
  table_of db (cookie_table fam) = Some tb ->
  (forall q, In q l -> In q (queries fam n)) ->
  Forall (fun q => passed_over fam (first_value tb q) = true) l ->
  Forall (fun q => try_query fam w f (ConnDb db) q = ([], Ok None)) l.
Proof.
  intros Ht Hin Hp. apply Forall_forall. intros q Hq.
  pose proof (proj1 (Forall_forall _ l) Hp q Hq) as Hpq. simpl in Hpq.
  destruct (queries_shape fam n q (Hin q Hq)) as [c ->].
  destruct fam; simpl in *.
  - now apply (@firefox_try_query_passed_over db tb).
  - now apply (@chrome_edge_try_query_passed_over w f db tb).
Qed.

Lemma try_query_hit (fam : family) (w : world) (f : path)
  (db : database) (tb : table) (n v : pystr) (q : query) :
  table_of db (cookie_table fam) = Some tb ->
  In q (queries fam n) ->
  first_value tb q = Some (VText v) ->
  strip v <> [] ->
  (fam = ChromeEdge -> startswith v (py "v1") = false) ->
  try_query fam w f (ConnDb db) q = ([], Ok (Some (TokStr (strip v)))).
Proof.
  intros Ht Hq Hv Hne Hplain.
  destruct (queries_shape fam n q Hq) as [c ->].
  destruct fam; simpl in *.
  - now apply (@firefox_try_query_hit db tb).
  - apply (@chrome_edge_try_query_hit w f db tb); auto.
Qed.

(** The query loop of either function, for one cookie name. *)
Lemma query_loop_first_hit (fam : family) (w : world) (f : path)
  (db : database) (tb : table) (n v : pystr)
  (before after : list query) (q : query) :
  table_of db (cookie_table fam) = Some tb ->
  queries fam n = before ++ q :: after ->
  Forall (fun q' => passed_over fam (first_value tb q') = true) before ->
  first_value tb q = Some (VText v) ->
  strip v <> [] ->
  (fam = ChromeEdge -> startswith v (py "v1") = false) ->
  for_return (queries fam n) (try_query fam w f (ConnDb db))
  = ([], Ok (Some (TokStr (strip v)))).
Proof.
  intros Ht Hl Hb Hv Hne Hplain.
  assert (Hin : forall x, In x (before ++ q :: after) -> In x (queries fam n))
    by (intros x Hx; now rewrite Hl).
  rewrite Hl. apply for_return_first_hit.
  - apply (@try_query_passed_over fam w f db tb n); auto.
    intros x Hx. apply Hin, in_or_app. now left.
  - apply (@try_query_hit fam w f db tb n); auto.
    apply Hin, in_or_app. right. now left.
Qed.

(** C7, as the code has it.  Let SQLite open, for the URI the function
    forms from the cookie file, a database with the cookie table.  Let [q]
    be a query of the fixed list for [msToken] such that every query before
    it is passed over (it does not compile against the table, selects no
    row, or its first row holds a value that is false, blank or, for Chrome
    and Edge, marked [v1]), and let the first row [q] selects hold text [v]
    that is not blank and, for Chrome and Edge, does not begin with [v1].
    Then the per-file extraction returns [v] trimmed and prints nothing,
    whichever query of the list [q] is. *)
Theorem extraction_returns_trimmed_value (fam : family) (w : world)
  (f : path) (db : database) (tb : table) (v : pystr)
  (before after : list query) (q : query) :
  opened w f = Database db ->
  table_of db (cookie_table fam) = Some tb ->
  queries fam (py "msToken") = before ++ q :: after ->
  Forall (fun q' => passed_over fam (first_value tb q') = true) before ->
  first_value tb q = Some (VText v) ->
  strip v <> [] ->
  (fam = ChromeEdge -> startswith v (py "v1") = false) ->
  extract fam w f
  = ([Connect (cookie_uri f)], Ok (Some (TokStr (strip v)))).
Proof.
  intros Hfile Htable Hl Hb Hv Hne Hplain.
  pose proof (@query_loop_first_hit fam w f db tb (py "msToken") v before
                after q Htable Hl Hb Hv Hne Hplain) as Hloop.
  unfold opened in Hfile.
  destruct fam; cbn [queries try_query extract] in Hloop |- *.
  - unfold extract_ms_token_from_firefox, connect. rewrite Hfile.
    unfold connect_file, cookie_names. cbn [for_return bind ret emit app].
    rewrite Hloop. reflexivity.
  - unfold extract_ms_token_from_chrome_edge, connect. rewrite Hfile.
    unfold connect_file, cookie_names. cbn [for_return bind ret emit app].
    rewrite Hloop. reflexivity.
Qed.

Lemma extraction_returns_trimmed_value_witness :
  opened w_firefox_token (firefox_path "abc.default")
  = Database (Db (Some (Table [Name; Host; Value]
                          [tiktok_row (VText (py "  tok123  "))])) None)
  /\ strip (py "  tok123  ") = py "tok123"
  /\ extract Firefox w_firefox_token (firefox_path "abc.default")
     = ([Connect (cookie_uri (firefox_path "abc.default"))],
        Ok (Some (TokStr (strip (py "  tok123  ")))))
  /\ extract ChromeEdge w_two_rows (chrome_path "Default")
     = ([Connect (cookie_uri (chrome_path "Default"))],
        Ok (Some (TokStr (strip (py "AAA"))))).
Proof.
  split; [vm_compute; reflexivity|].
  split; [vm_compute; reflexivity|].
  split.
  - apply (@extraction_returns_trimmed_value Firefox w_firefox_token
             (firefox_path "abc.default")
             (Db (Some (Table [Name; Host; Value]
                          [tiktok_row (VText (py "  tok123  "))])) None)
             (Table [Name; Host; Value]
                [tiktok_row (VText (py "  tok123  "))])
             (py "  tok123  ")
             [Select (Col Value) moz_cookies
                (And (Eq Name (py "msToken")) baseDomain_is_tiktok)]
             [Select (Col Value) moz_cookies
                (And (Eq Name (py "msToken")) (Like Host (py "%tiktok%")))]
             (nth 1 (firefox_queries (py "msToken"))
                (Select CountAll moz_cookies name_is_token))).
    + vm_compute; reflexivity.
    + reflexivity.
    + reflexivity.
    + constructor; [vm_compute; reflexivity | constructor].
    + vm_compute; reflexivity.
    + vm_compute. discriminate.
    + discriminate.
  - apply (@extraction_returns_trimmed_value ChromeEdge w_two_rows
             (chrome_path "Default")
             (Db None (Some (Table [Name; HostKey; Value]
                [ tiktok_row (VText (py "AAA"));
                  Row (py "msToken") (py "www.tiktok.com") []
                    (VText (py "BBB")) ])))
             (Table [Name; HostKey; Value]
                [ tiktok_row (VText (py "AAA"));
                  Row (py "msToken") (py "www.tiktok.com") []
                    (VText (py "BBB")) ])
             (py "AAA")
             []
             (tl (chrome_edge_queries (py "msToken")))
             (Select (Col Value) cookies
                (And (Eq Name (py "msToken"))
                   (Like HostKey (py "%tiktok.com"))))).
    + vm_compute; reflexivity.
    + reflexivity.
    + reflexivity.
    + constructor.
    + vm_compute; reflexivity.
    + vm_compute. discriminate.
    + intros _. vm_compute; reflexivity.
Defined.

(** C7, as stated, fails in two ways.  Chrome/Edge extraction does not
    return a text value that begins with [v1], plain text though it is.
    And a cookie database in a directory whose name holds [#] is not the
    file SQLite opens: the URI is cut at the [#], SQLite starts an empty
    database under the name [Profile ], and the extraction returns
    [None]. *)
Lemma extraction_misses_marked_value_and_cut_path :
  extract ChromeEdge w_marker_text (chrome_path "Default")
  = ([Connect (cookie_uri (chrome_path "Default"))], Ok None)
  /\ ~ returns_value_of_token_row ChromeEdge w_marker_text
         (chrome_path "Default")
  /\ lookup (home w_hash_path) (chrome_path "Profile #1")
     = Some (chrome_db [tiktok_row (VText (py "tok123"))])
  /\ opened w_hash_path (chrome_path "Profile #1") = Database (Db None None)
  /\ extract ChromeEdge w_hash_path (chrome_path "Profile #1")
     = ([Connect (cookie_uri (chrome_path "Profile #1"))], Ok None)
  /\ ~ returns_value_of_token_row ChromeEdge w_hash_path
         (chrome_path "Profile #1").
Proof.
  split; [vm_compute; reflexivity|]. split; [|split; [|split; [|split]]];
    try (vm_compute; reflexivity).
  - intros H.
    specialize (H (Db None (Some (Table [Name; HostKey; Value]
                     [ tiktok_row (VText (py "v10abc")) ])))
                  (Table [Name; HostKey; Value]
                     [ tiktok_row (VText (py "v10abc")) ])
                  (tiktok_row (VText (py "v10abc")))
                  (py "v10abc")).
    assert (Hr : result (extract ChromeEdge w_marker_text
                           (chrome_path "Default")) = Ok None)
      by (vm_compute; reflexivity).
    rewrite Hr in H.
    assert (Hbad : @Ok (option token) None
                   = Ok (Some (TokStr (strip (py "v10abc"))))).
    { apply H; try (vm_compute; reflexivity).
      - left. reflexivity.
      - exists (Select (Col Value) cookies
                  (And (Eq Name (py "msToken"))
                     (Like HostKey (py "%tiktok.com")))).
        split; [left; reflexivity|].
        split; vm_compute; reflexivity.
      - vm_compute. discriminate. }
    discriminate.
  - intros H.
    specialize (H (Db None (Some (Table [Name; HostKey; Value]
                     [ tiktok_row (VText (py "tok123")) ])))
                  (Table [Name; HostKey; Value]
                     [ tiktok_row (VText (py "tok123")) ])
                  (tiktok_row (VText (py "tok123")))
                  (py "tok123")).
    assert (Hr : result (extract ChromeEdge w_hash_path
                           (chrome_path "Profile #1")) = Ok None)
      by (vm_compute; reflexivity).
    rewrite Hr in H.
    assert (Hbad : @Ok (option token) None
                   = Ok (Some (TokStr (strip (py "tok123"))))).
    { apply H; try (vm_compute; reflexivity).
      - left. reflexivity.
      - exists (Select (Col Value) cookies
                  (And (Eq Name (py "msToken"))
                     (Like HostKey (py "%tiktok.com")))).
        split; [left; reflexivity|].
        split; vm_compute; reflexivity.
      - vm_compute. discriminate. }
    discriminate.
Qed.

(** ** Values taken to be encrypted *)

(** A blob that is not UTF-8, or that decodes to text beginning with [v1],
    is skipped with the two-line warning. *)
Lemma encrypted_blob_skipped_with_warning (w : world) (f : path)
  (conn : connection) (b : pybytes) :
  (decode_utf8 b = None
   \/ exists d, decode_utf8 b = Some d /\ startswith d (py "v1") = true) ->
  chrome_edge_handle_value w f conn (VBlob b)
  = (encrypted_warning w f ;;; ret None).
Proof.
  intros [H | [d [H Hd]]]; unfold chrome_edge_handle_value; rewrite H.
  - cbn [try_except raise is_UnicodeDecodeError bind ret].
    now destruct (encrypted_warning w f) as [t [[]|e|c]].
  - unfold looks_plain. rewrite Hd, !andb_false_r.
    cbn [try_except bind ret].
    now destruct (encrypted_warning w f) as [t [[]|e|c]].
Qed.

(** Text beginning with [v1] is skipped as well, but nothing is printed. *)
Lemma marked_text_skipped_silently (w : world) (f : path)
  (conn : connection) (s : pystr) :
  startswith s (py "v1") = true ->
  chrome_edge_handle_value w f conn (VText s) = ([], Ok None).
Proof.
  intros H. unfold chrome_edge_handle_value, looks_plain.
  rewrite H, !andb_false_r. reflexivity.
Qed.

(** C5, at the failing input.  A Chrome database whose only [msToken] row
    holds the text [v10abc]: every query that selects the row skips the
    value, no token is returned, and nothing at all is printed (the call to
    SQLite is the one event of the run).  The same value stored as a blob
    is skipped with the warning, once for each of the three queries that
    select the row. *)
Theorem marked_text_value_leaves_no_diagnostic :
  extract_ms_token_from_chrome_edge w_marker_text (chrome_path "Default")
  = ([Connect (cookie_uri (chrome_path "Default"))], Ok None)
  /\ extract_ms_token_from_chrome_edge w_marker_blob (chrome_path "Default")
     = (Connect (cookie_uri (chrome_path "Default"))
        :: trace (encrypted_warning w_marker_blob (chrome_path "Default"))
        ++ trace (encrypted_warning w_marker_blob (chrome_path "Default"))
        ++ trace (encrypted_warning w_marker_blob (chrome_path "Default")),
        Ok None).
Proof. split; vm_compute; reflexivity. Qed.

(* ===================================================================== *)
(** * Properties of the dispatcher and of the mock generator *)
(* ===================================================================== *)

(** ** Facts about every event of a run *)

Section Every.

Variable P : event -> Prop.

Lemma every_ret {A} (a : A) : every P (ret a).
Proof. constructor. Qed.

Lemma every_raise {A} (e : exn) : every P (@raise A e).
Proof. constructor. Qed.

Lemma every_sys_exit {A} (c : Z) : every P (@sys_exit A c).
Proof. constructor. Qed.

Lemma every_emit (ev : event) : P ev -> every P (emit ev).
Proof. intros H. repeat constructor. exact H. Qed.

Lemma every_bind {A B} (m : M A) (f : A -> M B) :
  every P m -> (forall a, result m = Ok a -> every P (f a)) ->
  every P (bind m f).
Proof.
  unfold every. destruct m as [t [a|e|c]]; simpl; intros Hm Hf; try exact Hm.
  specialize (Hf a eq_refl). destruct (f a) as [t' o]; simpl in *.
  apply Forall_app. now split.
Qed.

Lemma every_try {A} (m : M A) (class : exn -> bool) (h : exn -> M A) :
  every P m -> (forall e, every P (h e)) ->
  every P (try_except m class h).
Proof.
  unfold every. destruct m as [t [a|e|c]]; simpl; intros Hm Hh; try exact Hm.
  destruct (class e); [|exact Hm].
  specialize (Hh e). destruct (h e) as [t' o]; simpl in *.
  apply Forall_app. now split.
Qed.

Lemma every_for_each {X} (l : list X) (body : X -> M unit) :
  (forall x, every P (body x)) -> every P (Scraper.for_each l body).
Proof.
  intros Hb. induction l as [|x l IH]; simpl.
  - apply every_ret.
  - apply every_bind; [apply Hb | intros _ _; exact IH].
Qed.

End Every.

Ltac every_step :=
  first
    [ apply every_ret
    | apply every_raise
    | apply every_sys_exit
    | apply every_emit; simpl; try exact I
    | apply every_bind; [|intros ? _]
    | apply every_try; [|intros ?]
    | apply every_for_each; intros ?
    | match goal with
      | |- every _ (match ?x with _ => _ end) => destruct x
      | |- every _ (if ?b then _ else _) => destruct b
      | |- every _ (let (_, _) := ?x in _) => destruct x
      end ].

Ltac every_tac := repeat every_step.

Lemma on_requests_Forall (Q : request -> Prop) (t : list event) :
  Forall (on_requests Q) t -> Forall Q (requests t).
Proof.
  induction 1 as [|ev t Hev _ IH]; simpl; [constructor|].
  destruct ev; try exact IH. constructor; assumption.
Qed.

Section QuietParts.

(** The parts of a scrape function that issue no request. *)
Variable Q : request -> Prop.

Lemma every_get (d : json) (key : string) (default : json) :
  every (on_requests Q) (Scraper.get d key default).
Proof. unfold Scraper.get. every_tac. Qed.

Lemma every_get2 (d : json) (outer inner : string) :
  every (on_requests Q) (Scraper.get2 d outer inner).
Proof.
  unfold Scraper.get2. apply every_bind; [apply every_get|].
  intros; apply every_get.
Qed.

Lemma every_slice_to (n : nat) (v : json) :
  every (on_requests Q) (Scraper.slice_to n v).
Proof. unfold Scraper.slice_to. every_tac. Qed.

Lemma every_collect_videos (limit : option Z) (items : list json)
  (ending : option exn) (videos : list json) (k : Z) :
  every (on_requests Q) (Scraper.collect_videos limit items ending videos k).
Proof.
  revert videos k. induction items as [|x items IH]; intros videos k; simpl.
  - every_tac.
  - unfold print. every_tac; apply IH.
Qed.

Lemma every_collect_comments (items : list json) (ending : option exn)
  (comments : list json) (k : Z) :
  every (on_requests Q) (Scraper.collect_comments items ending comments k).
Proof.
  revert comments k. induction items as [|x items IH]; intros comments k;
    simpl.
  - every_tac.
  - unfold print. every_tac; apply IH.
Qed.

Ltac quiet :=
  unfold print, Scraper.writerow, Scraper.open_w;
  every_tac;
  try first [ apply every_get | apply every_get2 | apply every_slice_to ].

Lemma every_write_user_csv (r : Scraper.remote) (file : pystr)
  (user_data : json) (videos : list json) :
  every (on_requests Q) (Scraper.write_user_csv r file user_data videos).
Proof. unfold Scraper.write_user_csv, Scraper.user_video_row. quiet. Qed.

Lemma every_write_videos_csv (r : Scraper.remote) (file : pystr)
  (videos : list json) :
  every (on_requests Q) (Scraper.write_videos_csv r file videos).
Proof. unfold Scraper.write_videos_csv, Scraper.video_row. quiet. Qed.

Lemma every_write_video_csv (r : Scraper.remote) (file : pystr)
  (video_info : json) (include_comments : bool) (comments : list json) :
  every (on_requests Q)
    (Scraper.write_video_csv r file video_info include_comments comments).
Proof. unfold Scraper.write_video_csv, Scraper.comment_row. quiet. Qed.

Lemma every_open_w (r : Scraper.remote) (file : pystr) :
  every (on_requests Q) (Scraper.open_w r file).
Proof. quiet. Qed.

Lemma every_json_dump (r : Scraper.remote) (file : pystr) (data : json) :
  every (on_requests Q) (Scraper.json_dump r file data).
Proof. unfold Scraper.json_dump. quiet. Qed.

Lemma every_fail (what : string) (e : exn) :
  every (on_requests Q) (Scraper.fail what e).
Proof. unfold Scraper.fail. quiet. Qed.

Lemma every_report_saved (file : pystr) (videos : list json) :
  every (on_requests Q) (Scraper.report_saved file videos).
Proof. unfold Scraper.report_saved. quiet. Qed.


End QuietParts.

Section ScrapeRequests.

Variable Q : request -> Prop.
Variable r : Scraper.remote.






End ScrapeRequests.



(** ** A missing [--target] *)

Lemma dispatcher_without_target (r : Scraper.remote) (a : Scraper.argv) :
  Scraper.opt_target a = None ->
  exists msg, Scraper.main r a = ([Stderr msg], Exit 2).
Proof.
  intros Ht.
  unfold Scraper.main, Scraper.parse_args, check_choice,
    parser_error.
  rewrite Ht.
  destruct (Scraper.opt_mode a) as [m|];
    destruct (Scraper.opt_format a) as [f|];
    destruct (Scraper.opt_session a) as [s|]; simpl;
    repeat match goal with
           | |- context [if ?c then _ else _] => destruct c; simpl
           end;
    eexists; reflexivity.
Qed.

Lemma mock_without_target
  (su : pystr -> pystr -> option pystr -> option Z -> bool -> option Z
        -> bool -> M unit)
  (st : pystr -> option pystr -> option Z -> M unit)
  (sh : pystr -> pystr -> option pystr -> option Z -> M unit)
  (sv : pystr -> pystr -> option pystr -> bool -> option Z -> M unit)
  (rid : pystr) (a : Mock.argv) (m : string) :
  In m ["user"; "hashtag"; "video"]%string ->
  Mock.opt_mode a = Some (py m) ->
  Mock.no_target (Mock.opt_target a) = true ->
  match Mock.opt_format a with
  | Some f => existsb (str_eqb f) Scraper.format_choices = true
  | None => True
  end ->
  exists banner,
    Mock.main su st sh sv rid a
    = (banner ++ [Print [Lit Mock.RED; Lit " Error: --target is required for ";
                         Lit m; Lit " mode"]],
       Exit 1)
    /\ Forall (fun ev => console_only ev = true) banner.
Proof.
  intros Hm Hmode Ht Hfmt.
  unfold Mock.main, Mock.parse_args, check_choice. rewrite Hmode.
  destruct (Mock.opt_format a) as [f|]; [rewrite Hfmt|];
    destruct Hm as [<- | [<- | [<- | []]]]; simpl;
    rewrite Ht; destruct (Mock.opt_quiet a); simpl;
    first [ exists (@nil event); split; [reflexivity | constructor]
          | eexists [_; _]; split; [reflexivity | repeat constructor] ].
Qed.

(** C3, as the code has it.  The dispatcher declares [--target] required:
    without it, in any mode, [argparse] rejects the command line, and the
    run consists of one usage error on standard error and exit status 2.
    The mock generator checks the target itself: in user, hashtag and video
    mode, on a command line the parser accepts, it prints its banner (unless
    quiet) and the error message, and exits with status 1.  Neither opens a
    session, contacts the service, or touches a file. *)
Theorem missing_target_is_rejected :
  (forall (r : Scraper.remote) (a : Scraper.argv),
      Scraper.opt_target a = None ->
      exit_status (Scraper.main r a) = 2%Z
      /\ Forall (fun ev => console_only ev = true) (trace (Scraper.main r a))
      /\ exists msg, trace (Scraper.main r a) = [Stderr msg])
  /\ (forall su st sh sv rid (a : Mock.argv) (m : string),
         In m ["user"; "hashtag"; "video"]%string ->
         Mock.opt_mode a = Some (py m) ->
         Mock.no_target (Mock.opt_target a) = true ->
         match Mock.opt_format a with
         | Some f => existsb (str_eqb f) Scraper.format_choices = true
         | None => True
         end ->
         exit_status (Mock.main su st sh sv rid a) = 1%Z
         /\ Forall (fun ev => console_only ev = true)
              (trace (Mock.main su st sh sv rid a))
         /\ In (Print [Lit Mock.RED; Lit " Error: --target is required for ";
                       Lit m; Lit " mode"])
              (trace (Mock.main su st sh sv rid a))).
Proof.
  split.
  - intros r a Ht. destruct (dispatcher_without_target r a Ht) as [msg H].
    rewrite H. split; [reflexivity|]. split; [repeat constructor|].
    exists msg. reflexivity.
  - intros su st sh sv rid a m Hm Hmode Ht Hfmt.
    destruct (mock_without_target su st sh sv rid a Hm Hmode Ht Hfmt)
      as [banner [H Hb]].
    rewrite H. split; [reflexivity|]. split.
    + apply Forall_app. split; [exact Hb | repeat constructor].
    + apply in_or_app. right. left. reflexivity.
Qed.

Lemma missing_target_is_rejected_witness :
  exit_status (Scraper.main r_five (cli "hashtag" None "json" None false None))
  = 2%Z
  /\ exit_status (Mock.main idle_user idle_trending idle_hashtag idle_video
                    (py "7000000000000000000") (mock_cli "hashtag" None))
     = 1%Z.
Proof.
  split.
  - apply (proj1 missing_target_is_rejected r_five
             (cli "hashtag" None "json" None false None)).
    reflexivity.
  - apply (proj2 missing_target_is_rejected idle_user idle_trending
             idle_hashtag idle_video (py "7000000000000000000")
             (mock_cli "hashtag" None) "hashtag"%string).
    + right. left. reflexivity.
    + reflexivity.
    + reflexivity.
    + exact I.
Defined.

(** C3, as stated, fails for the dispatcher: in user mode without
    [--target] the exit status is 2, not 1. *)
Lemma dispatcher_missing_target_exits_2 :
  Scraper.opt_target (cli "user" None "json" None false None) = None
  /\ Scraper.main r_five (cli "user" None "json" None false None)
     = ([Stderr [Lit "usage: "; Lit "error: ";
                 Lit "the following arguments are required: ";
                 Lit "-t/--target"]],
        Exit 2)
  /\ exit_status (Scraper.main r_five (cli "user" None "json" None false None))
     <> 1%Z.
Proof.
  split; [reflexivity|]. split; [vm_compute; reflexivity|].
  vm_compute. discriminate.
Qed.

(** ** Limits *)

Lemma result_bind_unit {B} (m : M unit) (k : M B) (t : list event) :
  m = (t, Ok tt) -> result (bind m (fun _ => k)) = result k.
Proof. intros ->. simpl. now destruct k. Qed.

Lemma progress_report_returns (k : Z) (what : string) :
  exists t,
    (if Z.eqb (k mod 10) 0
     then print [Lit Scraper.CYAN; Lit " Extracted "; Int k; Lit what]
     else ret tt) = (t, Ok tt).
Proof. destruct (Z.eqb (k mod 10) 0); eexists; reflexivity. Qed.

(** The video-collecting loop under a positive limit: what it returns has
    at most [limit] items, however many the stream offers. *)
Lemma collect_videos_bounded (n : Z) (items : list json)
  (ending : option exn) :
  (0 < n)%Z ->
  forall (videos : list json) (k : Z) (out : list json),
    k = Z.of_nat (List.length videos) ->
    (k < n)%Z ->
    result (Scraper.collect_videos (Some n) items ending videos k) = Ok out ->
    (Z.of_nat (List.length out) <= n)%Z.
Proof.
  intros Hn. induction items as [|x items IH]; intros videos k out Hk Hlt;
    simpl.
  - destruct ending; simpl; [discriminate|]. intros H. injection H as <-. lia.
  - destruct (progress_report_returns (k + 1) " videos so far...")
      as [t Ht].
    rewrite (result_bind_unit _ Ht).
    destruct (Z.eqb n 0) eqn:Hz; [apply Z.eqb_eq in Hz; lia|]. simpl.
    destruct (n <=? k + 1)%Z eqn:Hle; simpl.
    + intros H. injection H as <-. rewrite length_app, Nat2Z.inj_add.
      simpl. lia.
    + apply IH.
      * rewrite length_app, Nat2Z.inj_add. simpl. lia.
      * apply Z.leb_gt in Hle. exact Hle.
Qed.


(** C2, at the failing input.  Video mode with [--comments
    --comment-limit 3] against a service whose comment stream offers five
    items: the request asks for 3, the loop has no [break], and the
    document written has five comments and [total_comments] 5.  (The video
    loops keep to a positive limit: [collect_videos_bounded].) *)
Theorem comment_limit_not_enforced :
  requests (trace (Scraper.main r_five
                     (cli "video" (Some "7123"%string) "json" None true
                        (Some 3%Z))))
  = [ CreateSessions (py "token"); VideoInfo false (py "7123");
      VideoComments (py "7123") (Some 3%Z) ]
  /\ List.map (fun d => field d "total_comments")
       (dumps (trace (Scraper.main r_five
                        (cli "video" (Some "7123"%string) "json" None true
                           (Some 3%Z)))))
     = [ Some (JNum 5) ]
  /\ exit_status (Scraper.main r_five
                    (cli "video" (Some "7123"%string) "json" None true
                       (Some 3%Z))) = 0%Z.
Proof. repeat split; vm_compute; reflexivity. Qed.

(** ** CSV output *)

Lemma slice_to_bounded (n : nat) (v cell : json) :
  result (Scraper.slice_to n v) = Ok cell -> text_length cell <= n.
Proof.
  destruct v; simpl; try discriminate; intros H; injection H as <-; simpl.
  - rewrite length_firstn. apply Nat.le_min_l.
  - apply Nat.le_0_l.
Qed.

Ltac bind_inv H :=
  repeat (apply bind_Ok_inv in H;
          let x := fresh "x" in
          let Hx := fresh "Hx" in
          destruct H as [x [Hx H]]).

(** The description cell of a video row, in user mode and in trending and
    hashtag mode, and the text cell of a comment row, hold at most 100
    characters. *)
Lemma row_text_bounded (item : json) (row : list json) :
  (result (Scraper.user_video_row item) = Ok row ->
   forall cell, nth_error row 1 = Some cell -> text_length cell <= 100)
  /\ (result (Scraper.video_row item) = Ok row ->
      forall cell, nth_error row 2 = Some cell -> text_length cell <= 100)
  /\ (result (Scraper.comment_row item) = Ok row ->
      forall cell, nth_error row 2 = Some cell -> text_length cell <= 100).
Proof.
  repeat split; intros H cell Hcell;
    unfold Scraper.user_video_row, Scraper.video_row, Scraper.comment_row
      in H;
    bind_inv H; injection H as <-; simpl in Hcell; injection Hcell as <-;
    eapply slice_to_bounded; eassumption.
Qed.

(** C4, at the failing input.  Video mode with CSV output, for a video
    whose description has 101 characters: the [description] row carries
    all 101 of them. *)
Theorem video_description_written_in_full :
  In [ Scraper.jstr "Video"; Scraper.jstr "description";
       JStr (repeat 97%N 101) ]
    (csv_rows (trace (Scraper.main r_five
                        (cli "video" (Some "7123"%string) "csv" None false
                           None))))
  /\ text_length (JStr (repeat 97%N 101)) = 101
  /\ exit_status (Scraper.main r_five
                    (cli "video" (Some "7123"%string) "csv" None false None))
     = 0%Z.
Proof.
  split; [|split]; [|reflexivity|vm_compute; reflexivity].
  vm_compute. right. right. left. reflexivity.
Qed.

(** *** The layout of the CSV file in trending and hashtag mode *)

Lemma nothing_emitted {A} (m : M A) :
  every (fun _ => False) m -> trace m = [].
Proof.
  unfold every. destruct (trace m) as [|ev t]; [reflexivity|].
  intros H. inversion H. contradiction.
Qed.

Lemma rows_silent (item : json) :
  trace (Scraper.user_video_row item) = []
  /\ trace (Scraper.video_row item) = []
  /\ trace (Scraper.comment_row item) = [].
Proof.
  repeat split; apply nothing_emitted;
    unfold Scraper.user_video_row, Scraper.video_row, Scraper.comment_row,
      Scraper.get2, Scraper.get, Scraper.slice_to;
    every_tac.
Qed.

Lemma bind_Ok_trace {A B} (m : M A) (f : A -> M B) (b : B) :
  result (bind m f) = Ok b ->
  exists a, result m = Ok a /\ result (f a) = Ok b
            /\ trace (bind m f) = trace m ++ trace (f a).
Proof.
  destruct m as [t [a|e|c]]; simpl; try discriminate.
  destruct (f a) as [t' o] eqn:Hf; simpl. intros ->.
  exists a. rewrite Hf. repeat split; reflexivity.
Qed.

Lemma csv_rows_map (file : pystr) (rows : list (list json)) :
  csv_rows (List.map (CsvRow file) rows) = rows.
Proof. induction rows; simpl; congruence. Qed.

Section RowsWritten.

(** The row of an item is computed without any output of its own. *)
Variable row_of : json -> M (list json).
Hypothesis row_of_silent : forall item, trace (row_of item) = [].
Variable file : pystr.

Lemma rows_written (items : list json) :
  result (write_rows row_of file items) = Ok tt ->
  exists rows,
    Forall2 (fun item row => result (row_of item) = Ok row) items rows
    /\ trace (write_rows row_of file items) = List.map (CsvRow file) rows.
Proof.
  unfold write_rows. induction items as [|item items IH]; simpl.
  - intros _. exists []. split; [constructor | reflexivity].
  - intros H. apply bind_Ok_trace in H.
    destruct H as [[] [Hrow [Hrest Htr]]]. rewrite Htr.
    destruct (IH Hrest) as [rows [Hrows Htrace]]. rewrite Htrace.
    apply bind_Ok_trace in Hrow. destruct Hrow as [row [Hr [_ Hrt]]].
    rewrite Hrt, row_of_silent. simpl.
    exists (row :: rows). split; [constructor; assumption | reflexivity].
Qed.

Lemma rows_written_after (items : list json) (t : list event)
  (o : outcome unit) :
  write_rows row_of file items = (t, o) -> o = Ok tt ->
  exists rows,
    Forall2 (fun item row => result (row_of item) = Ok row) items rows
    /\ csv_rows t = rows.
Proof.
  intros Hw ->. destruct (rows_written items) as [rows [Hrows Htr]].
  - rewrite Hw. reflexivity.
  - exists rows. split; [exact Hrows|].
    rewrite Hw in Htr. simpl in Htr. subst t. apply csv_rows_map.
Qed.

End RowsWritten.

Lemma bounded_rows (row_of : json -> M (list json)) (i : nat)
  (items : list json) (rows : list (list json)) :
  (forall item row, result (row_of item) = Ok row ->
                    forall cell, nth_error row i = Some cell ->
                                 text_length cell <= 100) ->
  Forall2 (fun item row => result (row_of item) = Ok row) items rows ->
  Forall (fun row => forall cell, nth_error row i = Some cell ->
                                  text_length cell <= 100) rows.
Proof.
  intros Hb. induction 1 as [|item row items rows Hrow _ IH]; constructor.
  - exact (Hb item row Hrow).
  - exact IH.
Qed.

(** When the CSV branch of [scrape_trending] and [scrape_hashtag] succeeds,
    the file holds the fixed header, then one row for each video, in
    order, and the description cell of each row has at most 100
    characters. *)
Lemma videos_csv_layout (r : Scraper.remote) (file : pystr)
  (videos : list json) :
  result (Scraper.write_videos_csv r file videos) = Ok tt ->
  exists rows,
    csv_rows (trace (Scraper.write_videos_csv r file videos))
    = Scraper.video_header :: rows
    /\ Forall2 (fun video row => result (Scraper.video_row video) = Ok row)
         videos rows
    /\ Forall (fun row => forall cell, nth_error row 2 = Some cell ->
                                       text_length cell <= 100) rows.
Proof.
  unfold Scraper.write_videos_csv, Scraper.open_w.
  destruct (Scraper.can_write r file); simpl; [|discriminate].
  fold (write_rows Scraper.video_row file videos).
  destruct (write_rows Scraper.video_row file videos) as [t o] eqn:Hw.
  simpl. intros ->.
  destruct (rows_written_after Scraper.video_row
              (fun item => proj1 (proj2 (rows_silent item))) file videos Hw
              eq_refl) as [rows [Hrows Hcsv]].
  exists rows. split; [now rewrite Hcsv|]. split; [exact Hrows|].
  exact (@bounded_rows Scraper.video_row 2 videos rows
           (fun item row => proj1 (proj2 (row_text_bounded item row)))
           Hrows).
Qed.

(** When the CSV branch of [scrape_user] succeeds, the file holds the
    [Type,Field,Value] header, five rows about the user, an empty row, the
    video header, then one row for each video with a description of at
    most 100 characters. *)
Lemma user_csv_layout (r : Scraper.remote) (file : pystr) (user_data : json)
  (videos : list json) :
  result (Scraper.write_user_csv r file user_data videos) = Ok tt ->
  exists u1 u2 u3 u4 u5 rows,
    csv_rows (trace (Scraper.write_user_csv r file user_data videos))
    = [ Scraper.type_field_value;
        [Scraper.jstr "User"; Scraper.jstr "username"; u1];
        [Scraper.jstr "User"; Scraper.jstr "nickname"; u2];
        [Scraper.jstr "User"; Scraper.jstr "followers"; u3];
        [Scraper.jstr "User"; Scraper.jstr "following"; u4];
        [Scraper.jstr "User"; Scraper.jstr "videos"; u5];
        [];
        Scraper.user_video_header ] ++ rows
    /\ Forall2 (fun video row =>
                  result (Scraper.user_video_row video) = Ok row)
         videos rows
    /\ Forall (fun row => forall cell, nth_error row 1 = Some cell ->
                                       text_length cell <= 100) rows.
Proof.
  unfold Scraper.write_user_csv, Scraper.open_w.
  destruct (Scraper.can_write r file); simpl; [|discriminate].
  destruct user_data; simpl; try discriminate.
  fold (write_rows Scraper.user_video_row file videos).
  destruct (write_rows Scraper.user_video_row file videos) as [t o] eqn:Hw.
  simpl. intros ->.
  destruct (rows_written_after Scraper.user_video_row
              (fun item => proj1 (rows_silent item)) file videos Hw
              eq_refl) as [rows [Hrows Hcsv]].
  do 5 eexists. exists rows. split; [rewrite Hcsv; reflexivity|].
  split; [exact Hrows|].
  exact (@bounded_rows Scraper.user_video_row 1 videos rows
           (fun item row => proj1 (row_text_bounded item row)) Hrows).
Qed.

(** When the CSV branch of [scrape_video] succeeds, the file holds the
    [Type,Field,Value] header and seven rows about the video; the
    [description] row carries the [desc] field as it is, at any length.
    If comments were asked for and at least one was collected, an empty
    row, the comment header and one row for each comment follow, with a
    text cell of at most 100 characters. *)
Lemma video_csv_layout (r : Scraper.remote) (file : pystr)
  (video_info : json) (include_comments : bool) (comments : list json) :
  result (Scraper.write_video_csv r file video_info include_comments
            comments) = Ok tt ->
  exists v1 v2 v3 v4 v5 v6 v7 rest,
    csv_rows (trace (Scraper.write_video_csv r file video_info
                       include_comments comments))
    = [ Scraper.type_field_value;
        [Scraper.jstr "Video"; Scraper.jstr "id"; v1];
        [Scraper.jstr "Video"; Scraper.jstr "description"; v2];
        [Scraper.jstr "Video"; Scraper.jstr "author"; v3];
        [Scraper.jstr "Video"; Scraper.jstr "likes"; v4];
        [Scraper.jstr "Video"; Scraper.jstr "shares"; v5];
        [Scraper.jstr "Video"; Scraper.jstr "comments"; v6];
        [Scraper.jstr "Video"; Scraper.jstr "views"; v7] ] ++ rest
    /\ result (Scraper.get video_info "desc" (Scraper.jstr "")) = Ok v2
    /\ match include_comments, comments with
       | true, _ :: _ =>
           exists rows,
             rest = [] :: Scraper.comment_header :: rows
             /\ Forall2 (fun comment row =>
                           result (Scraper.comment_row comment) = Ok row)
                  comments rows
             /\ Forall (fun row => forall cell,
                            nth_error row 2 = Some cell ->
                            text_length cell <= 100) rows
       | _, _ => rest = []
       end.
Proof.
  unfold Scraper.write_video_csv, Scraper.open_w, Scraper.get2.
  destruct (Scraper.can_write r file); simpl; [|discriminate].
  destruct video_info; simpl; try discriminate.
  destruct (assoc (py "author") fields) as [[]|]; simpl; try discriminate;
    (destruct (assoc (py "stats") fields) as [[]|]; simpl;
     try discriminate);
    (destruct include_comments;
     [ destruct comments as [|c cs];
       [ intros _; do 7 eexists; exists [];
         repeat split; reflexivity
       | fold (write_rows Scraper.comment_row file (c :: cs));
         destruct (write_rows Scraper.comment_row file (c :: cs))
           as [t o] eqn:Hw;
         simpl; intros ->;
         destruct (rows_written_after Scraper.comment_row
                     (fun item => proj2 (proj2 (rows_silent item))) file
                     (c :: cs) Hw eq_refl) as [rows [Hrows Hcsv]];
         do 7 eexists; exists ([] :: Scraper.comment_header :: rows);
         split; [rewrite Hcsv; reflexivity|];
         split; [reflexivity|];
         exists rows; split; [reflexivity|]; split; [exact Hrows|];
         exact (@bounded_rows Scraper.comment_row 2 (c :: cs) rows
                  (fun item row =>
                     proj2 (proj2 (row_text_bounded item row))) Hrows) ]
     | intros _; do 7 eexists; exists [];
       repeat split; try reflexivity; destruct comments; reflexivity ]).
Qed.

(** *** Names matched by both profile patterns *)

Lemma star_matches_all (s : pystr) : match_tokens [TStar] s = true.
Proof. induction s as [|c s IH]; [reflexivity|]. simpl in *. exact IH. Qed.

(** Every directory name made of [Profile], a space, a digit and anything
    after it is matched by [Profile *] and by [Profile [0-9]*]. *)
Lemma numbered_profile_matches_both (d : N) (rest : pystr) :
  (48 <= d)%N -> (d <= 57)%N ->
  fnmatch (py "Profile " ++ d :: rest) (py "Profile *") = true
  /\ fnmatch (py "Profile " ++ d :: rest) (py "Profile [0-9]*") = true.
Proof.
  intros Hlo Hhi. apply N.leb_le in Hlo, Hhi. unfold fnmatch. split.
  - change (match_tokens [TStar] (d :: rest) = true).
    apply star_matches_all.
  - change (xorb false (in_class [(48, 57)%N] d)
            && match_tokens [TStar] rest = true).
    unfold in_class. simpl. rewrite Hlo, Hhi, star_matches_all. reflexivity.
Qed.

(** With the client library installed, the script is its [main]. *)
Lemma script_runs_main (r : Scraper.remote) (a : Scraper.argv) :
  Scraper.installed r = true -> Scraper.script r a = Scraper.main r a.
Proof. intros H. unfold Scraper.script. now rewrite H. Qed.

(* ===================================================================== *)
(** * Further properties of the locator *)
(* ===================================================================== *)


(** ** Trimming *)

Lemma lstrip_idempotent (sp : N -> bool) (x : list N) :
  lstrip sp (lstrip sp x) = lstrip sp x.
Proof.
  induction x as [|c x IH]; simpl; [reflexivity|].
  destruct (sp c) eqn:Hc; [exact IH|]. simpl. now rewrite Hc.
Qed.

Lemma lstrip_snoc (sp : N -> bool) (a : list N) (c : N) :
  sp c = false -> lstrip sp (a ++ [c]) = lstrip sp a ++ [c].
Proof.
  intros Hc. induction a as [|d a IH]; simpl.
  - now rewrite Hc.
  - destruct (sp d); [exact IH | reflexivity].
Qed.

Lemma rstrip_cons (sp : N -> bool) (c : N) (z : list N) :
  sp c = false -> rstrip sp (c :: z) = c :: rstrip sp z.
Proof.
  intros Hc. unfold rstrip. simpl.
  rewrite (@lstrip_snoc sp (rev z) c Hc), rev_app_distr. reflexivity.
Qed.

Lemma rstrip_idempotent (sp : N -> bool) (z : list N) :
  rstrip sp (rstrip sp z) = rstrip sp z.
Proof. unfold rstrip. now rewrite rev_involutive, lstrip_idempotent. Qed.

Lemma lstrip_rstrip (sp : N -> bool) (z : list N) :
  lstrip sp z = z -> lstrip sp (rstrip sp z) = rstrip sp z.
Proof.
  destruct z as [|c z]; [reflexivity|]. simpl.
  destruct (sp c) eqn:Hc.
  - intros H. exfalso.
    assert (Hlen : List.length (lstrip sp z) <= List.length z).
    { clear. induction z as [|d z IH]; simpl; [lia|].
      destruct (sp d); simpl; lia. }
    rewrite H in Hlen. simpl in Hlen. lia.
  - intros _. rewrite (@rstrip_cons sp c z Hc). simpl. now rewrite Hc.
Qed.

(** Stripping is idempotent: a stripped string has nothing left to strip. *)
Lemma strip_with_idempotent (sp : N -> bool) (x : list N) :
  strip_with sp (strip_with sp x) = strip_with sp x.
Proof.
  unfold strip_with.
  rewrite (@lstrip_rstrip sp (lstrip sp x) (lstrip_idempotent sp x)).
  apply rstrip_idempotent.
Qed.

Lemma try_Ok_inv {A} (m : M A) (class : exn -> bool) (h : exn -> M A)
  (v : A) :
  result (try_except m class h) = Ok v ->
  result m = Ok v
  \/ exists e, result m = Raise e /\ class e = true /\ result (h e) = Ok v.
Proof.
  destruct m as [t [a|e|c]]; simpl; try (intros H; left; exact H).
  destruct (class e) eqn:Hc; [|discriminate].
  destruct (h e) as [t' o] eqn:Hh; simpl. intros ->. right.
  exists e. rewrite Hh. repeat split; assumption.
Qed.

Lemma positive_length_nonempty (l : list N) :
  (0 <? List.length l)%nat = true -> l <> [].
Proof. destruct l; [discriminate | discriminate]. Qed.

Section ReturnsOnly.

Variable P : token -> Prop.

Lemma returns_only_for_return {X} (l : list X)
  (body : X -> M (option token)) :
  (forall x, returns_only P (body x)) -> returns_only P (for_return l body).
Proof.
  intros Hb. induction l as [|x l IH]; intros t; simpl.
  - discriminate.
  - intros H. apply bind_Ok_inv in H. destruct H as [[v|] [Hx H]].
    + injection H as ->. exact (Hb x t Hx).
    + exact (IH t H).
Qed.

Lemma returns_only_search_files (w : world) (label : string)
  (files : list path) (extract_one : path -> M (option token)) :
  (forall p, returns_only P (extract_one p)) ->
  returns_only P (search_files w label files extract_one).
Proof.
  intros He. unfold search_files. destruct files as [|p files].
  - intros t H. apply bind_Ok_inv in H. destruct H as [_ [_ H]]. discriminate.
  - intros t H. apply bind_Ok_inv in H. destruct H as [_ [_ H]].
    revert t H. apply returns_only_for_return. intros x t H.
    apply bind_Ok_inv in H. destruct H as [_ [_ H]].
    apply bind_Ok_inv in H. destruct H as [[tk|] [Hx H]]; [|discriminate].
    destruct (token_truthy tk); [|discriminate].
    apply bind_Ok_inv in H. destruct H as [_ [_ H]].
    injection H as <-. exact (He x tk Hx).
Qed.

Hypothesis firefox_ok :
  forall w p, returns_only P (extract_ms_token_from_firefox w p).
Hypothesis chrome_edge_ok :
  forall w p, returns_only P (extract_ms_token_from_chrome_edge w p).

Lemma returns_only_try_browser (w : world) (b : pystr) :
  returns_only P (try_browser w b).
Proof.
  unfold try_browser. intros t H.
  apply bind_Ok_inv in H. destruct H as [_ [_ H]].
  repeat match type of H with
         | context [if ?c then _ else _] => destruct c
         end;
    try discriminate;
    apply bind_Ok_inv in H; destruct H as [files [_ H]];
    revert t H; apply returns_only_search_files; intros p;
    first [apply firefox_ok | apply chrome_edge_ok].
Qed.

Lemma returns_only_extract_ms_token (w : world) (preferred : option pystr) :
  returns_only P (extract_ms_token w preferred).
Proof.
  unfold extract_ms_token. apply returns_only_for_return.
  intros b. apply returns_only_try_browser.
Qed.

End ReturnsOnly.

Lemma firefox_try_query_trimmed (conn : connection) (q : query) :
  returns_only trimmed (firefox_try_query conn q).
Proof.
  intros t H. unfold firefox_try_query in H. apply try_Ok_inv in H.
  destruct H as [H | [e [_ [_ H]]]]; [|discriminate].
  apply bind_Ok_inv in H. destruct H as [[v|] [_ H]]; [|discriminate].
  destruct (truthy v); [|discriminate].
  destruct v as [|z|s|b]; try discriminate.
  - destruct (0 <? List.length (strip s))%nat eqn:Hlen; [|discriminate].
    injection H as <-. split.
    + exact (positive_length_nonempty Hlen).
    + apply strip_with_idempotent.
  - destruct (0 <? List.length (bstrip b))%nat eqn:Hlen; [|discriminate].
    injection H as <-. split.
    + exact (positive_length_nonempty Hlen).
    + apply strip_with_idempotent.
Qed.

Lemma looks_plain_strip (x : pystr) :
  looks_plain x = true -> strip x <> [].
Proof.
  unfold looks_plain. rewrite !andb_true_iff, !negb_true_iff.
  intros [[_ H] _] Hnil. rewrite Hnil in H. discriminate.
Qed.

Lemma chrome_edge_try_query_trimmed (w : world) (f : path)
  (conn : connection) (q : query) :
  returns_only trimmed (chrome_edge_try_query w f conn q).
Proof.
  intros t H. unfold chrome_edge_try_query in H. apply try_Ok_inv in H.
  destruct H as [H | [e [_ [_ H]]]];
    [|destruct (is_OperationalError e); discriminate].
  apply bind_Ok_inv in H. destruct H as [[v|] [_ H]]; [|discriminate].
  destruct (truthy v); [|discriminate].
  unfold chrome_edge_handle_value in H.
  destruct v as [|z|s|b]; try discriminate.
  - destruct (looks_plain s) eqn:Hp; [|discriminate].
    injection H as <-. split.
    + exact (@looks_plain_strip _ Hp).
    + apply strip_with_idempotent.
  - apply bind_Ok_inv in H. destruct H as [[tk|] [Hd H]].
    + injection H as <-. apply try_Ok_inv in Hd.
      destruct Hd as [Hd | [e [_ [_ Hd]]]]; [|discriminate].
      destruct (decode_utf8 b) as [d|]; [|discriminate].
      destruct (looks_plain d) eqn:Hp; [|discriminate].
      injection Hd as <-. split.
      * exact (@looks_plain_strip _ Hp).
      * apply strip_with_idempotent.
    + apply bind_Ok_inv in H. destruct H as [_ [_ H]]. discriminate.
Qed.

Lemma extract_firefox_trimmed (w : world) (p : path) :
  returns_only trimmed (extract_ms_token_from_firefox w p).
Proof.
  intros t H. unfold extract_ms_token_from_firefox in H.
  apply bind_Ok_inv in H. destruct H as [r [H Hr]]. injection Hr as ->.
  apply try_Ok_inv in H. destruct H as [H | [e [_ [_ H]]]].
  - apply bind_Ok_inv in H. destruct H as [conn [_ H]].
    apply bind_Ok_inv in H. destruct H as [[tk|] [Hf H]].
    + injection H as <-. revert tk Hf.
      apply returns_only_for_return. intros n.
      apply returns_only_for_return. intros q.
      apply firefox_try_query_trimmed.
    + apply bind_Ok_inv in H. destruct H as [_ [_ H]].
      apply bind_Ok_inv in H. destruct H as [_ [_ H]]. discriminate.
  - apply bind_Ok_inv in H. destruct H as [_ [_ H]]. discriminate.
Qed.

Lemma extract_chrome_edge_trimmed (w : world) (p : path) :
  returns_only trimmed (extract_ms_token_from_chrome_edge w p).
Proof.
  intros t H. unfold extract_ms_token_from_chrome_edge in H.
  apply bind_Ok_inv in H. destruct H as [r [H Hr]]. injection Hr as ->.
  apply try_Ok_inv in H. destruct H as [H | [e [_ [_ H]]]].
  - apply bind_Ok_inv in H. destruct H as [conn [_ H]].
    apply bind_Ok_inv in H. destruct H as [[tk|] [Hf H]].
    + injection H as <-. revert tk Hf.
      apply returns_only_for_return. intros n.
      apply returns_only_for_return. intros q.
      apply chrome_edge_try_query_trimmed.
    + apply bind_Ok_inv in H. destruct H as [_ [_ H]]. discriminate.
  - destruct e as [|msg| | | | | | |];
      try (apply bind_Ok_inv in H; destruct H as [_ [_ H]]; discriminate).
    destruct (contains _ _);
      apply bind_Ok_inv in H; destruct H as [_ [_ H]];
      try (apply bind_Ok_inv in H; destruct H as [_ [_ H]]); discriminate.
Qed.

Lemma extract_ms_token_returns_trimmed (w : world)
  (preferred : option pystr) :
  returns_only trimmed (extract_ms_token w preferred).
Proof.
  apply (@returns_only_extract_ms_token trimmed extract_firefox_trimmed
           extract_chrome_edge_trimmed).
Qed.

(** X1.  Whatever token [extract_ms_token] returns, from whichever browser,
    is not empty and has no whitespace at either end: stripping it again
    changes nothing. *)
Theorem extracted_token_is_trimmed (w : world) (preferred : option pystr)
  (t : token) :
  result (extract_ms_token w preferred) = Ok (Some t) -> trimmed t.
Proof.
  exact (@extract_ms_token_returns_trimmed w preferred t).
Qed.

Lemma extracted_token_is_trimmed_witness :
  result (extract_ms_token w_firefox_token None)
  = Ok (Some (TokStr (py "tok123")))
  /\ trimmed (TokStr (py "tok123")).
Proof.
  assert (H : result (extract_ms_token w_firefox_token None)
              = Ok (Some (TokStr (py "tok123")))) by (vm_compute; reflexivity).
  split; [exact H|].
  exact (@extracted_token_is_trimmed w_firefox_token None
           (TokStr (py "tok123")) H).
Defined.

(** ** The search only prints *)

Section LocatorEvents.

Variable P : event -> Prop.
Hypothesis prints_ok : forall msg, P (Print msg).
Hypothesis connects_ok : forall uri, P (Connect uri).

Lemma every_for_return {X R} (l : list X) (body : X -> M (option R)) :
  (forall x, every P (body x)) -> every P (for_return l body).
Proof.
  intros Hb. induction l as [|x l IH]; simpl.
  - apply every_ret.
  - apply every_bind; [apply Hb|]. intros [v|] _; [apply every_ret | exact IH].
Qed.

Ltac locator_step :=
  first
    [ apply every_ret
    | apply every_raise
    | apply every_emit; first [apply prints_ok | apply connects_ok]
    | apply every_bind; [|intros ? _]
    | apply every_try; [|intros ?]
    | apply every_for_return; intros ?
    | match goal with
      | |- every _ (match ?x with _ => _ end) => destruct x
      | |- every _ (if ?b then _ else _) => destruct b
      end ].

Lemma every_fetchone (db : database) (q : query) : every P (fetchone db q).
Proof. unfold fetchone. repeat locator_step. Qed.

Lemma every_execute (c : connection) (q : query) :
  every P (execute_fetchone c q).
Proof. destruct c; simpl; [apply every_raise | apply every_fetchone]. Qed.

Lemma every_connect_file (f : dbfile) : every P (connect_file f).
Proof. unfold connect_file. repeat locator_step. Qed.

Lemma every_connect (w : world) (p : path) : every P (connect w p).
Proof. unfold connect, connect_file. repeat locator_step. Qed.

Lemma every_has_tiktok_cookies (w : world) (p : path) (b : bool) :
  every P (has_tiktok_cookies w p b).
Proof.
  unfold every.
  destruct (has_tiktok_cookies_cases w p b) as [[x H] | [_ H]]; rewrite H;
    repeat constructor; apply connects_ok.
Qed.

Lemma every_prioritize_firefox (w : world) (l : list path) :
  every P (prioritize_firefox w l).
Proof.
  unfold prioritize_firefox. apply every_bind; [|intros; apply every_ret].
  generalize (@nil path) at 1. generalize (@nil path).
  induction l as [|p l IH]; intros o pr; simpl.
  - apply every_ret.
  - apply every_bind; [apply every_has_tiktok_cookies|].
    intros [|] _; apply IH.
Qed.

Lemma every_prioritize_chrome_edge (w : world) (l : list path) :
  every P (prioritize_chrome_edge w l).
Proof.
  unfold prioritize_chrome_edge.
  apply every_bind; [|intros; apply every_ret].
  generalize (@nil path) at 1. generalize (@nil path).
  induction l as [|p l IH]; intros o pr; simpl.
  - apply every_ret.
  - apply every_bind.
    + destruct (path_exists (home w) p);
        [apply every_has_tiktok_cookies | apply every_ret].
    + intros [|] _; [apply IH|]. destruct (path_exists (home w) p); apply IH.
Qed.

Lemma every_extract_firefox (w : world) (p : path) :
  every P (extract_ms_token_from_firefox w p).
Proof.
  unfold extract_ms_token_from_firefox, firefox_report_other_cookies,
    firefox_try_query, close, print_on, print.
  repeat locator_step;
    first [ apply every_connect_file | apply every_connect
          | apply every_execute ].
Qed.

Lemma every_extract_chrome_edge (w : world) (p : path) :
  every P (extract_ms_token_from_chrome_edge w p).
Proof.
  unfold extract_ms_token_from_chrome_edge, chrome_edge_try_query,
    chrome_edge_handle_value, encrypted_warning, close, print_on, print.
  repeat locator_step;
    first [ apply every_connect_file | apply every_connect
          | apply every_execute ].
Qed.

Lemma every_search_files (w : world) (label : string)
  (files : list path) (extract_one : path -> M (option token)) :
  (forall p, every P (extract_one p)) ->
  every P (search_files w label files extract_one).
Proof.
  intros He. unfold search_files, print_on, print.
  destruct files; repeat locator_step; apply He.
Qed.

Lemma every_try_browser (w : world) (b : pystr) : every P (try_browser w b).
Proof.
  unfold try_browser, print_on, print, get_firefox_cookie_files,
    get_chrome_cookie_files, get_edge_cookie_files.
  apply every_bind;
    [destruct (printable w _); [apply every_emit, prints_ok | apply every_raise]|].
  intros _ _.
  repeat match goal with
         | |- every _ (if ?c then _ else _) => destruct c
         end;
    try apply every_ret;
    (apply every_bind;
     [ first [ apply every_prioritize_chrome_edge
             | destruct (firefox_candidates w);
               [apply every_ret | apply every_prioritize_firefox] ]
     | intros files _; apply every_search_files; intros p;
       first [ apply every_extract_firefox
             | apply every_extract_chrome_edge ] ]).
Qed.

Lemma every_extract_ms_token (w : world) (preferred : option pystr) :
  every P (extract_ms_token w preferred).
Proof.
  unfold extract_ms_token. apply every_for_return.
  intros b. apply every_try_browser.
Qed.

End LocatorEvents.

Lemma filter_none {A} (f : A -> bool) (l : list A) :
  Forall (fun x => f x = false) l -> filter f l = [].
Proof.
  induction 1 as [|x l Hx _ IH]; simpl; [reflexivity|]. now rewrite Hx.
Qed.

(** The search prints and calls SQLite, and does nothing else. *)
Lemma extract_ms_token_searches_only (w : world)
  (preferred : option pystr) :
  every (fun ev => search_event ev = true) (extract_ms_token w preferred).
Proof.
  apply (@every_extract_ms_token (fun ev => search_event ev = true));
    reflexivity.
Qed.

Lemma filter_all {A} (f : A -> bool) (l : list A) :
  Forall (fun x => f x = true) l -> filter f l = l.
Proof.
  induction 1 as [|x l Hx _ IH]; simpl; [reflexivity|]. now rewrite Hx, IH.
Qed.

(** X2.  Where a found token goes, for a command line the parser accepts.
    The run is the banner, the search, and the handing over.  The search
    prints and calls SQLite and does nothing else; no call to SQLite comes
    after it.  With [--stdout] the program opens no file for writing.
    Without it the output file is opened, if it can be, and receives
    exactly the token (a [bytes] token is not written: the file is left
    empty); a file that cannot be opened gets nothing.  The process ends
    with status 0 when the console takes what is printed on the way (the
    token, or the name of the output file) and with status 1 when it does
    not; the outcome of the save does not change the status. *)
Theorem found_token_goes_to_stdout_or_file (w : world) (a : Locator.argv)
  (parsed : args) (t : token) :
  result (Locator.parse_args a) = Ok parsed ->
  result (extract_ms_token w (browser parsed)) = Ok (Some t) ->
  Forall (fun ev => search_event ev = true)
    (trace (extract_ms_token w (browser parsed)))
  /\ (exists handing_over,
         trace (Locator.main w a)
         = Print [Lit CYAN; Lit " Extracting ms_token from browser cookies..."]
           :: trace (extract_ms_token w (browser parsed)) ++ handing_over
         /\ filter is_connect handing_over = []
         /\ filter writes_file handing_over
            = (if stdout parsed then [] else saved w t (output parsed)))
  /\ exit_status (Locator.main w a)
     = (if deliverable w parsed t then 0%Z else 1%Z).
Proof.
  intros Hp H.
  assert (Hparse : Locator.parse_args a = ([], Ok parsed)).
  { pose proof (parse_args_cases a) as Hc. destruct (rejected a).
    - destruct Hc as [b [_ Hc]]. rewrite Hc in Hp. discriminate.
    - destruct Hc as [args' [Hc _]]. rewrite Hc in Hp |- *.
      injection Hp as ->. reflexivity. }
  pose proof (@extract_ms_token_returns_trimmed w (browser parsed) t H)
    as Htrim.
  pose proof (@extract_ms_token_truthy w (browser parsed) t H) as Htruthy.
  split; [apply extract_ms_token_searches_only|].
  unfold Locator.main, exit_status. rewrite Hparse. cbn [bind].
  unfold search_and_deliver, saved, save_ms_token, deliverable, print_token,
    print_on.
  change (printable w [Lit CYAN;
                       Lit " Extracting ms_token from browser cookies..."])
    with true.
  destruct (extract_ms_token w (browser parsed)) as [te o]. simpl in H.
  subst o. cbn [bind ret print emit app fst snd trace result found_token].
  rewrite Htruthy.
  assert (Hh : forall f e,
            printable w [Lit RED; Lit " Error saving ms_token to "; Txt f;
                         Lit ": "; Exc e] = encodable w f).
  { intros f e. unfold printable. simpl. now rewrite andb_true_r. }
  assert (Hs : forall f,
            printable w [Lit GREEN; Lit " ms_token saved to: "; Txt f]
            = encodable w f).
  { intros f. unfold printable. simpl. now rewrite andb_true_r. }
  assert (Ht : forall x, printable w [Txt x] = encodable w x).
  { intros x. unfold printable. simpl. now rewrite andb_true_r. }
  destruct (stdout parsed).
  - destruct t as [x|b]; simpl; rewrite ?Ht;
      [destruct (encodable w x)|]; simpl; rewrite <- ?app_assoc;
      (split; [eexists; split; [reflexivity|split; reflexivity]
              | reflexivity]).
  - destruct (writable w (output parsed)); destruct t as [x|b]; simpl;
      rewrite ?Hs, ?Hh; destruct (encodable w (output parsed)); simpl;
      rewrite ?Hh; simpl; rewrite <- ?app_assoc;
      (split; [eexists; split; [reflexivity|split; try reflexivity]
              | reflexivity]);
      destruct Htrim as [_ Hx]; simpl; rewrite Hx; reflexivity.
Qed.

Lemma found_token_goes_to_stdout_or_file_witness :
  result (extract_ms_token w_firefox_token None)
  = Ok (Some (TokStr (py "tok123")))
  /\ (exists handing_over,
         trace (Locator.main w_firefox_token no_options)
         = Print [Lit CYAN; Lit " Extracting ms_token from browser cookies..."]
           :: trace (extract_ms_token w_firefox_token None) ++ handing_over
         /\ filter is_connect handing_over = []
         /\ filter writes_file handing_over
            = [ OpenForWrite (py "ms_token.txt");
                WriteText (py "ms_token.txt") (Txt (py "tok123")) ])
  /\ exit_status (Locator.main w_firefox_token no_options) = 0%Z.
Proof.
  assert (H : result (extract_ms_token w_firefox_token None)
              = Ok (Some (TokStr (py "tok123")))) by (vm_compute; reflexivity).
  split; [exact H|].
  exact (proj2 (@found_token_goes_to_stdout_or_file w_firefox_token
                  no_options (Args None (py "ms_token.txt") false)
                  (TokStr (py "tok123")) eq_refl H)).
Defined.

(** ** What the probe answers *)

Lemma count_positive_any (f : row -> bool) (l : list row) :
  (0 <? Z.of_nat (List.length (filter f l)))%Z = existsb f l.
Proof.
  induction l as [|x l IH]; simpl; [reflexivity|].
  destruct (f x); simpl; [|exact IH].
  apply Z.ltb_lt. lia.
Qed.

Lemma fetchone_count (db : database) (t : table_name) (tb : table)
  (c : cond) :
  table_of db t = Some tb ->
  fetchone db (Select CountAll t c)
  = if forallb (has_column tb) (cond_columns c)
    then ([], Ok (Some (VInt (Z.of_nat
                                (List.length (filter (holds c) (t_rows tb)))))))
    else ([], Raise (OperationalError "no such column")).
Proof.
  intros Ht. unfold fetchone, compiles, matching. simpl. rewrite Ht.
  reflexivity.
Qed.

Lemma any_row_weaken (c d : cond) (tb : table) :
  any_row (And c d) tb = true -> any_row d tb = true.
Proof.
  unfold any_row. rewrite !existsb_exists. intros [r [Hin Hr]].
  exists r. split; [exact Hin|]. simpl in Hr.
  apply andb_true_iff in Hr. tauto.
Qed.

Lemma probe_two_counts (db : database) (t : table_name) (tb : table)
  (c d : cond) (k : M (option bool)) :
  table_of db t = Some tb ->
  forallb (has_column tb) (cond_columns c) = true ->
  forallb (has_column tb) (cond_columns d) = true ->
  (result <- fetchone db (Select CountAll t (And c d)) ;;
   found <- count_positive result ;;
   if found then ret (Some true)
   else
     result <- fetchone db (Select CountAll t d) ;;
     found <- count_positive result ;;
     if found then ret (Some true) else k)
  = if any_row d tb then ([], Ok (Some true)) else k.
Proof.
  intros Ht Hc Hd.
  rewrite (fetchone_count db t (And c d) Ht), (fetchone_count db t d Ht).
  change (cond_columns (And c d)) with (cond_columns c ++ cond_columns d).
  rewrite forallb_app, Hc, Hd. cbn [andb bind count_positive ret app].
  rewrite !count_positive_any.
  fold (any_row (And c d) tb). fold (any_row d tb).
  destruct (any_row (And c d) tb) eqn:H1.
  - rewrite (any_row_weaken c d tb H1). reflexivity.
  - destruct (any_row d tb); [reflexivity|]. now destruct k as [tk ok].
Qed.

(** X3.  The probe, when what SQLite opens for the cookie file's URI is a
    database with the usual columns.  After its one call to SQLite it
    answers whether some cookie of the table is a TikTok cookie; the query
    for the [msToken] names asked first never changes the answer.  For
    Chrome and Edge, and for a Firefox table without the [baseDomain]
    column, a TikTok cookie is one whose host ends in [tiktok.com]; for a
    Firefox table that has [baseDomain], one whose [baseDomain] is
    [tiktok.com] or [.tiktok.com], and the host is then not looked at. *)
Theorem probe_finds_any_tiktok_cookie (w : world) (p : path)
  (db : database) (tb : table) :
  opened w p = Database db ->
  has_column tb Name = true ->
  (db_cookies db = Some tb -> has_column tb HostKey = true ->
   has_tiktok_cookies w p false
   = ([Connect (cookie_uri p)],
      Ok (any_row (Like HostKey (py "%tiktok.com")) tb)))
  /\ (db_moz_cookies db = Some tb -> has_column tb BaseDomain = true ->
      has_tiktok_cookies w p true
      = ([Connect (cookie_uri p)], Ok (any_row baseDomain_is_tiktok tb)))
  /\ (db_moz_cookies db = Some tb -> has_column tb BaseDomain = false ->
      has_column tb Host = true ->
      has_tiktok_cookies w p true
      = ([Connect (cookie_uri p)],
         Ok (any_row (Like Host (py "%tiktok.com")) tb))).
Proof.
  intros Hfile Hname. unfold opened in Hfile.
  unfold has_tiktok_cookies, has_tiktok_cookies_block, connect.
  rewrite Hfile. unfold connect_file, execute_fetchone, close.
  cbn [bind ret emit app]. repeat split.
  - intros Ht Hhost.
    rewrite (@probe_two_counts db cookies tb name_is_token
               (Like HostKey (py "%tiktok.com")) _ Ht).
    + destruct (any_row _ tb); reflexivity.
    + simpl. now rewrite Hname.
    + simpl. now rewrite Hhost.
  - intros Ht Hbase.
    rewrite (@probe_two_counts db moz_cookies tb name_is_token
               baseDomain_is_tiktok _ Ht).
    + destruct (any_row _ tb); reflexivity.
    + simpl. now rewrite Hname.
    + simpl. now rewrite Hbase.
  - intros Ht Hbase Hhost.
    rewrite (fetchone_count db moz_cookies
               (And name_is_token baseDomain_is_tiktok) Ht).
    simpl cond_columns. simpl forallb. rewrite Hname, Hbase.
    cbn [bind try_except is_OperationalError andb].
    rewrite (@probe_two_counts db moz_cookies tb name_is_token
               (Like Host (py "%tiktok.com")) _ Ht).
    + destruct (any_row _ tb); reflexivity.
    + simpl. now rewrite Hname.
    + simpl. now rewrite Hhost.
Qed.

Lemma probe_finds_any_tiktok_cookie_witness :
  opened w_profiles (chrome_path "Profile 1")
  = Database (Db None (Some (Table [Name; HostKey; Value]
                               [tiktok_row (VText (py "tok123"))])))
  /\ has_tiktok_cookies w_profiles (chrome_path "Profile 1") false
     = ([Connect (cookie_uri (chrome_path "Profile 1"))], Ok true).
Proof.
  split; [vm_compute; reflexivity|].
  exact (proj1 (@probe_finds_any_tiktok_cookie w_profiles
                  (chrome_path "Profile 1")
                  (Db None (Some (Table [Name; HostKey; Value]
                                    [tiktok_row (VText (py "tok123"))])))
                  (Table [Name; HostKey; Value]
                     [tiktok_row (VText (py "tok123"))])
                  eq_refl eq_refl) eq_refl eq_refl).
Defined.

(** ** The second cookie name *)

(** A query for a name no row has selects nothing. *)
Lemma no_row_named (tb : table) (t : table_name) (n : pystr) (c : cond) :
  (forall r, In r (t_rows tb) -> r_name r <> n) ->
  first_value tb (Select (Col Value) t (And (Eq Name n) c)) = None.
Proof.
  intros Hno. unfold first_value, matching. simpl q_where.
  destruct (compiles tb _); [|reflexivity].
  destruct (filter _ _) as [|r rest] eqn:Hf; [reflexivity|]. exfalso.
  assert (Hin : In r (r :: rest)) by (left; reflexivity).
  rewrite <- Hf in Hin. apply filter_In in Hin. destruct Hin as [Hin Hh].
  exact (Hno r Hin (holds_name _ _ _ Hh)).
Qed.

(** In particular every query for [msToken] is passed over when no row is
    named [msToken]. *)
Lemma absent_name_passed_over (fam : family) (tb : table) (n : pystr) :
  (forall r, In r (t_rows tb) -> r_name r <> n) ->
  Forall (fun q => passed_over fam (first_value tb q) = true)
    (queries fam n).
Proof.
  intros Hno. apply Forall_forall. intros q Hq.
  destruct (queries_shape fam n q Hq) as [c ->].
  now rewrite (no_row_named tb (cookie_table fam) c Hno).
Qed.

(** X4.  [ms_token] is the fallback name.  Let SQLite open, for the cookie
    file's URI, a database with the cookie table, in which every query for
    [msToken] is passed over (as when no row has that name).  Let [q] be a
    query of the list for [ms_token] before which every query is passed
    over, and let the first row [q] selects hold text [v], not blank and,
    for Chrome and Edge, not beginning with [v1].  Then the extraction
    returns [v], trimmed, and prints nothing. *)
Theorem snake_case_name_is_the_fallback (fam : family) (w : world)
  (f : path) (db : database) (tb : table) (v : pystr)
  (before after : list query) (q : query) :
  opened w f = Database db ->
  table_of db (cookie_table fam) = Some tb ->
  Forall (fun q' => passed_over fam (first_value tb q') = true)
    (queries fam (py "msToken")) ->
  queries fam (py "ms_token") = before ++ q :: after ->
  Forall (fun q' => passed_over fam (first_value tb q') = true) before ->
  first_value tb q = Some (VText v) ->
  strip v <> [] ->
  (fam = ChromeEdge -> startswith v (py "v1") = false) ->
  extract fam w f
  = ([Connect (cookie_uri f)], Ok (Some (TokStr (strip v)))).
Proof.
  intros Hfile Htable Hfirst Hl Hb Hv Hne Hplain.
  pose proof (@query_loop_first_hit fam w f db tb (py "ms_token") v before
                after q Htable Hl Hb Hv Hne Hplain) as Hloop.
  assert (Hnone : for_return (queries fam (py "msToken"))
                    (try_query fam w f (ConnDb db)) = ([], Ok None)).
  { apply for_return_silent_none.
    apply (@try_query_passed_over fam w f db tb (py "msToken")); auto. }
  unfold opened in Hfile.
  destruct fam; cbn [queries try_query extract] in Hloop, Hnone |- *.
  - unfold extract_ms_token_from_firefox, connect. rewrite Hfile.
    unfold connect_file, cookie_names. cbn [for_return bind ret emit app].
    rewrite Hnone. cbn [bind app]. rewrite Hloop. reflexivity.
  - unfold extract_ms_token_from_chrome_edge, connect. rewrite Hfile.
    unfold connect_file, cookie_names. cbn [for_return bind ret emit app].
    rewrite Hnone. cbn [bind app]. rewrite Hloop. reflexivity.
Qed.

Lemma snake_case_name_is_the_fallback_witness :
  extract ChromeEdge w_snake_case (chrome_path "Default")
  = ([Connect (cookie_uri (chrome_path "Default"))],
     Ok (Some (TokStr (py "tok9")))).
Proof.
  apply (@snake_case_name_is_the_fallback ChromeEdge w_snake_case
           (chrome_path "Default")
           (Db None (Some (Table [Name; HostKey; Value]
              [ Row (py "sessionid") (py ".tiktok.com") [] (VText (py "abc"));
                Row (py "ms_token") (py ".tiktok.com") []
                  (VText (py " tok9 ")) ])))
           (Table [Name; HostKey; Value]
              [ Row (py "sessionid") (py ".tiktok.com") [] (VText (py "abc"));
                Row (py "ms_token") (py ".tiktok.com") []
                  (VText (py " tok9 ")) ])
           (py " tok9 ")
           []
           (tl (chrome_edge_queries (py "ms_token")))
           (Select (Col Value) cookies
              (And (Eq Name (py "ms_token"))
                   (Like HostKey (py "%tiktok.com"))))).
  - vm_compute; reflexivity.
  - reflexivity.
  - repeat (constructor; [vm_compute; reflexivity|]). constructor.
  - reflexivity.
  - constructor.
  - vm_compute; reflexivity.
  - vm_compute. discriminate.
  - intros _. vm_compute; reflexivity.
Defined.

(** ** Files that cannot be read *)

(** X5.  SQLite opens the file and every statement on it fails with the
    exception [e] (a file that is not a database, a locked or damaged one).
    Chrome/Edge extraction skips every query and prints nothing, whatever
    [e] is.  Firefox extraction prints nothing when [e] is an
    [OperationalError] (it then connects a second time, for its closing
    check); any other exception leaves the query loop at the first
    statement and is reported in one warning line, unless the console
    cannot print the path: then the [print] in the handler raises and the
    function passes [UnicodeEncodeError] on.  Otherwise both return
    [None]. *)
Theorem failing_statements_reported_by_firefox_only (w : world) (f : path)
  (e : exn) :
  opened w f = Failing e ->
  is_Exception e = true ->
  extract_ms_token_from_chrome_edge w f
  = ([Connect (cookie_uri f)], Ok None)
  /\ extract_ms_token_from_firefox w f
     = (if is_OperationalError e
        then ([Connect (cookie_uri f); Connect (cookie_uri f)], Ok None)
        else if encodable w (path_str f)
        then ([Connect (cookie_uri f); firefox_warning f e], Ok None)
        else ([Connect (cookie_uri f)], Raise UnicodeEncodeError)).
Proof.
  intros Hfile He. unfold opened in Hfile.
  unfold extract_ms_token_from_chrome_edge, extract_ms_token_from_firefox,
    firefox_report_other_cookies, connect, print_on, printable.
  rewrite Hfile. unfold firefox_warning.
  destruct e; try discriminate He; split; try reflexivity;
    simpl; destruct (encodable w (path_str f)); reflexivity.
Qed.

Lemma failing_statements_reported_by_firefox_only_witness :
  extract_ms_token_from_chrome_edge w_malformed
    (firefox_path "abc.default")
  = ([Connect (cookie_uri (firefox_path "abc.default"))], Ok None)
  /\ extract_ms_token_from_firefox w_malformed (firefox_path "abc.default")
     = ([Connect (cookie_uri (firefox_path "abc.default"));
         firefox_warning (firefox_path "abc.default")
           (DatabaseError "file is not a database")], Ok None).
Proof.
  exact (@failing_statements_reported_by_firefox_only w_malformed
           (firefox_path "abc.default")
           (DatabaseError "file is not a database") eq_refl eq_refl).
Defined.

(** X6.  SQLite cannot open the file: [connect] raises [e] (not the user's
    interrupt).  When the console can print the path, neither extraction
    function raises; each returns [None] after its own report.  Firefox
    prints its warning line.  Chrome/Edge prints the two "is locked" lines
    exactly when [e] is an [OperationalError] whose text holds "database is
    locked" in any case of letters, "Could not read" for every other
    [OperationalError], and "Could not extract" for the rest.  When the
    console cannot print the path, the [print] in the handler raises and
    both functions pass [UnicodeEncodeError] on. *)
Theorem open_failure_is_reported (w : world) (f : path) (e : exn) :
  opened w f = Unopenable e ->
  is_Exception e = true ->
  extract_ms_token_from_firefox w f
  = (if encodable w (path_str f)
     then ([Connect (cookie_uri f); firefox_warning f e], Ok None)
     else ([Connect (cookie_uri f)], Raise UnicodeEncodeError))
  /\ extract_ms_token_from_chrome_edge w f
     = (if encodable w (path_str f)
        then (Connect (cookie_uri f)
              :: (if says_locked e then chrome_edge_locked f
                  else if is_OperationalError e
                  then [chrome_edge_unreadable f e]
                  else [chrome_edge_failed f e]), Ok None)
        else ([Connect (cookie_uri f)], Raise UnicodeEncodeError)).
Proof.
  intros Hopen He. unfold opened in Hopen.
  unfold extract_ms_token_from_chrome_edge, extract_ms_token_from_firefox,
    connect, print_on, printable.
  rewrite Hopen.
  unfold firefox_warning, chrome_edge_locked, chrome_edge_unreadable,
    chrome_edge_failed, says_locked.
  destruct e; try discriminate He; split; simpl;
    try (destruct (encodable w (path_str f)); reflexivity).
  destruct (contains _ _); simpl;
    destruct (encodable w (path_str f)); reflexivity.
Qed.

Lemma open_failure_is_reported_witness :
  opened w_directory (firefox_path "abc.default")
  = Unopenable (OperationalError "unable to open database file")
  /\ extract_ms_token_from_firefox w_directory (firefox_path "abc.default")
     = ([Connect (cookie_uri (firefox_path "abc.default"));
         firefox_warning (firefox_path "abc.default")
           (OperationalError "unable to open database file")], Ok None)
  /\ extract_ms_token_from_chrome_edge w_directory
       (firefox_path "abc.default")
     = ([Connect (cookie_uri (firefox_path "abc.default"));
         chrome_edge_unreadable (firefox_path "abc.default")
           (OperationalError "unable to open database file")], Ok None).
Proof.
  split; [vm_compute; reflexivity|].
  exact (@open_failure_is_reported w_directory (firefox_path "abc.default")
           (OperationalError "unable to open database file")
           eq_refl eq_refl).
Defined.

(* ===================================================================== *)
(** * Further properties of the dispatcher *)
(* ===================================================================== *)

(** ** A session that cannot be created *)

(** X7.  When [create_sessions] fails (with anything but the user's
    interrupt), each of the four scrape functions ends the process with
    status 1: the session request is the only call made to the service, and
    no file is opened or written. *)
Theorem session_failure_ends_the_run (r : Scraper.remote) (tok : pystr)
  (e : exn) (u h v fmt : pystr) (out : option pystr) (limit : option Z)
  (include_comments : bool) (comment_limit : option Z) (m : M unit) :
  Scraper.create_sessions r tok = Some e ->
  is_Exception e = true ->
  In m [ Scraper.scrape_user r u tok fmt out limit;
         Scraper.scrape_trending r tok fmt out limit;
         Scraper.scrape_hashtag r h tok fmt out limit;
         Scraper.scrape_video r v tok fmt out include_comments
           comment_limit ] ->
  result m = Exit 1
  /\ requests (trace m) = [CreateSessions tok]
  /\ filter writes_file (trace m) = [].
Proof.
  intros Hs He Hm.
  assert (Hrun : forall (k : M unit) (what : string),
            let m' := try_except (Scraper.open_session r tok ;;; k)
                        is_Exception (Scraper.fail what) in
            result m' = Exit 1
            /\ requests (trace m') = [CreateSessions tok]
            /\ filter writes_file (trace m') = []).
  { intros k what. unfold Scraper.open_session. rewrite Hs. simpl.
    rewrite He. simpl. repeat split. }
  destruct Hm as [<- | [<- | [<- | [<- | []]]]]; apply Hrun.
Qed.

Lemma session_failure_ends_the_run_witness :
  let r := {| Scraper.installed := true;
              Scraper.read_file := fun _ => None;
              Scraper.can_write := fun _ => true;
              Scraper.now_iso := py "2024-01-01T00:00:00";
              Scraper.now_stamp := py "20240101_000000";
              Scraper.create_sessions :=
                fun _ => Some (OtherError "browser did not start");
              Scraper.user_info := fun u => inr (JObj []);
              Scraper.user_videos := fun _ _ => ([], None);
              Scraper.trending_videos := fun _ => ([item 1], None);
              Scraper.hashtag_videos := fun _ _ => ([], None);
              Scraper.video_info := fun _ _ => inr (JObj []);
              Scraper.video_comments := fun _ _ _ => ([], None) |} in
  let m := Scraper.scrape_trending r (py "token") (py "json") None None in
  result m = Exit 1
  /\ requests (trace m) = [CreateSessions (py "token")]
  /\ filter writes_file (trace m) = [].
Proof.
  intros r m.
  apply (@session_failure_ends_the_run r (py "token")
           (OtherError "browser did not start") [] [] [] (py "json") None
           None false None m).
  - reflexivity.
  - reflexivity.
  - right. left. reflexivity.
Defined.

(** ** What the video loop collects *)

Lemma collect_videos_exhausts (limit : option Z) (ending : option exn)
  (items : list json) :
  forall (videos : list json) (k : Z),
    Scraper.limit_reached limit (k + Z.of_nat (List.length items)) = false ->
    result (Scraper.collect_videos limit items ending videos k)
    = match ending with
      | Some e => Raise e
      | None => Ok (videos ++ items)
      end.
Proof.
  induction items as [|x items IH]; intros videos k Hnot; simpl.
  - destruct ending; simpl; [reflexivity|]. now rewrite app_nil_r.
  - destruct (progress_report_returns (k + 1) " videos so far...")
      as [t Ht].
    rewrite (result_bind_unit _ Ht).
    assert (Hstep : Scraper.limit_reached limit (k + 1) = false).
    { revert Hnot. unfold Scraper.limit_reached. destruct limit as [n|];
        [|reflexivity].
      simpl List.length. rewrite !andb_false_iff, !Z.leb_gt. lia. }
    rewrite Hstep, IH.
    + destruct ending; [reflexivity|]. now rewrite <- app_assoc.
    + rewrite <- Hnot. f_equal. simpl List.length. lia.
Qed.

Lemma collect_videos_stops (n : Z) (ending : option exn)
  (items : list json) :
  forall (videos : list json) (k : Z),
    (0 <= k < n)%Z ->
    (n <= k + Z.of_nat (List.length items))%Z ->
    result (Scraper.collect_videos (Some n) items ending videos k)
    = Ok (videos ++ firstn (Z.to_nat (n - k)) items).
Proof.
  induction items as [|x items IH]; intros videos k Hk Hn;
    [simpl in Hn; lia|].
  cbn [Scraper.collect_videos].
  destruct (progress_report_returns (k + 1) " videos so far...") as [t Ht].
  rewrite (result_bind_unit _ Ht).
  unfold Scraper.limit_reached.
  destruct (Z.eqb n 0) eqn:Hz; [apply Z.eqb_eq in Hz; lia|].
  cbn [negb andb].
  replace (Z.to_nat (n - k)) with (S (Z.to_nat (n - (k + 1)))) by lia.
  cbn [firstn].
  destruct (n <=? k + 1)%Z eqn:Hle.
  - apply Z.leb_le in Hle. replace (n - (k + 1))%Z with 0%Z by lia.
    reflexivity.
  - apply Z.leb_gt in Hle. rewrite IH.
    + now rewrite <- app_assoc.
    + lia.
    + simpl List.length in Hn. lia.
Qed.

(** X8.  What [async for video in ...videos(count=...)] leaves in [videos],
    for a stream that offers [items] and then ends, normally or with an
    exception.  A positive limit within the number offered gives exactly the
    first [limit] items, and what follows in the stream (its failure
    included) is never seen.  A negative limit gives the first item alone.
    No limit, a limit of 0, or one beyond the items offered exhausts the
    stream: all items, or the stream's exception. *)
Theorem video_limit_gives_exact_prefix (limit : option Z) (rq : request)
  (items : list json) (ending : option exn) :
  let out := result (Scraper.fetch_videos limit rq (items, ending)) in
  (forall n, limit = Some n ->
             (0 < n <= Z.of_nat (List.length items))%Z ->
             out = Ok (firstn (Z.to_nat n) items))
  /\ (forall n, limit = Some n -> (n < 0)%Z -> items <> [] ->
                out = Ok (firstn 1 items))
  /\ (limit = None \/ limit = Some 0%Z
      \/ (exists n, limit = Some n /\ (Z.of_nat (List.length items) < n)%Z) ->
      out = match ending with
            | Some e => Raise e
            | None => Ok items
            end).
Proof.
  unfold Scraper.fetch_videos, emit. cbn [bind ret fst snd result app].
  assert (Hres : forall m : M (list json),
            result (let (t', o) := m in (Remote rq :: t', o)) = result m)
    by (intros [t' o]; reflexivity).
  rewrite Hres. split; [|split].
  - intros n -> Hn.
    rewrite (@collect_videos_stops n ending items [] 0%Z); [|lia|lia].
    now rewrite Z.sub_0_r.
  - intros n -> Hn Hne. destruct items as [|x items]; [congruence|].
    cbn [Scraper.collect_videos].
    destruct (progress_report_returns (0 + 1) " videos so far...")
      as [t Ht].
    rewrite (result_bind_unit _ Ht). unfold Scraper.limit_reached.
    destruct (Z.eqb n 0) eqn:Hz; [apply Z.eqb_eq in Hz; lia|].
    destruct (n <=? 0 + 1)%Z eqn:Hle; [reflexivity|].
    apply Z.leb_gt in Hle. lia.
  - intros Hlimit.
    rewrite (@collect_videos_exhausts limit ending items [] 0%Z);
      [reflexivity|].
    destruct Hlimit as [-> | [-> | [n [-> Hn]]]]; try reflexivity.
    unfold Scraper.limit_reached. apply andb_false_iff. right.
    apply Z.leb_gt. lia.
Qed.

Lemma video_limit_gives_exact_prefix_witness :
  result (Scraper.fetch_videos (Some 2%Z) (TrendingVideos 2)
            ([item 1; item 2; item 3], Some (OtherError "connection lost")))
  = Ok [item 1; item 2]
  /\ result (Scraper.fetch_videos (Some (-4)%Z) (TrendingVideos (-4))
               ([item 1; item 2; item 3], None))
     = Ok [item 1]
  /\ result (Scraper.fetch_videos (Some 5%Z) (TrendingVideos 5)
               ([item 1; item 2; item 3], Some (OtherError "connection lost")))
     = Raise (OtherError "connection lost").
Proof.
  split; [|split].
  - apply (proj1 (@video_limit_gives_exact_prefix (Some 2%Z)
                    (TrendingVideos 2) [item 1; item 2; item 3]
                    (Some (OtherError "connection lost"))) 2%Z eq_refl).
    simpl. lia.
  - apply (proj1 (proj2 (@video_limit_gives_exact_prefix (Some (-4)%Z)
                    (TrendingVideos (-4)) [item 1; item 2; item 3] None))
             (-4)%Z eq_refl); [lia | discriminate].
  - apply (proj2 (proj2 (@video_limit_gives_exact_prefix (Some 5%Z)
                    (TrendingVideos 5) [item 1; item 2; item 3]
                    (Some (OtherError "connection lost"))))).
    right. right. exists 5%Z. split; [reflexivity | simpl; lia].
Defined.

(** ** A stream that breaks *)

Section Prints.

Variable P : event -> Prop.
Hypothesis prints_ok : forall msg, P (Print msg).

Lemma collect_videos_prints (limit : option Z) (items : list json)
  (ending : option exn) :
  forall (videos : list json) (k : Z),
    every P (Scraper.collect_videos limit items ending videos k).
Proof.
  induction items as [|x items IH]; intros videos k; simpl.
  - destruct ending; constructor.
  - apply every_bind.
    + destruct (Z.eqb _ _); [apply every_emit, prints_ok | apply every_ret].
    + intros _ _. destruct (Scraper.limit_reached _ _); [|apply IH].
      apply every_bind; [|intros; apply every_ret].
      destruct limit; [apply every_emit, prints_ok | apply every_ret].
Qed.

End Prints.

Lemma fetch_videos_saves_nothing (limit : option Z) (rq : request)
  (s : Scraper.stream) :
  filter writes_file (trace (Scraper.fetch_videos limit rq s)) = [].
Proof.
  apply filter_none. unfold Scraper.fetch_videos.
  apply every_bind; [apply every_emit; reflexivity|]. intros _ _.
  apply (@collect_videos_prints (fun ev => writes_file ev = false)).
  reflexivity.
Qed.

Lemma fetch_videos_fails (limit : option Z) (rq : request)
  (items : list json) (e : exn) :
  (limit = None \/ limit = Some 0%Z
   \/ (exists n, limit = Some n /\ (Z.of_nat (List.length items) < n)%Z)) ->
  exists t, Scraper.fetch_videos limit rq (items, Some e) = (t, Raise e)
            /\ filter writes_file t = [].
Proof.
  intros Hlimit.
  pose proof (fetch_videos_saves_nothing limit rq (items, Some e)) as Hquiet.
  assert (Hres : result (Scraper.fetch_videos limit rq (items, Some e))
                 = Raise e).
  { unfold Scraper.fetch_videos, emit. cbn [bind ret fst snd result app].
    destruct (Scraper.collect_videos limit items (Some e) [] 0)
      as [t' o'] eqn:Hc.
    change o' with (result (t', o')). rewrite <- Hc.
    rewrite (@collect_videos_exhausts limit (Some e) items [] 0%Z);
      [reflexivity|].
    destruct Hlimit as [-> | [-> | [n [-> Hn]]]]; try reflexivity.
    unfold Scraper.limit_reached. apply andb_false_iff. right.
    apply Z.leb_gt. lia. }
  destruct (Scraper.fetch_videos limit rq (items, Some e)) as [t o].
  simpl in Hres, Hquiet. subst o. exists t. split; [reflexivity | exact Hquiet].
Qed.

(** X9.  No partial save.  In user, trending and hashtag mode, when the
    video stream ends with an exception before a limit stopped the loop (no
    limit, limit 0, or a limit beyond the items offered), the items already
    collected are dropped: the process ends with status 1 and no file is
    opened or written. *)
Theorem broken_stream_saves_nothing (r : Scraper.remote)
  (tok u h fmt : pystr) (out : option pystr) (limit : option Z)
  (items : list json) (e : exn) (fields : list (pystr * json)) :
  Scraper.create_sessions r tok = None ->
  is_Exception e = true ->
  (limit = None \/ limit = Some 0%Z
   \/ (exists n, limit = Some n /\ (Z.of_nat (List.length items) < n)%Z)) ->
  (Scraper.trending_videos r (Scraper.count_or limit 100) = (items, Some e) ->
   fails_without_saving (Scraper.scrape_trending r tok fmt out limit))
  /\ (Scraper.hashtag_videos r h (Scraper.count_or limit 100)
      = (items, Some e) ->
      fails_without_saving (Scraper.scrape_hashtag r h tok fmt out limit))
  /\ (Scraper.user_info r u = inr (JObj fields) ->
      Scraper.user_videos r u (Scraper.count_or limit 1000)
      = (items, Some e) ->
      fails_without_saving (Scraper.scrape_user r u tok fmt out limit)).
Proof.
  intros Hs He Hlimit. unfold fails_without_saving.
  split; [|split].
  - intros Hstream.
    destruct (@fetch_videos_fails limit
                (TrendingVideos (Scraper.count_or limit 100)) items e Hlimit)
      as [t [Hf Ht]].
    unfold Scraper.scrape_trending, Scraper.open_session.
    rewrite Hs, Hstream, Hf. simpl. rewrite He. simpl.
    rewrite filter_app, Ht. split; reflexivity.
  - intros Hstream.
    destruct (@fetch_videos_fails limit
                (HashtagVideos h (Scraper.count_or limit 100)) items e Hlimit)
      as [t [Hf Ht]].
    unfold Scraper.scrape_hashtag, Scraper.open_session.
    rewrite Hs, Hstream, Hf. simpl. rewrite He. simpl.
    rewrite filter_app, Ht. split; reflexivity.
  - intros Hinfo Hstream.
    destruct (@fetch_videos_fails limit
                (UserVideos u (Scraper.count_or limit 1000)) items e Hlimit)
      as [t [Hf Ht]].
    unfold Scraper.scrape_user, Scraper.open_session, Scraper.await.
    rewrite Hs, Hinfo, Hstream, Hf. simpl. rewrite He. simpl.
    rewrite filter_app, Ht. split; reflexivity.
Qed.

Lemma broken_stream_saves_nothing_witness :
  fails_without_saving
    (Scraper.scrape_trending r_broken (py "token") (py "json") None None)
  /\ fails_without_saving
       (Scraper.scrape_user r_broken (py "alice") (py "token") (py "csv")
          (Some (py "out.csv")) (Some 5%Z)).
Proof.
  split.
  - apply (proj1 (@broken_stream_saves_nothing r_broken (py "token") []
                    [] (py "json") None None [item 1; item 2]
                    (OtherError "connection lost") [] eq_refl eq_refl
                    (or_introl eq_refl))).
    reflexivity.
  - apply (proj2 (proj2 (@broken_stream_saves_nothing r_broken (py "token")
                    (py "alice") [] (py "csv") (Some (py "out.csv"))
                    (Some 5%Z) [item 1; item 2]
                    (OtherError "connection lost")
                    [ (py "uniqueId", JStr (py "alice")) ] eq_refl eq_refl
                    (or_intror (or_intror
                       (ex_intro _ 5%Z (conj eq_refl eq_refl))))))).
    + reflexivity.
    + reflexivity.
Defined.

(** ** The JSON document *)



(** ** The session *)

Lemma parse_args_accepts (a : Scraper.argv) (ns : Scraper.namespace) :
  result (Scraper.parse_args a) = Ok ns ->
  Scraper.parse_args a = ([], Ok ns)
  /\ existsb (str_eqb (Scraper.a_mode ns)) Scraper.mode_choices = true.
Proof.
  unfold Scraper.parse_args, check_choice, parser_error.
  destruct (Scraper.opt_mode a) as [m|];
    destruct (Scraper.opt_format a) as [f|];
    destruct (Scraper.opt_target a) as [t|];
    destruct (Scraper.opt_session a) as [s|]; simpl;
    repeat match goal with
           | |- context [if ?c then _ else _] =>
               let H := fresh "Hc" in destruct c eqn:H; simpl
           end;
    try discriminate; intros H; injection H as <-; simpl; split;
    try reflexivity; try assumption.
Qed.

Lemma requests_app (t u : list event) :
  requests (t ++ u) = requests t ++ requests u.
Proof.
  induction t as [|ev t IH]; simpl; [reflexivity|].
  destruct ev; simpl; congruence.
Qed.

Lemma requests_bind_Ok {A B} (m : M A) (f : A -> M B) (t : list event)
  (a : A) :
  m = (t, Ok a) ->
  requests (trace (bind m f)) = requests t ++ requests (trace (f a)).
Proof.
  intros ->. simpl. destruct (f a) as [t' o]. simpl. apply requests_app.
Qed.

(** A scrape function is a session set-up followed by a body, under one
    handler: the session request comes first, whatever follows. *)
Lemma session_comes_first (Q : request -> Prop) (r : Scraper.remote)
  (tok : pystr) (k : M unit) (what : string) :
  every (on_requests Q) k ->
  exists rest,
    requests (trace (try_except (Scraper.open_session r tok ;;; k)
                       is_Exception (Scraper.fail what)))
    = CreateSessions tok :: rest
    /\ Forall Q rest.
Proof.
  intros Hk. unfold Scraper.open_session.
  destruct (Scraper.create_sessions r tok) as [e|]; simpl.
  - destruct (is_Exception e); simpl; exists []; split; auto.
  - apply on_requests_Forall in Hk.
    destruct k as [t [[]|e|c]]; simpl in *.
    + exists (requests t). split; auto.
    + destruct (is_Exception e); simpl.
      * exists (requests t). split; [|exact Hk].
        rewrite requests_app. simpl. now rewrite app_nil_r.
      * exists (requests t). split; auto.
    + exists (requests t). split; auto.
Qed.

Ltac body_requests :=
  unfold Scraper.fetch_videos, Scraper.await, print;
  every_tac;
  try first
        [ apply every_get | apply every_get2 | apply every_slice_to
        | apply every_collect_videos | apply every_collect_comments
        | apply every_open_w | apply every_json_dump
        | apply every_write_user_csv | apply every_write_videos_csv
        | apply every_write_video_csv | apply every_report_saved
        | apply every_fail ];
  try (simpl; discriminate); try reflexivity.

(** X11.  The session of an accepted command line.  When [--session]
    names nothing that exists, or a file that can be read, the run opens
    exactly one session, before any other call to the service, and opens it
    with the token that [--session] designates: the content of the file of
    that name, with surrounding whitespace removed, when there is such a
    file, and the argument itself otherwise; no scrape function asks for a
    second session.  When [--session] names something that exists and
    cannot be read (a directory, a file the user may not read, bytes that
    are no text), [open] or [read] raises in [main], outside any handler:
    the exception ends the run before any session is opened, and nothing is
    printed, requested or written. *)
Theorem one_session_with_the_given_token (r : Scraper.remote)
  (a : Scraper.argv) (ns : Scraper.namespace) :
  result (Scraper.parse_args a) = Ok ns ->
  match session_unreadable r (Scraper.a_session ns) with
  | Some e => Scraper.main r a = ([], Raise e)
  | None =>
      exists rest,
        requests (trace (Scraper.main r a))
        = CreateSessions (session_token r (Scraper.a_session ns)) :: rest
        /\ Forall (fun rq => opens_session rq = false) rest
  end.
Proof.
  intros Hns. destruct (@parse_args_accepts a ns Hns) as [Hparse Hmode].
  unfold session_unreadable, session_token.
  destruct (Scraper.read_file r (Scraper.a_session ns)) as [[e|text]|] eqn:Hr.
  - unfold Scraper.main. rewrite Hparse. cbn [bind]. rewrite Hr. reflexivity.
  - unfold Scraper.main.
    rewrite (@requests_bind_Ok _ _ (Scraper.parse_args a) _ [] ns Hparse).
    rewrite Hr.
    rewrite (@requests_bind_Ok _ _ _ _ [ReadFile (Scraper.a_session ns)]
               (strip text) eq_refl).
    cbn [requests app].
    unfold Scraper.mode_choices in Hmode. simpl in Hmode.
    destruct (str_eqb (Scraper.a_mode ns) (py "user"));
      [|destruct (str_eqb (Scraper.a_mode ns) (py "trending"));
        [|destruct (str_eqb (Scraper.a_mode ns) (py "hashtag"));
          [|destruct (str_eqb (Scraper.a_mode ns) (py "video"));
            [|discriminate Hmode]]]].
    + unfold Scraper.scrape_user. apply session_comes_first. body_requests.
    + unfold Scraper.scrape_trending. apply session_comes_first.
      body_requests.
    + unfold Scraper.scrape_hashtag. apply session_comes_first.
      body_requests.
    + unfold Scraper.scrape_video. apply session_comes_first.
      destruct (Scraper.a_comments ns); body_requests.
  - unfold Scraper.main.
    rewrite (@requests_bind_Ok _ _ (Scraper.parse_args a) _ [] ns Hparse).
    rewrite Hr.
    rewrite (@requests_bind_Ok _ _ _ _ [] (Scraper.a_session ns) eq_refl).
    cbn [requests app].
    unfold Scraper.mode_choices in Hmode. simpl in Hmode.
    destruct (str_eqb (Scraper.a_mode ns) (py "user"));
      [|destruct (str_eqb (Scraper.a_mode ns) (py "trending"));
        [|destruct (str_eqb (Scraper.a_mode ns) (py "hashtag"));
          [|destruct (str_eqb (Scraper.a_mode ns) (py "video"));
            [|discriminate Hmode]]]].
    + unfold Scraper.scrape_user. apply session_comes_first. body_requests.
    + unfold Scraper.scrape_trending. apply session_comes_first.
      body_requests.
    + unfold Scraper.scrape_hashtag. apply session_comes_first.
      body_requests.
    + unfold Scraper.scrape_video. apply session_comes_first.
      destruct (Scraper.a_comments ns); body_requests.
Qed.

Lemma one_session_with_the_given_token_witness :
  (exists rest,
      requests (trace (Scraper.main r_broken
                         (Scraper.Argv (Some (py "user")) (Some (py "alice"))
                            (Some (py "session.txt")) None None None false
                            None)))
      = CreateSessions (py "tok123") :: rest
      /\ Forall (fun rq => opens_session rq = false) rest)
  /\ Scraper.main r_broken
       (Scraper.Argv (Some (py "user")) (Some (py "alice"))
          (Some (py ".")) None None None false None)
     = ([], Raise (OSError "Is a directory")).
Proof.
  split.
  - exact (@one_session_with_the_given_token r_broken
             (Scraper.Argv (Some (py "user")) (Some (py "alice"))
                (Some (py "session.txt")) None None None false None)
             (Scraper.Namespace (py "user") (py "alice") (py "session.txt")
                (py "json") None None false 30%Z)
             eq_refl).
  - exact (@one_session_with_the_given_token r_broken
             (Scraper.Argv (Some (py "user")) (Some (py "alice"))
                (Some (py ".")) None None None false None)
             (Scraper.Namespace (py "user") (py "alice") (py ".")
                (py "json") None None false 30%Z)
             eq_refl).
Defined.

(** ** The default counts *)


Lemma no_requests {A} (m : M A) :
  every (on_requests (fun _ => False)) m -> requests (trace m) = [].
Proof.
  intros H. apply on_requests_Forall in H.
  destruct (requests (trace m)); [reflexivity|]. inversion H; contradiction.
Qed.




Lemma collect_comments_requests (items : list json) (ending : option exn) :
  requests (trace (Scraper.collect_comments items ending [] 0)) = [].
Proof. apply no_requests, every_collect_comments. Qed.












(** ** Items the CSV writers can take *)

Lemma get_dict (fields : list (pystr * json)) (key : string)
  (default : json) :
  Scraper.get (JObj fields) key default
  = ret (field_or (JObj fields) key default).
Proof. reflexivity. Qed.

Lemma get2_dict (fields : list (pystr * json)) (outer inner : string) :
  is_dict (field_or (JObj fields) outer (JObj [])) = true ->
  exists v, Scraper.get2 (JObj fields) outer inner = ret v.
Proof.
  unfold Scraper.get2. rewrite get_dict. simpl bind.
  destruct (field_or _ _ _); try discriminate. intros _.
  eexists. simpl. reflexivity.
Qed.

Lemma get2_not_dict (fields : list (pystr * json)) (outer inner : string) :
  is_dict (field_or (JObj fields) outer (JObj [])) = false ->
  Scraper.get2 (JObj fields) outer inner = raise AttributeError.
Proof.
  unfold Scraper.get2. rewrite get_dict. simpl bind.
  destruct (field_or _ _ _); try discriminate; reflexivity.
Qed.

Lemma slice_to_cases (n : nat) (v : json) :
  (sliceable v = true /\ exists c, Scraper.slice_to n v = ret c)
  \/ (sliceable v = false /\ Scraper.slice_to n v = raise TypeError).
Proof. destruct v; simpl; eauto. Qed.

Ltac raised := eexists; split; reflexivity.

Lemma video_row_cases (item : json) :
  row_or_error Scraper.video_row 8 exportable_video item.
Proof.
  unfold row_or_error, exportable_video, exportable.
  destruct item as [| | | | |fields]; try (simpl; raised).
  cbn [is_dict andb forallb].
  unfold Scraper.video_row. rewrite !get_dict. cbn [bind ret app].
  destruct (is_dict (field_or (JObj fields) "author" (JObj []))) eqn:Ha.
  - destruct (@get2_dict fields "author" "uniqueId" Ha) as [a ->].
    cbn [bind ret app].
    destruct (slice_to_cases 100
                (field_or (JObj fields) "desc" (Scraper.jstr "")))
      as [[-> [c ->]] | [-> ->]]; cbn [bind ret raise app andb];
      [|raised].
    destruct (is_dict (field_or (JObj fields) "stats" (JObj []))) eqn:Hst;
      cbn [andb].
    + destruct (@get2_dict fields "stats" "diggCount" Hst) as [v1 ->].
      destruct (@get2_dict fields "stats" "shareCount" Hst) as [v2 ->].
      destruct (@get2_dict fields "stats" "commentCount" Hst) as [v3 ->].
      destruct (@get2_dict fields "stats" "playCount" Hst) as [v4 ->].
      cbn [bind ret app]. eexists. split; reflexivity.
    + rewrite (@get2_not_dict fields "stats" "diggCount" Hst). raised.
  - rewrite (@get2_not_dict fields "author" "uniqueId" Ha).
    rewrite andb_false_r. raised.
Qed.

Lemma user_video_row_cases (item : json) :
  row_or_error Scraper.user_video_row 7 exportable_user_video item.
Proof.
  unfold row_or_error, exportable_user_video, exportable.
  destruct item as [| | | | |fields]; try (simpl; raised).
  cbn [is_dict andb forallb].
  unfold Scraper.user_video_row. rewrite !get_dict. cbn [bind ret app].
  destruct (slice_to_cases 100
              (field_or (JObj fields) "desc" (Scraper.jstr "")))
    as [[-> [c ->]] | [-> ->]]; cbn [bind ret raise app andb]; [|raised].
  destruct (is_dict (field_or (JObj fields) "stats" (JObj []))) eqn:Hst;
    cbn [andb].
  - destruct (@get2_dict fields "stats" "diggCount" Hst) as [v1 ->].
    destruct (@get2_dict fields "stats" "shareCount" Hst) as [v2 ->].
    destruct (@get2_dict fields "stats" "commentCount" Hst) as [v3 ->].
    destruct (@get2_dict fields "stats" "playCount" Hst) as [v4 ->].
    cbn [bind ret app]. eexists. split; reflexivity.
  - rewrite (@get2_not_dict fields "stats" "diggCount" Hst). raised.
Qed.

Lemma comment_row_cases (item : json) :
  row_or_error Scraper.comment_row 5 exportable_comment item.
Proof.
  unfold row_or_error, exportable_comment, exportable.
  destruct item as [| | | | |fields]; try (simpl; raised).
  cbn [is_dict andb forallb].
  unfold Scraper.comment_row. rewrite !get_dict. cbn [bind ret app].
  destruct (is_dict (field_or (JObj fields) "user" (JObj []))) eqn:Hu.
  - destruct (@get2_dict fields "user" "uniqueId" Hu) as [a ->].
    cbn [bind ret app].
    destruct (slice_to_cases 100
                (field_or (JObj fields) "text" (Scraper.jstr "")))
      as [[-> [c ->]] | [-> ->]]; cbn [bind ret raise app andb]; [|raised].
    eexists. split; reflexivity.
  - rewrite (@get2_not_dict fields "user" "uniqueId" Hu).
    rewrite andb_false_r. raised.
Qed.

(** X12.  Which items the CSV writers can turn into a row.  A video row
    (trending and hashtag mode) is produced exactly for a dictionary whose
    [desc], if present, is a string or a list and whose [author] and
    [stats], if present, are dictionaries; a video row of user mode needs
    the same of [desc] and [stats]; a comment row of [text] and [user].
    The row then has as many cells as the header above it (8, 7 and 5) and
    nothing is printed.  Any other item (a [null] description, say) makes
    the row expression raise. *)
Theorem rows_need_well_formed_items (item : json) :
  row_or_error Scraper.video_row (List.length Scraper.video_header)
    exportable_video item
  /\ row_or_error Scraper.user_video_row
       (List.length Scraper.user_video_header) exportable_user_video item
  /\ row_or_error Scraper.comment_row (List.length Scraper.comment_header)
       exportable_comment item.
Proof.
  split; [|split].
  - exact (video_row_cases item).
  - exact (user_video_row_cases item).
  - exact (comment_row_cases item).
Qed.

(** ** A CSV export that meets a malformed item *)

Lemma write_rows_stops (row_of : json -> M (list json)) (file : pystr)
  (bad : json) (rest : list json) (e : exn) (good : list json) :
  Forall (fun item => exists row, row_of item = ([], Ok row)) good ->
  row_of bad = ([], Raise e) ->
  exists rows,
    Forall2 (fun item row => row_of item = ([], Ok row)) good rows
    /\ write_rows row_of file (good ++ bad :: rest)
       = (List.map (CsvRow file) rows, Raise e).
Proof.
  intros Hgood Hbad. induction Hgood as [|x good [row Hx] _ [rows [Hr IH]]].
  - exists []. split; [constructor|].
    unfold write_rows. simpl. rewrite Hbad. reflexivity.
  - exists (row :: rows). split; [constructor; assumption|].
    change (write_rows row_of file ((x :: good) ++ bad :: rest))
      with ((row <- row_of x ;; Scraper.writerow file row) ;;;
            write_rows row_of file (good ++ bad :: rest)).
    rewrite Hx, IH. reflexivity.
Qed.

(** X13.  The CSV file is written as the items are visited, so a malformed
    item leaves a truncated file.  In trending mode with format [csv], when
    the collected videos are well-formed up to an item that is not, the
    file holds the header row and the rows of the items before it; the
    error is reported and the process ends with status 1. *)
Theorem csv_export_stops_at_first_bad_item (r : Scraper.remote)
  (tok : pystr) (out : option pystr) (limit : option Z)
  (good : list json) (bad : json) (rest : list json) :
  let file :=
    Scraper.default_name out
      (py "tiktok_trending_" ++ Scraper.now_stamp r ++ py ".csv") in
  let m := Scraper.scrape_trending r tok (py "csv") out limit in
  Scraper.create_sessions r tok = None ->
  result (Scraper.fetch_videos limit
            (TrendingVideos (Scraper.count_or limit 100))
            (Scraper.trending_videos r (Scraper.count_or limit 100)))
  = Ok (good ++ bad :: rest) ->
  forallb exportable_video good = true ->
  exportable_video bad = false ->
  Scraper.can_write r file = true ->
  exists rows,
    Forall2 (fun item row => Scraper.video_row item = ([], Ok row)) good rows
    /\ filter writes_file (trace m)
       = OpenForWrite file :: CsvRow file Scraper.video_header
           :: List.map (CsvRow file) rows
    /\ result m = Exit 1.
Proof.
  intros file m Hs Hres Hgood Hbad Hw.
  assert (Hrows : Forall (fun item =>
                     exists row, Scraper.video_row item = ([], Ok row)) good).
  { apply Forall_forall. intros item Hin.
    pose proof (video_row_cases item) as Hc. unfold row_or_error in Hc.
    rewrite forallb_forall in Hgood. rewrite (Hgood item Hin) in Hc.
    destruct Hc as [row [Hrow _]]. exists row. exact Hrow. }
  pose proof (video_row_cases bad) as Hc. unfold row_or_error in Hc.
  rewrite Hbad in Hc. destruct Hc as [e [Hraise He]].
  destruct (@write_rows_stops Scraper.video_row file bad rest e good Hrows
              Hraise) as [rows [Hall Hwrite]].
  exists rows. split; [exact Hall|].
  pose proof (fetch_videos_saves_nothing limit
                (TrendingVideos (Scraper.count_or limit 100))
                (Scraper.trending_videos r (Scraper.count_or limit 100)))
    as Hquiet.
  destruct (Scraper.fetch_videos _ _ _) as [t o] eqn:Hf.
  simpl in Hres, Hquiet. subst o.
  unfold m, Scraper.scrape_trending, Scraper.open_session,
    Scraper.write_videos_csv, Scraper.open_w.
  rewrite Hs, Hf.
  change (str_eqb (py "csv") (py "json")) with false. cbv iota.
  change (py "tiktok_trending_" ++ Scraper.now_stamp r ++ py "." ++ py "csv")
    with (py "tiktok_trending_" ++ Scraper.now_stamp r ++ py ".csv").
  fold file. rewrite Hw. unfold write_rows in Hwrite.
  cbn [bind ret emit print app Scraper.writerow Scraper.report_saved].
  rewrite Hwrite. simpl. rewrite He. simpl.
  rewrite !filter_app, Hquiet. simpl.
  assert (Hkeep : forall l, filter writes_file (List.map (CsvRow file) l)
                            = List.map (CsvRow file) l)
    by (induction l; simpl; congruence).
  rewrite Hkeep, app_nil_r. split; reflexivity.
Qed.

Lemma csv_export_stops_at_first_bad_item_witness :
  exists rows,
    Forall2 (fun item row => Scraper.video_row item = ([], Ok row))
      [item 1; item 2] rows
    /\ filter writes_file
         (trace (Scraper.scrape_trending r_bad_item (py "token") (py "csv")
                   (Some (py "out.csv")) None))
       = OpenForWrite (py "out.csv")
           :: CsvRow (py "out.csv") Scraper.video_header
           :: List.map (CsvRow (py "out.csv")) rows
    /\ result (Scraper.scrape_trending r_bad_item (py "token") (py "csv")
                 (Some (py "out.csv")) None)
       = Exit 1.
Proof.
  apply (@csv_export_stops_at_first_bad_item r_bad_item (py "token")
           (Some (py "out.csv")) None [item 1; item 2] (item_without_text 3)
           [item 4]).
  - reflexivity.
  - vm_compute. reflexivity.
  - vm_compute. reflexivity.
  - vm_compute. reflexivity.
  - reflexivity.
Defined.

(** ** The document of video mode *)

Section CommentPrints.

Variable P : event -> Prop.
Hypothesis prints_ok : forall msg, P (Print msg).


End CommentPrints.




(** ** Options that change nothing *)

(** X15.  Three options the dispatcher accepts and then does not use.  In
    trending mode the value of [--target] (which must still be given) has
    no effect on the run.  In video mode [--limit] has none.  Without
    [--comments], [--comment-limit] has none, in any mode.  The whole run
    (everything printed, requested and written, and how it ends) is the
    same. *)
Theorem options_without_effect (r : Scraper.remote) (a : Scraper.argv) :
  (Scraper.opt_mode a = Some (py "trending") ->
   forall t t', Scraper.main r (with_target a (Some t))
                = Scraper.main r (with_target a (Some t')))
  /\ (Scraper.opt_mode a = Some (py "video") ->
      forall l l', Scraper.main r (with_limit a l)
                   = Scraper.main r (with_limit a l'))
  /\ (Scraper.opt_comments a = false ->
      forall c c', Scraper.main r (with_comment_limit a c)
                   = Scraper.main r (with_comment_limit a c')).
Proof.
  destruct a as [m t s f o l c cl]. unfold with_target, with_limit,
    with_comment_limit. simpl.
  split; [|split].
  - intros -> t1 t2. unfold Scraper.main, Scraper.parse_args. simpl.
    destruct (check_choice "-f/--format" Scraper.format_choices f)
      as [tf [[]|e|x]]; try reflexivity.
    destruct s as [s|]; reflexivity.
  - intros -> l1 l2. unfold Scraper.main, Scraper.parse_args. simpl.
    destruct (check_choice "-f/--format" Scraper.format_choices f)
      as [tf [[]|e|x]]; try reflexivity.
    destruct t as [t|]; destruct s as [s|]; reflexivity.
  - intros -> c1 c2.
    unfold Scraper.main, Scraper.parse_args, check_choice.
    destruct m as [m|]; destruct t as [t|]; destruct s as [s|];
      destruct f as [f|];
      cbn -[Scraper.scrape_user Scraper.scrape_trending
            Scraper.scrape_hashtag Scraper.scrape_video str_eqb existsb];
      repeat match goal with
             | |- context [if existsb ?p ?l then _ else _] =>
                 destruct (existsb p l);
                 cbn -[Scraper.scrape_user Scraper.scrape_trending
                       Scraper.scrape_hashtag Scraper.scrape_video str_eqb
                       existsb]
             end;
      reflexivity.
Qed.

Lemma options_without_effect_witness :
  Scraper.main r_five
    (with_target (cli "trending" (Some "x"%string) "json" None false None)
       (Some (py "alice")))
  = Scraper.main r_five
      (with_target (cli "trending" (Some "x"%string) "json" None false None)
         (Some (py "bob")))
  /\ Scraper.main r_five
       (with_limit (cli "video" (Some "7123"%string) "json" None false None)
          (Some 1%Z))
     = Scraper.main r_five
         (with_limit (cli "video" (Some "7123"%string) "json" None false None)
            (Some 500%Z))
  /\ Scraper.main r_five
       (with_comment_limit
          (cli "video" (Some "7123"%string) "json" None false None)
          (Some 1%Z))
     = Scraper.main r_five
         (with_comment_limit
            (cli "video" (Some "7123"%string) "json" None false None)
            (Some 500%Z)).
Proof.
  split; [|split].
  - exact (proj1 (options_without_effect r_five
                    (cli "trending" (Some "x"%string) "json" None false None))
             eq_refl (py "alice") (py "bob")).
  - exact (proj1 (proj2 (options_without_effect r_five
                    (cli "video" (Some "7123"%string) "json" None false None)))
             eq_refl (Some 1%Z) (Some 500%Z)).
  - exact (proj2 (proj2 (options_without_effect r_five
                    (cli "video" (Some "7123"%string) "json" None false None)))
             eq_refl (Some 1%Z) (Some 500%Z)).
Defined.

(* ===================================================================== *)
(** * Properties of the mock generators *)
(* ===================================================================== *)

(** ** Computations that always run to their end *)













(** ** The generators of records *)





(** ** Observing a run *)

Lemma observed_gbind {A B} (Q : A -> Prop) (m : MockData.G A)
  (f : A -> MockData.G B) (s : MockData.state) :
  always Q m ->
  exists a s', Q a /\ observed (MockData.gbind m f s) = observed (f a s').
Proof.
  intros Hm. destruct (Hm s) as (t & a & s1 & Hrun & Ht & Ha).
  exists a, s1. split; [exact Ha|].
  unfold observed, outcome_of, MockData.gbind. rewrite Hrun. simpl.
  destruct (f a s1) as [t' o]. simpl. now rewrite filter_app, Ht.
Qed.


Tactic Notation "peel" constr(H) "as" ident(a) ident(Ha) :=
  match goal with
  | |- context [observed (MockData.gbind ?m ?f ?s)] =>
      let s' := fresh "s" in
      let E := fresh "E" in
      destruct (@observed_gbind _ _ _ m f s H) as (a & s' & Ha & E);
      rewrite E; clear E
  end.


(** ** Rows of well-formed items *)







(** ** Trending and hashtag mode *)









(** ** User mode *)





(** ** Video mode *)



(** ** The whole mock program *)












